(** * Multi-Calendar Aggregator: recurrence expansion, cache store and
      event aggregation

    A shallow embedding of the algorithmic core of the web part:

    - [RecurrenceUtils.generateRecurringEvents] and
      [RecurrenceUtils.getNextOccurrence] (utils/RecurrenceUtils.ts),
    - [CacheService.set], [CacheService.get] and the typed cache helpers
      (services/CacheService.ts),
    - [CalendarService.getEventsFromSources], [searchEvents],
      [removeDuplicateEvents], [getEventConflicts] and
      [calculateEventOverlap] (services/CalendarService.ts).

    Conventions of the embedding.

    - A JavaScript [Date] and a [moment] are their time value: an integer
      number of milliseconds since the epoch ([Z]).  Invalid dates (NaN) are
      represented only where the code tests for them, in the end date of
      the object that [ValidationUtils.validateRecurrencePattern] receives
      ([PatternObject]).  The local time zone is UTC, so local calendar
      fields are the UTC fields and a calendar day has 86 400 000 ms.
    - JavaScript numbers that count things (intervals, caps, TTL minutes)
      are integers ([Z]).
    - An optional field is an [option]; JavaScript truthiness of an optional
      number ([if (pattern.dayOfMonth)]) is [truthy]: present and non-zero.
    - Strings are [string]; [toLowerCase] folds the ASCII letters.
    - A thrown exception is the [Throw] constructor of [result]. *)

From Stdlib Require Import ZArith Lia Bool DecimalString DecimalZ DecimalPos Sorted
  Permutation.
From stdpp Require Import gmap strings list.
From Equations Require Import Equations.

Open Scope Z_scope.

(** ** Part I: the program *)

(** *** ECMAScript time values (ECMA-262, section "Time Values and Time
        Range"), in UTC *)

Module JSDate.

Definition msPerDay : Z := 86400000.

Definition Day (t : Z) : Z := t / msPerDay.
Definition TimeWithinDay (t : Z) : Z := t mod msPerDay.

Definition DaysInYear (y : Z) : Z :=
  if negb (y mod 4 =? 0) then 365
  else if negb (y mod 100 =? 0) then 366
  else if negb (y mod 400 =? 0) then 365
  else 366.

Definition DayFromYear (y : Z) : Z :=
  365 * (y - 1970) + (y - 1969) / 4 - (y - 1901) / 100 + (y - 1601) / 400.

(** The largest [y] with [DayFromYear y <= d]: a first estimate from the
    mean year length, corrected by at most one year either way. *)
Definition YearFromDay (d : Z) : Z :=
  let y0 := 1970 + (400 * d) / 146097 in
  if DayFromYear (y0 + 1) <=? d then y0 + 1
  else if DayFromYear y0 <=? d then y0
  else y0 - 1.

Definition InLeapYear (d : Z) : Z := DaysInYear (YearFromDay d) - 365.
Definition DayWithinYear (d : Z) : Z := d - DayFromYear (YearFromDay d).

(** Day number within the year of the first day of month [m] (0-based),
    [leap] being 0 or 1. *)
Definition monthOffset (leap m : Z) : Z :=
  if m <=? 0 then 0
  else if m =? 1 then 31
  else if m =? 2 then 59 + leap
  else if m =? 3 then 90 + leap
  else if m =? 4 then 120 + leap
  else if m =? 5 then 151 + leap
  else if m =? 6 then 181 + leap
  else if m =? 7 then 212 + leap
  else if m =? 8 then 243 + leap
  else if m =? 9 then 273 + leap
  else if m =? 10 then 304 + leap
  else if m =? 11 then 334 + leap
  else 365 + leap.

Definition MonthFromDay (d : Z) : Z :=
  let w := DayWithinYear d in
  let leap := InLeapYear d in
  if w <? monthOffset leap 1 then 0
  else if w <? monthOffset leap 2 then 1
  else if w <? monthOffset leap 3 then 2
  else if w <? monthOffset leap 4 then 3
  else if w <? monthOffset leap 5 then 4
  else if w <? monthOffset leap 6 then 5
  else if w <? monthOffset leap 7 then 6
  else if w <? monthOffset leap 8 then 7
  else if w <? monthOffset leap 9 then 8
  else if w <? monthOffset leap 10 then 9
  else if w <? monthOffset leap 11 then 10
  else 11.

Definition DateFromDay (d : Z) : Z :=
  DayWithinYear d - monthOffset (InLeapYear d) (MonthFromDay d) + 1.

Definition YearFromTime (t : Z) : Z := YearFromDay (Day t).
Definition MonthFromTime (t : Z) : Z := MonthFromDay (Day t).
Definition DateFromTime (t : Z) : Z := DateFromDay (Day t).

(** 1 January 1970 was a Thursday. *)
Definition WeekDay (t : Z) : Z := (Day t + 4) mod 7.

(** [MakeDay]: months outside 0..11 carry into the year, the date is
    added linearly, so it may run over the month's end or before its
    start. *)
Definition MakeDay (year month date : Z) : Z :=
  let ym := year + month / 12 in
  let mn := month mod 12 in
  DayFromYear ym + monthOffset (DaysInYear ym - 365) mn + date - 1.

Definition MakeDate (day time : Z) : Z := day * msPerDay + time.

(** [Date.prototype.setDate(dt)] and [Date.prototype.setMonth(m, dt)]. *)
Definition setDate (t dt : Z) : Z :=
  MakeDate (MakeDay (YearFromTime t) (MonthFromTime t) dt) (TimeWithinDay t).

Definition setMonth (t m dt : Z) : Z :=
  MakeDate (MakeDay (YearFromTime t) m dt) (TimeWithinDay t).

(** [Date.UTC(year, month, date)] at midnight plus [ms]. *)
Definition UTC (year month date ms : Z) : Z :=
  MakeDate (MakeDay year month date) ms.

End JSDate.

(** *** The operations of moment.js that the recurrence code calls *)

Module Moment.
Import JSDate.

Definition date (m : Z) : Z := DateFromTime m.
Definition month (m : Z) : Z := MonthFromTime m.
Definition year (m : Z) : Z := YearFromTime m.
Definition day (m : Z) : Z := WeekDay m.

Definition isLeapYear (y : Z) : bool :=
  ((y mod 4 =? 0) && negb (y mod 100 =? 0)) || (y mod 400 =? 0).

Definition daysInMonth (y mth : Z) : Z :=
  let modMonth := mth mod 12 in
  let y' := y + (mth - modMonth) / 12 in
  if modMonth =? 1 then (if isLeapYear y' then 29 else 28)
  else 31 - ((modMonth mod 7) mod 2).

(** moment's [setMonth]: the day of the month is clamped to the length of
    the target month before the underlying [Date.setMonth]. *)
Definition setMonth (m value : Z) : Z :=
  let dayOfMonth := Z.min (date m) (daysInMonth (year m) value) in
  JSDate.setMonth m value dayOfMonth.

(** [m.add(n, 'days')], [m.add(n, 'weeks')], [m.add(n, 'months')],
    [m.add(n, 'years')]: months first, then days, each skipped when
    zero. *)
Definition addMonths (n m : Z) : Z :=
  if n =? 0 then m else setMonth m (month m + n).

Definition addDays (n m : Z) : Z :=
  if n =? 0 then m else JSDate.setDate m (date m + n).

Definition addWeeks (n m : Z) : Z := addDays (n * 7) m.
Definition addYears (n m : Z) : Z := addMonths (n * 12) m.

(** The setters [m.date(v)], [m.month(v)] and [m.day(v)]. *)
Definition set_date (v m : Z) : Z := JSDate.setDate m v.
Definition set_month (v m : Z) : Z := setMonth m v.
Definition set_day (v m : Z) : Z := addDays (v - day m) m.

Definition isBefore (a b : Z) : bool := a <? b.

End Moment.

(** The calendar functions are unfolded last when two terms are compared:
    the moment.js wrappers around them are then unfolded first. *)
Strategy 100 [JSDate.Day JSDate.TimeWithinDay JSDate.DaysInYear JSDate.DayFromYear
  JSDate.YearFromDay JSDate.InLeapYear JSDate.DayWithinYear JSDate.monthOffset
  JSDate.MonthFromDay JSDate.DateFromDay JSDate.YearFromTime JSDate.MonthFromTime
  JSDate.DateFromTime JSDate.WeekDay JSDate.MakeDay JSDate.MakeDate
  JSDate.setDate JSDate.setMonth JSDate.UTC].

(** *** Calendar facts used by the termination argument of the weekday
        loop (and by the theorems of Part II) *)

Module JSDateFacts.
Import JSDate.

Ltac split_tests :=
  repeat match goal with
    | |- context [?a =? ?b] => destruct (Z.eqb_spec a b); simpl
    | |- context [?a <=? ?b] => destruct (Z.leb_spec a b); simpl
    | |- context [?a <? ?b] => destruct (Z.ltb_spec a b); simpl
    end.

(** Evaluate [monthOffset] wherever its arguments are literals. *)
Ltac eval_monthOffset :=
  repeat match goal with
    | |- context [monthOffset ?l ?m] =>
        let v := eval vm_compute in (monthOffset l m) in
        lazymatch v with
        | Z0 => idtac | Zpos _ => idtac | Zneg _ => idtac
        end;
        change (monthOffset l m) with v in *
    | H : context [monthOffset ?l ?m] |- _ =>
        let v := eval vm_compute in (monthOffset l m) in
        lazymatch v with
        | Z0 => idtac | Zpos _ => idtac | Zneg _ => idtac
        end;
        change (monthOffset l m) with v in *
    end.

Lemma DayFromYear_succ y : DayFromYear (y + 1) = DayFromYear y + DaysInYear y.
Proof.
  unfold DayFromYear, DaysInYear. split_tests; Z.div_mod_to_equations; lia.
Qed.

Lemma DaysInYear_range y : DaysInYear y = 365 \/ DaysInYear y = 366.
Proof. unfold DaysInYear. split_tests; auto. Qed.

(** [YearFromDay d] is the year whose days bracket [d]. *)
Lemma YearFromDay_bracket d :
  DayFromYear (YearFromDay d) <= d < DayFromYear (YearFromDay d + 1).
Proof.
  unfold YearFromDay. split_tests;
    unfold DayFromYear in *; Z.div_mod_to_equations; lia.
Qed.

Lemma DayWithinYear_range d :
  0 <= DayWithinYear d < 365 + InLeapYear d.
Proof.
  unfold DayWithinYear, InLeapYear.
  pose proof (YearFromDay_bracket d) as Hb.
  rewrite DayFromYear_succ in Hb. lia.
Qed.

Lemma InLeapYear_range d : InLeapYear d = 0 \/ InLeapYear d = 1.
Proof.
  unfold InLeapYear. destruct (DaysInYear_range (YearFromDay d)); lia.
Qed.

Lemma MonthFromDay_range d : 0 <= MonthFromDay d < 12.
Proof. unfold MonthFromDay. split_tests; lia. Qed.

(** The day of the month lies within the month found by [MonthFromDay]. *)
Lemma DateFromDay_range d :
  1 <= DateFromDay d /\
  DateFromDay d <=
    monthOffset (InLeapYear d) (MonthFromDay d + 1)
    - monthOffset (InLeapYear d) (MonthFromDay d).
Proof.
  unfold DateFromDay, MonthFromDay.
  pose proof (DayWithinYear_range d) as Hw.
  destruct (InLeapYear_range d) as [Hl | Hl]; rewrite Hl in *;
    split_tests; eval_monthOffset; lia.
Qed.

(** Splitting a day number into year, month and date and putting it
    together again gives the day number back. *)
Lemma MakeDay_fields d :
  MakeDay (YearFromDay d) (MonthFromDay d) (DateFromDay d) = d.
Proof.
  unfold MakeDay.
  pose proof (MonthFromDay_range d) as Hm.
  rewrite (Z.div_small (MonthFromDay d) 12), (Z.mod_small (MonthFromDay d) 12)
    by lia.
  rewrite Z.add_0_r. unfold DateFromDay, DayWithinYear, InLeapYear. lia.
Qed.

Lemma MakeDay_date_linear y m dt k :
  MakeDay y m (dt + k) = MakeDay y m dt + k.
Proof. unfold MakeDay. lia. Qed.

Lemma Day_MakeDate d t : 0 <= t < msPerDay -> Day (MakeDate d t) = d.
Proof.
  intros Ht. unfold Day, MakeDate.
  rewrite Z.div_add_l by (unfold msPerDay; lia).
  rewrite (Z.div_small t) by lia. lia.
Qed.

Lemma TimeWithinDay_range t : 0 <= TimeWithinDay t < msPerDay.
Proof. unfold TimeWithinDay. apply Z.mod_pos_bound. unfold msPerDay. lia. Qed.

Lemma TimeWithinDay_MakeDate d t :
  0 <= t < msPerDay -> TimeWithinDay (MakeDate d t) = t.
Proof.
  intros Ht. unfold TimeWithinDay, MakeDate.
  rewrite Z.add_comm, Z.mod_add by (unfold msPerDay; lia).
  apply Z.mod_small. lia.
Qed.

Lemma MakeDate_Day t : MakeDate (Day t) (TimeWithinDay t) = t.
Proof.
  unfold MakeDate, Day, TimeWithinDay.
  pose proof (Z.div_mod t msPerDay). unfold msPerDay in *. lia.
Qed.

(** [setDate] to the current date plus [k] moves the time value by [k]
    whole days. *)
Lemma setDate_shift t k :
  setDate t (DateFromTime t + k) = t + k * msPerDay.
Proof.
  unfold setDate, YearFromTime, MonthFromTime, DateFromTime.
  rewrite MakeDay_date_linear, MakeDay_fields.
  pose proof (MakeDate_Day t). unfold MakeDate in *. lia.
Qed.

Lemma Day_shift t k : Day (t + k * msPerDay) = Day t + k.
Proof. unfold Day. apply Z.div_add. unfold msPerDay. lia. Qed.

Lemma TimeWithinDay_shift t k : TimeWithinDay (t + k * msPerDay) = TimeWithinDay t.
Proof. unfold TimeWithinDay. apply Z.mod_add. unfold msPerDay. lia. Qed.

Lemma WeekDay_shift t k : WeekDay (t + k * msPerDay) = (WeekDay t + k) mod 7.
Proof.
  unfold WeekDay. rewrite Day_shift.
  rewrite Zplus_mod_idemp_l. f_equal. lia.
Qed.

Lemma WeekDay_range t : 0 <= WeekDay t < 7.
Proof. unfold WeekDay. apply Z.mod_pos_bound. lia. Qed.

End JSDateFacts.

Module MomentFacts.
Import JSDate Moment JSDateFacts.

Lemma addDays_shift n m : addDays n m = m + n * msPerDay.
Proof.
  unfold addDays. destruct (Z.eqb_spec n 0) as [-> | _]; [lia |].
  apply setDate_shift.
Qed.

Lemma day_addDays n m : day (addDays n m) = (day m + n) mod 7.
Proof. rewrite addDays_shift. apply WeekDay_shift. Qed.

End MomentFacts.

(** *** JavaScript helpers: truthiness, strings, arrays *)

Module JS.

(** [if (x)] for an optional number: present and not zero. *)
Definition truthy (o : option Z) : bool :=
  match o with
  | Some n => negb (n =? 0)
  | None => false
  end.

(** [if (s)] for a string: not empty. *)
Definition truthyStr (s : string) : bool :=
  match s with
  | EmptyString => false
  | String _ _ => true
  end.

(** A template literal's rendering of an integer. *)
Definition numberToString (n : Z) : string := NilZero.string_of_int (Z.to_int n).

Definition lowerChar (c : Ascii.ascii) : Ascii.ascii :=
  let n := Ascii.N_of_ascii c in
  if ((65 <=? n) && (n <=? 90))%N then Ascii.ascii_of_N (n + 32) else c.

Fixpoint toLowerCase (s : string) : string :=
  match s with
  | EmptyString => EmptyString
  | String c s' => String (lowerChar c) (toLowerCase s')
  end.

(** [hay.includes(needle)]. *)
Fixpoint includes (hay needle : string) : bool :=
  String.prefix needle hay ||
  match hay with
  | EmptyString => false
  | String _ hay' => includes hay' needle
  end.

Definition isWhiteSpace (c : Ascii.ascii) : bool :=
  let n := Ascii.N_of_ascii c in
  ((n =? 32) || ((9 <=? n) && (n <=? 13)))%N.

Fixpoint trimStart (s : string) : string :=
  match s with
  | EmptyString => EmptyString
  | String c s' => if isWhiteSpace c then trimStart s' else s
  end.

Definition trimEnd (s : string) : string :=
  String.rev (trimStart (String.rev s)).

Definition trim (s : string) : string := trimEnd (trimStart s).

(** [arr.join(sep)]. *)
Definition join (sep : string) (l : list string) : string := String.concat sep l.

(** [arr.slice(0, n)]: a negative [n] counts from the end. *)
Definition slice0 {A} (n : Z) (l : list A) : list A :=
  if n <? 0 then firstn (Z.to_nat (Z.of_nat (length l) + n)) l
  else firstn (Z.to_nat n) l.

(** [arr.sort(cmp)]: a stable sort; [cmp a b <= 0] keeps [a] before [b].
    For a comparator that is a total preorder the stable result is unique,
    here computed by insertion. *)
Fixpoint insertBy {A} (cmp : A -> A -> Z) (x : A) (l : list A) : list A :=
  match l with
  | [] => [x]
  | y :: l' => if cmp x y <=? 0 then x :: l else y :: insertBy cmp x l'
  end.

Fixpoint sortBy {A} (cmp : A -> A -> Z) (l : list A) : list A :=
  match l with
  | [] => []
  | x :: l' => insertBy cmp x (sortBy cmp l')
  end.

(** The default [arr.sort()] on strings: by code unit. *)
Definition compareStrings (a b : string) : Z :=
  match String.compare a b with
  | Lt => -1
  | Eq => 0
  | Gt => 1
  end.

(** [Math.ceil(a / b)] for integers, [b > 0]. *)
Definition ceilDiv (a b : Z) : Z := - ((- a) / b).

(** The outcome of a call that may throw. *)
Inductive result (A : Type) : Type :=
| Ok (value : A)
| Throw (message : string).
Arguments Ok {A} value.
Arguments Throw {A} message.

(** [do { s = body(s); } while (cond(s))], for a loop that comes with a
    bound [left] on the iterations still to run. *)
Definition inspect {A} (a : A) : {b : A | a = b} := exist _ a eq_refl.

Section DoWhile.
Context {S : Type} (body : S -> S) (cond : S -> bool) (left : S -> nat).
Hypothesis left_decreases :
  forall s, cond (body s) = true -> (left (body (body s)) < left (body s))%nat.

Equations doWhile (s : S) : S by wf (left (body s)) lt :=
  doWhile s with inspect (cond (body s)) := {
    | exist _ true _ => doWhile (body s);
    | exist _ false _ => body s }.

End DoWhile.

(** [ToInt32]: what [x << n] and [x & x] bring a number to. *)
Definition toInt32 (x : Z) : Z := (x + 2147483648) mod 4294967296 - 2147483648.

(** [s.split(sep)] for a one-character separator: the pieces between the
    separators, an empty piece where two of them touch or one stands at an
    end; never an empty array. *)
Fixpoint splitOn (sep : Ascii.ascii) (s : string) : list string :=
  match s with
  | EmptyString => [EmptyString]
  | String c s' =>
      if Ascii.eqb c sep then EmptyString :: splitOn sep s'
      else match splitOn sep s' with
           | piece :: rest => String c piece :: rest
           | [] => [String c EmptyString]
           end
  end.

(** [arr.includes(x)] on an array of strings. *)
Definition includesString (arr : list string) (x : string) : bool :=
  existsb (String.eqb x) arr.

(** [s.padStart(width, '0')]. *)
Definition padStartZeros (width : nat) (s : string) : string :=
  String.concat "" (List.repeat "0" (width - String.length s)) +:+ s.

(** [!!s] for an optional string: present and not empty. *)
Definition truthyOptStr (o : option string) : bool :=
  match o with
  | Some s => truthyStr s
  | None => false
  end.

End JS.

(** *** Data model (models/ICalendarModels.ts, models/IEventModels.ts) *)

Inductive CalendarSourceType : Type :=
| SharePoint
| SharePointList
| SharePointCommunicationSite
| Exchange.

Module ICalendarSource.
Record t : Type := mk {
  id : string;
  title : string;
  description : string;
  type : CalendarSourceType;
  url : string;
  siteTitle : string;
  siteUrl : string;
  color : string;
  isEnabled : bool;
  itemCount : option Z;
  lastModified : option string;
  canEdit : option bool;
  canShare : option bool
}.
End ICalendarSource.

Module IEventAttendee.
Record t : Type := mk {
  name : string;
  email : string;
  response : string;
  type : string;
  isOrganizer : option bool
}.
End IEventAttendee.

Module IEventAttachment.
Record t : Type := mk {
  id : option string;
  name : string;
  contentType : string;
  size : Z;
  url : option string;
  content : option string;
  isInline : bool;
  lastModified : option Z
}.
End IEventAttachment.

Module ICalendarEvent.
Record t : Type := mk {
  id : string;
  title : string;
  description : string;
  start : Z;
  end_ : Z;
  location : option string;
  category : option string;
  isAllDay : bool;
  isRecurring : bool;
  calendarId : string;
  calendarTitle : string;
  calendarType : CalendarSourceType;
  organizer : string;
  created : Z;
  modified : Z;
  webUrl : string;
  color : string;
  importance : option string;
  sensitivity : option string;
  showAs : option string;
  attendees : option (list IEventAttendee.t);
  attachments : option (list IEventAttachment.t);
  tags : option (list string);
  masterSeriesId : option string;
  isException : option bool
}.
End ICalendarEvent.

Inductive RecurrenceType : Type :=
| daily
| weekly
| monthly
| yearly
| weekdays
| custom.

Module IRecurrencePattern.
Record t : Type := mk {
  type : RecurrenceType;
  interval : Z;
  daysOfWeek : option (list Z);
  dayOfMonth : option Z;
  weekOfMonth : option Z;
  monthOfYear : option Z;
  endDate : option Z;
  occurrences : option Z;
  firstDayOfWeek : option Z
}.
End IRecurrencePattern.

(** The search criteria of [advancedSearch]; the free-form [customFilters]
    object, which no filter reads, is left out. *)
Module IEventSearchCriteria.
Record t : Type := mk {
  query : option string;
  calendarIds : option (list string);
  startDate : option Z;
  endDate : option Z;
  categories : option (list string);
  organizers : option (list string);
  attendees : option (list string);
  importance : option (list string);
  sensitivity : option (list string);
  hasAttachments : option bool;
  isRecurring : option bool;
  isAllDay : option bool;
  tags : option (list string)
}.
End IEventSearchCriteria.

(** *** utils/RecurrenceUtils.ts *)

Module RecurrenceUtils.
Import JS Moment.

Definition isWeekend (m : Z) : bool := (day m =? 0) || (day m =? 6).

(** How many more times the body of the [do ... while] of the weekdays case
    runs once it has brought the date to [m]: twice from a Saturday, once
    from a Sunday. *)
Definition weekendLeft (m : Z) : nat :=
  if day m =? 6 then 2%nat
  else if day m =? 0 then 1%nat
  else 0%nat.

Lemma weekendLeft_decreases m :
  isWeekend (addDays 1 m) = true ->
  (weekendLeft (addDays 1 (addDays 1 m)) < weekendLeft (addDays 1 m))%nat.
Proof.
  unfold isWeekend, weekendLeft.
  rewrite (MomentFacts.day_addDays 1 (addDays 1 m)).
  destruct (Z.eqb_spec (day (addDays 1 m)) 6) as [-> | H6];
    [change ((6 + 1) mod 7) with 0; cbn; lia |].
  destruct (Z.eqb_spec (day (addDays 1 m)) 0) as [-> | H0];
    [change ((0 + 1) mod 7) with 1; cbn; lia |].
  discriminate.
Qed.

(** [do { next.add(1, 'day'); } while (next.day() === 0 || next.day() === 6)] *)
Definition skipWeekend (next : Z) : Z :=
  doWhile (addDays 1) isWeekend weekendLeft weekendLeft_decreases next.

Definition sortDays (days : list Z) : list Z := sortBy (fun a b => a - b) days.

(** [getNextOccurrence(currentDate, pattern, baseDate?)].  The optional
    third argument is accepted and never read, as in the source. *)
Definition getNextOccurrence (currentDate : Z) (pattern : IRecurrencePattern.t)
    (baseDate : option Z) : Z :=
  let next := currentDate in
  let interval := IRecurrencePattern.interval pattern in
  match IRecurrencePattern.type pattern with
  | daily => addDays interval next
  | weekly =>
      match IRecurrencePattern.daysOfWeek pattern with
      | Some (d :: ds) =>
          let currentDayOfWeek := day next in
          let sortedDays := sortDays (d :: ds) in
          match List.find (fun dd => currentDayOfWeek <? dd) sortedDays with
          | Some nextDay => set_day nextDay next
          | None => set_day (List.hd d sortedDays) (addWeeks interval next)
          end
      | _ => addWeeks interval next
      end
  | monthly =>
      match IRecurrencePattern.dayOfMonth pattern with
      | Some dom =>
          if truthy (Some dom) then
            let next1 := set_date dom (addMonths interval next) in
            if negb (date next1 =? dom) then set_date 0 next1 else next1
          else addMonths interval next
      | None => addMonths interval next
      end
  | yearly =>
      let next1 := addYears interval next in
      let next2 :=
        match IRecurrencePattern.monthOfYear pattern with
        | Some moy => if truthy (Some moy) then set_month (moy - 1) next1 else next1
        | None => next1
        end in
      match IRecurrencePattern.dayOfMonth pattern with
      | Some dom => if truthy (Some dom) then set_date dom next2 else next2
      | None => next2
      end
  | weekdays => skipWeekend next
  | custom => addDays interval next
  end.

(** The object literal built for one occurrence:
    [{...baseEvent, id, start, end}]. *)
Definition recurringEvent (baseEvent : ICalendarEvent.t) (occurrenceCount : Z)
    (currentDate eventDuration : Z) : ICalendarEvent.t :=
  {| ICalendarEvent.id :=
       ICalendarEvent.id baseEvent +:+ "_recur_" +:+ numberToString occurrenceCount;
     ICalendarEvent.title := ICalendarEvent.title baseEvent;
     ICalendarEvent.description := ICalendarEvent.description baseEvent;
     ICalendarEvent.start := currentDate;
     ICalendarEvent.end_ := currentDate + eventDuration;
     ICalendarEvent.location := ICalendarEvent.location baseEvent;
     ICalendarEvent.category := ICalendarEvent.category baseEvent;
     ICalendarEvent.isAllDay := ICalendarEvent.isAllDay baseEvent;
     ICalendarEvent.isRecurring := ICalendarEvent.isRecurring baseEvent;
     ICalendarEvent.calendarId := ICalendarEvent.calendarId baseEvent;
     ICalendarEvent.calendarTitle := ICalendarEvent.calendarTitle baseEvent;
     ICalendarEvent.calendarType := ICalendarEvent.calendarType baseEvent;
     ICalendarEvent.organizer := ICalendarEvent.organizer baseEvent;
     ICalendarEvent.created := ICalendarEvent.created baseEvent;
     ICalendarEvent.modified := ICalendarEvent.modified baseEvent;
     ICalendarEvent.webUrl := ICalendarEvent.webUrl baseEvent;
     ICalendarEvent.color := ICalendarEvent.color baseEvent;
     ICalendarEvent.importance := ICalendarEvent.importance baseEvent;
     ICalendarEvent.sensitivity := ICalendarEvent.sensitivity baseEvent;
     ICalendarEvent.showAs := ICalendarEvent.showAs baseEvent;
     ICalendarEvent.attendees := ICalendarEvent.attendees baseEvent;
     ICalendarEvent.attachments := ICalendarEvent.attachments baseEvent;
     ICalendarEvent.tags := ICalendarEvent.tags baseEvent;
     ICalendarEvent.masterSeriesId := ICalendarEvent.masterSeriesId baseEvent;
     ICalendarEvent.isException := ICalendarEvent.isException baseEvent |}.

(** The guard of the [while] loop. *)
Definition loopGuard (pattern : IRecurrencePattern.t) (endDate maxOccurrences : Z)
    (currentDate occurrenceCount : Z) : bool :=
  isBefore currentDate endDate
  && (occurrenceCount <? maxOccurrences)
  && match IRecurrencePattern.endDate pattern with
     | Some patternEnd => isBefore currentDate patternEnd
     | None => true
     end
  && (negb (truthy (IRecurrencePattern.occurrences pattern))
      || match IRecurrencePattern.occurrences pattern with
         | Some n => occurrenceCount <? n
         | None => true
         end).

(** The [while] loop, run for at most [fuel] iterations: [None] when the
    guard still holds after [fuel] iterations. *)
Fixpoint expandLoop (fuel : nat) (baseEvent : ICalendarEvent.t)
    (pattern : IRecurrencePattern.t) (endDate maxOccurrences eventDuration : Z)
    (currentDate occurrenceCount : Z) (events : list ICalendarEvent.t)
    : option (list ICalendarEvent.t) :=
  if loopGuard pattern endDate maxOccurrences currentDate occurrenceCount then
    match fuel with
    | O => None
    | S fuel' =>
        expandLoop fuel' baseEvent pattern endDate maxOccurrences eventDuration
          (getNextOccurrence currentDate pattern None)
          (occurrenceCount + 1)
          (events ++ [recurringEvent baseEvent occurrenceCount currentDate eventDuration])
    end
  else Some events.

(** The cursor before the loop: the base event's start, or, when that lies
    before the window, one step of the pattern taken from the window's
    start. *)
Definition initialDate (baseEvent : ICalendarEvent.t) (pattern : IRecurrencePattern.t)
    (startDate : Z) : Z :=
  let currentDate := ICalendarEvent.start baseEvent in
  if isBefore currentDate startDate then
    getNextOccurrence startDate pattern (Some (ICalendarEvent.start baseEvent))
  else currentDate.

Definition generateRecurringEvents (fuel : nat) (baseEvent : ICalendarEvent.t)
    (pattern : IRecurrencePattern.t) (startDate endDate : Z) (maxOccurrences : Z)
    : option (list ICalendarEvent.t) :=
  let eventDuration := ICalendarEvent.end_ baseEvent - ICalendarEvent.start baseEvent in
  expandLoop fuel baseEvent pattern endDate maxOccurrences eventDuration
    (initialDate baseEvent pattern startDate) 0 [].

(** [validateRecurrencePattern]: the error messages it collects. *)
Definition validateRecurrencePattern (pattern : IRecurrencePattern.t) : list string :=
  let interval := IRecurrencePattern.interval pattern in
  let dayOfMonthErr :=
    match IRecurrencePattern.dayOfMonth pattern with
    | Some d =>
        if truthy (Some d) && ((d <? 1) || (31 <? d))
        then ["Day of month must be between 1 and 31"] else []
    | None => []
    end in
  (if (interval =? 0) || (interval <? 1)
   then ["Recurrence interval must be at least 1"] else [])
  ++ (if 999 <? interval then ["Recurrence interval cannot exceed 999"] else [])
  ++ match IRecurrencePattern.type pattern with
     | weekly =>
         match IRecurrencePattern.daysOfWeek pattern with
         | Some days =>
             (if Nat.eqb (length days) 0
              then ["Weekly recurrence must specify at least one day of the week"]
              else [])
             ++ (if Nat.ltb 0 (length (List.filter (fun d => (d <? 0) || (6 <? d)) days))
                 then ["Days of week must be between 0 (Sunday) and 6 (Saturday)"]
                 else [])
         | None => []
         end
     | monthly =>
         dayOfMonthErr
         ++ match IRecurrencePattern.weekOfMonth pattern with
            | Some w =>
                if truthy (Some w) && ((w <? -1) || (w =? 0) || (4 <? w))
                then ["Week of month must be between 1-4 or -1 (last week)"] else []
            | None => []
            end
     | yearly =>
         match IRecurrencePattern.monthOfYear pattern with
         | Some m =>
             if truthy (Some m) && ((m <? 1) || (12 <? m))
             then ["Month of year must be between 1 and 12"] else []
         | None => []
         end
         ++ dayOfMonthErr
     | _ => []
     end
  ++ (match IRecurrencePattern.endDate pattern with
      | Some _ =>
          if truthy (IRecurrencePattern.occurrences pattern)
          then ["Cannot specify both end date and number of occurrences"] else []
      | None => []
      end)
  ++ (match IRecurrencePattern.occurrences pattern with
      | Some n =>
          (if truthy (Some n) && (n <? 1)
           then ["Number of occurrences must be at least 1"] else [])
          ++ (if truthy (Some n) && (999 <? n)
              then ["Number of occurrences cannot exceed 999"] else [])
      | None => []
      end).

Definition isValidPattern (pattern : IRecurrencePattern.t) : bool :=
  Nat.eqb (length (validateRecurrencePattern pattern)) 0.

(** [getNextOccurrenceDate]: a missing pattern gives [undefined]. *)
Definition getNextOccurrenceDate (event : ICalendarEvent.t)
    (pattern : option IRecurrencePattern.t) : option Z :=
  match pattern with
  | None => None
  | Some p => Some (getNextOccurrence (ICalendarEvent.start event) p None)
  end.

Definition isRecurringEvent (event : ICalendarEvent.t) : bool :=
  ICalendarEvent.isRecurring event || truthyOptStr (ICalendarEvent.masterSeriesId event).

Definition isRecurringException (event : ICalendarEvent.t) : bool :=
  match ICalendarEvent.isException event with
  | Some b => b
  | None => false
  end
  || truthyOptStr (ICalendarEvent.masterSeriesId event).

Definition findMasterEvent (events : list ICalendarEvent.t) (seriesId : string)
    : option ICalendarEvent.t :=
  List.find
    (fun event =>
       String.eqb (ICalendarEvent.id event) seriesId
       && ICalendarEvent.isRecurring event
       && negb match ICalendarEvent.isException event with
               | Some b => b
               | None => false
               end)
    events.

Definition findSeriesInstances (events : list ICalendarEvent.t) (seriesId : string)
    : list ICalendarEvent.t :=
  List.filter
    (fun event =>
       String.eqb (ICalendarEvent.id event) seriesId
       || match ICalendarEvent.masterSeriesId event with
          | Some master => String.eqb master seriesId
          | None => false
          end)
    events.

(** [createSimplePattern(type, interval = 1, endDate?, occurrences?)]: an
    occurrence count of 0 is dropped like a missing one. *)
Definition createSimplePattern (type : RecurrenceType) (interval : option Z)
    (endDate : option Z) (occurrences : option Z) : IRecurrencePattern.t :=
  {| IRecurrencePattern.type := type;
     IRecurrencePattern.interval :=
       match interval with
       | Some n => n
       | None => 1
       end;
     IRecurrencePattern.daysOfWeek := None;
     IRecurrencePattern.dayOfMonth := None;
     IRecurrencePattern.weekOfMonth := None;
     IRecurrencePattern.monthOfYear := None;
     IRecurrencePattern.endDate := endDate;
     IRecurrencePattern.occurrences :=
       if truthy occurrences then occurrences else None;
     IRecurrencePattern.firstDayOfWeek := None |}.

(** [dateMatchesPattern].  [a.diff(b, 'days')] and [a.diff(b, 'weeks')] are
    the difference in milliseconds divided by the length of the unit and
    truncated towards zero; [x % y === 0] is false for [y = 0].  The
    differences in months and years, which moment computes with fractions
    of a month, are taken from the two functions given. *)
Definition diffDays (a b : Z) : Z := Z.quot (a - b) JSDate.msPerDay.
Definition diffWeeks (a b : Z) : Z := Z.quot (a - b) (7 * JSDate.msPerDay).

Definition remIsZero (x y : Z) : bool := negb (y =? 0) && (Z.rem x y =? 0).

Definition dateMatchesPattern (diffMonths diffYears : Z -> Z -> Z)
    (date : Z) (pattern : IRecurrencePattern.t) (baseDate : Z) : bool :=
  let interval := IRecurrencePattern.interval pattern in
  let dayOfMonthOk :=
    negb (truthy (IRecurrencePattern.dayOfMonth pattern))
    || match IRecurrencePattern.dayOfMonth pattern with
       | Some dom => Moment.date date =? dom
       | None => false
       end in
  match IRecurrencePattern.type pattern with
  | daily =>
      let daysDiff := diffDays date baseDate in
      (0 <=? daysDiff) && remIsZero daysDiff interval
  | weekly =>
      let weeksDiff := diffWeeks date baseDate in
      let dayOfWeek := day date in
      (0 <=? weeksDiff) && remIsZero weeksDiff interval
      && match IRecurrencePattern.daysOfWeek pattern with
         | Some days => existsb (Z.eqb dayOfWeek) days
         | None => true
         end
  | monthly =>
      let monthsDiff := diffMonths date baseDate in
      (0 <=? monthsDiff) && remIsZero monthsDiff interval && dayOfMonthOk
  | yearly =>
      let yearsDiff := diffYears date baseDate in
      (0 <=? yearsDiff) && remIsZero yearsDiff interval
      && (negb (truthy (IRecurrencePattern.monthOfYear pattern))
          || match IRecurrencePattern.monthOfYear pattern with
             | Some moy => month date + 1 =? moy
             | None => false
             end)
      && dayOfMonthOk
  | weekdays =>
      let d := day date in (1 <=? d) && (d <=? 5)
  | custom => false
  end.

End RecurrenceUtils.

(** *** constants/AppConstants.ts (the constants used below) *)

Module AppConstants.
Definition CACHE_KEY_PREFIX : string := "multi-calendar-aggregator-".
Definition CACHE_DURATION_MINUTES : Z := 15.
Definition CACHE_SOURCES_KEY : string := "calendar-sources".
Definition CACHE_EVENTS_KEY : string := "calendar-events".
End AppConstants.

(** *** services/CacheService.ts

    The store is the [Map] from keys to cache items together with the
    configured default TTL.  Every method that reads [Date.now()] takes the
    reading as its argument [now]; the two readings taken inside one [set]
    (for the item and for the sweep) are the same instant. *)

Module CacheService.
Import JS.

Record ICacheItem (T : Type) : Type := mkItem {
  data : T;
  timestamp : Z;
  expiry : Z
}.
Arguments mkItem {T} data timestamp expiry.
Arguments data {T} _.
Arguments timestamp {T} _.
Arguments expiry {T} _.

Record t (T : Type) : Type := mk {
  cache : gmap string (ICacheItem T);
  defaultTtl : Z
}.
Arguments mk {T} cache defaultTtl.
Arguments cache {T} _.
Arguments defaultTtl {T} _.

Record ICacheHealth : Type := mkHealth {
  totalItems : Z;
  expiredItems : Z;
  memoryUsage : Z;
  hitRate : Z
}.

Section Store.
Context {T : Type}.

Definition create : t T :=
  {| cache := ∅; defaultTtl := AppConstants.CACHE_DURATION_MINUTES * 60 * 1000 |}.

Definition generateKey (prefix identifier : string) : string :=
  AppConstants.CACHE_KEY_PREFIX +:+ prefix +:+ "-" +:+ identifier.

(** [cleanupExpired]: collect the keys of the expired items, then delete
    them one by one. *)
Definition expiredKeys (now : Z) (m : gmap string (ICacheItem T)) : list string :=
  List.map fst
    (List.filter (fun kv : string * ICacheItem T => expiry (snd kv) <? now)
       (map_to_list m)).

Definition cleanupExpired (now : Z) (s : t T) : t T :=
  {| cache := fold_left (fun m key => delete key m) (expiredKeys now (cache s)) (cache s);
     defaultTtl := defaultTtl s |}.

Definition set (now : Z) (key : string) (value : T) (ttlMinutes : option Z)
    (s : t T) : t T :=
  let ttl :=
    match ttlMinutes with
    | Some minutes => if truthy (Some minutes) then minutes * 60 * 1000 else defaultTtl s
    | None => defaultTtl s
    end in
  let cacheItem := {| data := value; timestamp := now; expiry := now + ttl |} in
  cleanupExpired now
    {| cache := <[key := cacheItem]> (cache s); defaultTtl := defaultTtl s |}.

Definition get (now : Z) (key : string) (s : t T) : option T * t T :=
  match cache s !! key with
  | None => (None, s)
  | Some item =>
      if expiry item <? now
      then (None, {| cache := delete key (cache s); defaultTtl := defaultTtl s |})
      else (Some (data item), s)
  end.

Definition configure (defaultTtlMinutes : option Z) (s : t T) : t T :=
  match defaultTtlMinutes with
  | Some minutes =>
      if truthy (Some minutes)
      then {| cache := cache s; defaultTtl := minutes * 60 * 1000 |}
      else s
  | None => s
  end.

(** The typed entry points used by the aggregator. *)
Definition setCachedEvents (now : Z) (calendarId : string) (events : T)
    (ttlMinutes : option Z) (s : t T) : t T :=
  set now (generateKey AppConstants.CACHE_EVENTS_KEY calendarId) events ttlMinutes s.

Definition getCachedEvents (now : Z) (calendarId : string) (s : t T) : option T * t T :=
  get now (generateKey AppConstants.CACHE_EVENTS_KEY calendarId) s.

Definition aggregatedKey (calendarIds : list string) : string :=
  let sortedIds := join "," (sortBy compareStrings calendarIds) in
  generateKey AppConstants.CACHE_EVENTS_KEY ("aggregated-" +:+ sortedIds).

Definition setCachedAggregatedEvents (now : Z) (calendarIds : list string)
    (events : T) (ttlMinutes : option Z) (s : t T) : t T :=
  set now (aggregatedKey calendarIds) events ttlMinutes s.

Definition getCachedAggregatedEvents (now : Z) (calendarIds : list string)
    (s : t T) : option T * t T :=
  get now (aggregatedKey calendarIds) s.

Definition searchKey (query : string) : string :=
  let normalizedQuery := trim (toLowerCase query) in
  generateKey "search" normalizedQuery.

Definition setCachedSearchResults (now : Z) (query : string) (results : T)
    (ttlMinutes : option Z) (s : t T) : t T :=
  set now (searchKey query) results
    (if truthy ttlMinutes then ttlMinutes else Some 5) s.

Definition getCachedSearchResults (now : Z) (query : string) (s : t T)
    : option T * t T :=
  get now (searchKey query) s.

(** [has]: like [get], it drops the entry it finds expired. *)
Definition has (now : Z) (key : string) (s : t T) : bool * t T :=
  match cache s !! key with
  | None => (false, s)
  | Some item =>
      if expiry item <? now
      then (false, {| cache := delete key (cache s); defaultTtl := defaultTtl s |})
      else (true, s)
  end.

(** [delete]: [Map.delete] tells whether the key was there. *)
Definition delete_ (key : string) (s : t T) : bool * t T :=
  (match cache s !! key with Some _ => true | None => false end,
   {| cache := delete key (cache s); defaultTtl := defaultTtl s |}).

Definition clear (s : t T) : t T := {| cache := ∅; defaultTtl := defaultTtl s |}.

(** The batch operations: collect the keys that pass a test, then delete
    them one by one. *)
Definition keysToDelete (test : string -> bool) (m : gmap string (ICacheItem T))
    : list string :=
  List.map fst
    (List.filter (fun kv : string * ICacheItem T => test (fst kv)) (map_to_list m)).

Definition deleteAll (keys : list string) (s : t T) : t T :=
  {| cache := fold_left (fun m key => delete key m) keys (cache s);
     defaultTtl := defaultTtl s |}.

Definition clearCalendarCache (s : t T) : t T :=
  deleteAll
    (keysToDelete
       (fun key =>
          includes key AppConstants.CACHE_SOURCES_KEY
          || includes key AppConstants.CACHE_EVENTS_KEY
          || includes key "metadata"
          || includes key "daterange")
       (cache s))
    s.

Definition clearCalendarSpecificCache (calendarId : string) (s : t T) : t T :=
  deleteAll (keysToDelete (fun key => includes key calendarId) (cache s)) s.

Definition invalidateByPattern (pattern : string) (s : t T) : t T :=
  deleteAll (keysToDelete (fun key => includes key pattern) (cache s)) s.

(** [getCacheHealth]; [jsonLength] is the length of
    [JSON.stringify(item.data)]. *)
Definition getCacheHealth (jsonLength : T -> Z) (now : Z) (s : t T) : ICacheHealth :=
  let items := List.map snd (map_to_list (cache s)) in
  let expiredCount :=
    Z.of_nat (length (List.filter (fun item => expiry item <? now) items)) in
  let totalSize := fold_left (fun acc item => acc + jsonLength (data item)) items 0 in
  {| totalItems := Z.of_nat (size (cache s));
     expiredItems := expiredCount;
     memoryUsage := totalSize;
     hitRate := 0 |}.

(** The other typed entry points. *)
Definition setCachedSources (now : Z) (sources : T) (ttlMinutes : option Z)
    (s : t T) : t T :=
  set now (generateKey AppConstants.CACHE_SOURCES_KEY "all") sources ttlMinutes s.

Definition getCachedSources (now : Z) (s : t T) : option T * t T :=
  get now (generateKey AppConstants.CACHE_SOURCES_KEY "all") s.

(** [date.toISOString().split('T')[0]]: the UTC calendar date, the year
    with four digits, or with a sign and six digits outside 0..9999. *)
Definition isoDate (t : Z) : string :=
  let y := JSDate.YearFromTime t in
  let year :=
    if (0 <=? y) && (y <=? 9999) then padStartZeros 4 (numberToString y)
    else (if y <? 0 then "-" else "+") +:+ padStartZeros 6 (numberToString (Z.abs y)) in
  year +:+ "-" +:+ padStartZeros 2 (numberToString (JSDate.MonthFromTime t + 1))
  +:+ "-" +:+ padStartZeros 2 (numberToString (JSDate.DateFromTime t)).

Definition dateRangeKey (startDate endDate : Z) (calendarIds : list string) : string :=
  let dateKey := isoDate startDate +:+ "-" +:+ isoDate endDate in
  let sortedIds := join "," (sortBy compareStrings calendarIds) in
  generateKey "daterange" (dateKey +:+ "-" +:+ sortedIds).

Definition setCachedDateRangeEvents (now : Z) (startDate endDate : Z)
    (calendarIds : list string) (events : T) (ttlMinutes : option Z) (s : t T) : t T :=
  set now (dateRangeKey startDate endDate calendarIds) events ttlMinutes s.

Definition getCachedDateRangeEvents (now : Z) (startDate endDate : Z)
    (calendarIds : list string) (s : t T) : option T * t T :=
  get now (dateRangeKey startDate endDate calendarIds) s.

End Store.
End CacheService.

(** *** utils/ValidationUtils.ts: the search-query check *)

(** The object handed to [ValidationUtils.validateRecurrencePattern], a
    [Record<string, unknown>], with the fields of a recurrence pattern at
    the types [IRecurrencePattern] gives them.  Its end date is a [Date]
    object, which can be an invalid date (one whose time value is [NaN]);
    [parseSharePointRecurrence] builds it with [new Date(text)], which
    gives such a date for a text that is no date. *)
Module PatternObject.

Inductive DateObject : Type :=
  | DateAt (time : Z)
  | InvalidDate.

(** [isNaN(date.getTime())] *)
Definition isNaNTime (date : DateObject) : bool :=
  match date with
  | DateAt _ => false
  | InvalidDate => true
  end.

Record t : Type := mk {
  type : RecurrenceType;
  interval : Z;
  daysOfWeek : option (list Z);
  dayOfMonth : option Z;
  weekOfMonth : option Z;
  monthOfYear : option Z;
  endDate : option DateObject;
  occurrences : option Z;
  firstDayOfWeek : option Z
}.

(** A pattern of the record type of the embedding, whose end date is a
    valid date, as such an object. *)
Definition ofPattern (pattern : IRecurrencePattern.t) : t :=
  {| type := IRecurrencePattern.type pattern;
     interval := IRecurrencePattern.interval pattern;
     daysOfWeek := IRecurrencePattern.daysOfWeek pattern;
     dayOfMonth := IRecurrencePattern.dayOfMonth pattern;
     weekOfMonth := IRecurrencePattern.weekOfMonth pattern;
     monthOfYear := IRecurrencePattern.monthOfYear pattern;
     endDate := option_map DateAt (IRecurrencePattern.endDate pattern);
     occurrences := IRecurrencePattern.occurrences pattern;
     firstDayOfWeek := IRecurrencePattern.firstDayOfWeek pattern |}.

End PatternObject.

Module ValidationUtils.
Import JS.

(** The messages of the errors [validateSearchQuery] collects (its warnings
    do not affect [isValid]). *)
Definition validateSearchQuery (query : string) : list string :=
  if negb (truthyStr query) then ["Search query must be a non-empty string"]
  else if Nat.eqb (String.length (trim query)) 0
       then ["Search query cannot be empty"]
       else [].

(** Validation results.  The optional [value] of an error or warning, a
    copy of the offending input that none of the functions below reads, is
    left out. *)
Record IValidationError : Type := mkError {
  field : string;
  message : string;
  code : string
}.

Record IValidationWarning : Type := mkWarning {
  warningField : string;
  warningMessage : string;
  warningCode : string
}.

Record IValidationResult : Type := mkResult {
  isValid : bool;
  errors : list IValidationError;
  warnings : list IValidationWarning
}.

Definition resultOf (errors : list IValidationError)
    (warnings : list IValidationWarning) : IValidationResult :=
  {| isValid := Nat.eqb (length errors) 0; errors := errors; warnings := warnings |}.

(** [new Date(year, month, date)]: a year from 0 to 99 stands for
    1900 + year. *)
Definition newDate (year month date : Z) : Z :=
  JSDate.UTC (if (0 <=? year) && (year <=? 99) then 1900 + year else year) month date 0.

(** [validateDateRange] on two valid dates, called at time [now]: the
    "required" and "invalid format" branches are those of missing or
    invalid [Date] objects. *)
Definition validateDateRange (now : Z) (startDate endDate : Z) : IValidationResult :=
  let diffMs := endDate - startDate in
  let twoYearsAgo :=
    newDate (JSDate.YearFromTime now - 2) (JSDate.MonthFromTime now)
      (JSDate.DateFromTime now) in
  let twoYearsFromNow :=
    newDate (JSDate.YearFromTime now + 2) (JSDate.MonthFromTime now)
      (JSDate.DateFromTime now) in
  resultOf
    (if endDate <=? startDate
     then [mkError "endDate" "End date must be after start date" "INVALID_DATE_RANGE"]
     else [])
    ((if 365 * (1000 * 60 * 60 * 24) <? diffMs
      then [mkWarning "dateRange"
              "Date range spans more than 1 year, which may affect performance"
              "LARGE_DATE_RANGE"]
      else [])
     ++ (if endDate <? twoYearsAgo
         then [mkWarning "endDate" "Date range is more than 2 years in the past"
                 "OLD_DATE_RANGE"]
         else [])
     ++ (if twoYearsFromNow <? startDate
         then [mkWarning "startDate" "Date range is more than 2 years in the future"
                 "FUTURE_DATE_RANGE"]
         else [])).

(** [validateRecurrencePattern] of this class, on an object whose fields
    have the types of [IRecurrencePattern]: the [typeof] and
    [Array.isArray] tests hold, the type is one of the six known ones and
    the end date is an instance of [Date], valid or not. *)
Definition validateRecurrencePattern (pattern : PatternObject.t)
    : IValidationResult :=
  let interval := PatternObject.interval pattern in
  let dayOfMonthErr :=
    match PatternObject.dayOfMonth pattern with
    | Some d =>
        if truthy (Some d) && ((d <? 1) || (31 <? d))
        then [mkError "dayOfMonth" "Day of month must be between 1 and 31"
                "INVALID_DAY_OF_MONTH"]
        else []
    | None => []
    end in
  resultOf
    ((if negb (truthy (Some interval)) || (interval <? 1)
      then [mkError "interval" "Recurrence interval must be at least 1"
              "INVALID_INTERVAL"]
      else [])
     ++ (if truthy (Some interval) && (999 <? interval)
         then [mkError "interval" "Recurrence interval cannot exceed 999"
                 "INTERVAL_TOO_LARGE"]
         else [])
     ++ match PatternObject.type pattern with
        | weekly =>
            match PatternObject.daysOfWeek pattern with
            | Some days =>
                if Nat.eqb (length days) 0
                then [mkError "daysOfWeek"
                        "Weekly recurrence must specify at least one day of the week"
                        "MISSING_DAYS_OF_WEEK"]
                else if Nat.ltb 0
                          (length (List.filter (fun d => (d <? 0) || (6 <? d)) days))
                     then [mkError "daysOfWeek"
                             "Days of week must be numbers between 0 (Sunday) and 6 (Saturday)"
                             "INVALID_DAYS_OF_WEEK"]
                     else []
            | None => []
            end
        | monthly =>
            dayOfMonthErr
            ++ match PatternObject.weekOfMonth pattern with
               | Some w =>
                   if truthy (Some w) && ((w <? -1) || (w =? 0) || (4 <? w))
                   then [mkError "weekOfMonth"
                           "Week of month must be between 1-4 or -1 (last week)"
                           "INVALID_WEEK_OF_MONTH"]
                   else []
               | None => []
               end
        | yearly =>
            match PatternObject.monthOfYear pattern with
            | Some m =>
                if truthy (Some m) && ((m <? 1) || (12 <? m))
                then [mkError "monthOfYear" "Month of year must be between 1 and 12"
                        "INVALID_MONTH_OF_YEAR"]
                else []
            | None => []
            end
            ++ dayOfMonthErr
        | _ => []
        end
     ++ match PatternObject.endDate pattern with
        | Some _ =>
            if truthy (PatternObject.occurrences pattern)
            then [mkError "endDate"
                    "Cannot specify both end date and number of occurrences"
                    "CONFLICTING_END_CONDITIONS"]
            else []
        | None => []
        end
     ++ match PatternObject.endDate pattern with
        | Some date =>
            if PatternObject.isNaNTime date
            then [mkError "endDate" "Invalid end date format" "INVALID_END_DATE"]
            else []
        | None => []
        end
     ++ match PatternObject.occurrences pattern with
        | Some n =>
            (if truthy (Some n) && (n <? 1)
             then [mkError "occurrences" "Number of occurrences must be at least 1"
                     "INVALID_OCCURRENCES"]
             else [])
            ++ (if truthy (Some n) && (999 <? n)
                then [mkError "occurrences" "Number of occurrences cannot exceed 999"
                        "OCCURRENCES_TOO_LARGE"]
                else [])
        | None => []
        end)
    [].

End ValidationUtils.

(** *** utils/ColorUtils.ts: the colour of a calendar *)

Module ColorUtils.
Import JS.

Definition DEFAULT_COLORS : list string :=
  [ "#0078d4"; "#038387"; "#00bcf2"; "#40e0d0"; "#008272";
    "#107c10"; "#bad80a"; "#ffb900"; "#ff8c00"; "#d13438";
    "#e3008c"; "#881798"; "#8764b8"; "#00188f"; "#002050";
    "#5c2d91"; "#ca5010"; "#986f0b"; "#498205"; "#004b1c" ].

(** One round of the loop of [generateColorFromString]:
    [hash = str.charCodeAt(i) + ((hash << 5) - hash); hash = hash & hash]. *)
Definition hashStep (hash : Z) (c : Ascii.ascii) : Z :=
  toInt32 (Z.of_N (Ascii.N_of_ascii c) + (toInt32 (hash * 32) - hash)).

Fixpoint hashFrom (hash : Z) (str : string) : Z :=
  match str with
  | EmptyString => hash
  | String c str' => hashFrom (hashStep hash c) str'
  end.

(** [arr[index]]: outside the array it is [undefined]. *)
Definition at_ (arr : list string) (index : Z) : option string :=
  if index <? 0 then None else arr !! Z.to_nat index.

Definition generateColorFromString (str : string) : option string :=
  let hash := hashFrom 0 str in
  let index := Z.rem (Z.abs hash) (Z.of_nat (length DEFAULT_COLORS)) in
  at_ DEFAULT_COLORS index.

Definition getColorByIndex (index : Z) : option string :=
  at_ DEFAULT_COLORS (Z.rem index (Z.of_nat (length DEFAULT_COLORS))).

End ColorUtils.

(** *** services/CalendarService.ts *)

Module CalendarService.
Import JS.

(** What the service calls and this file does not define: the two source
    and event validators of [ValidationUtils] (their error messages and
    verdict), [ColorUtils.generateColorFromString], and the two backend
    services, whose asynchronous calls either deliver events or fail. *)
Record Collaborators : Type := {
  validateCalendarSource : ICalendarSource.t -> list string;
  validateCalendarEvent : ICalendarEvent.t -> bool;
  generateColorFromString : string -> string;
  sharePoint_getEventsFromCalendar :
    ICalendarSource.t -> Z -> result (list ICalendarEvent.t);
  exchange_getEventsFromCalendar :
    ICalendarSource.t -> Z -> result (list ICalendarEvent.t);
  sharePoint_searchEvents :
    list ICalendarSource.t -> string -> Z -> result (list ICalendarEvent.t);
  exchange_searchEvents :
    list ICalendarSource.t -> string -> Z -> result (list ICalendarEvent.t)
}.

Record IConflict : Type := mkConflict {
  event1 : ICalendarEvent.t;
  event2 : ICalendarEvent.t;
  overlapMinutes : Z
}.

Definition sourceTypeName (ty : CalendarSourceType) : string :=
  match ty with
  | SharePoint => "SharePoint"
  | SharePointList => "SharePointList"
  | SharePointCommunicationSite => "SharePointCommunicationSite"
  | Exchange => "Exchange"
  end.

Definition isSharePoint (s : ICalendarSource.t) : bool :=
  match ICalendarSource.type s with SharePoint => true | _ => false end.

Definition isExchange (s : ICalendarSource.t) : bool :=
  match ICalendarSource.type s with Exchange => true | _ => false end.

(** [removeDuplicateEvents]: the first event of each key is kept. *)
Definition dedupKey (event : ICalendarEvent.t) : string :=
  toLowerCase
    (ICalendarEvent.title event +:+ "_"
     +:+ numberToString (ICalendarEvent.start event) +:+ "_"
     +:+ ICalendarEvent.organizer event).

Fixpoint removeDuplicatesFrom (seen : gset string) (events : list ICalendarEvent.t)
    : list ICalendarEvent.t :=
  match events with
  | [] => []
  | event :: rest =>
      let key := dedupKey event in
      if decide (key ∈ seen) then removeDuplicatesFrom seen rest
      else event :: removeDuplicatesFrom ({[key]} ∪ seen) rest
  end.

Definition removeDuplicateEvents (events : list ICalendarEvent.t)
    : list ICalendarEvent.t :=
  removeDuplicatesFrom ∅ events.

(** [calculateEventOverlap], in minutes. *)
Definition calculateEventOverlap (e1 e2 : ICalendarEvent.t) : Z :=
  let start1 := ICalendarEvent.start e1 in
  let end1 := ICalendarEvent.end_ e1 in
  let start2 := ICalendarEvent.start e2 in
  let end2 := ICalendarEvent.end_ e2 in
  if (end1 <=? start2) || (end2 <=? start1) then 0
  else
    let overlapStart := Z.max start1 start2 in
    let overlapEnd := Z.min end1 end2 in
    let overlapMs := overlapEnd - overlapStart in
    Z.max 0 (overlapMs / (1000 * 60)).

(** The two nested loops of [getEventConflicts]: [conflictsWith e1 rest] is
    the inner loop for one [i], [scanConflicts] the outer loop. *)
Fixpoint conflictsWith (e1 : ICalendarEvent.t) (rest : list ICalendarEvent.t)
    : list IConflict :=
  match rest with
  | [] => []
  | e2 :: rest' =>
      let found :=
        if ICalendarEvent.isAllDay e1 || ICalendarEvent.isAllDay e2 then []
        else
          let overlap := calculateEventOverlap e1 e2 in
          if 0 <? overlap then [mkConflict e1 e2 overlap] else [] in
      found ++ conflictsWith e1 rest'
  end.

Fixpoint scanConflicts (events : list ICalendarEvent.t) : list IConflict :=
  match events with
  | [] => []
  | e1 :: rest => conflictsWith e1 rest ++ scanConflicts rest
  end.

(** [getEventConflicts], given the outcome of its call of
    [getEventsForDateRange]: a failure there is caught and gives no
    conflicts. *)
Definition getEventConflicts (ranged : result (list ICalendarEvent.t))
    : list IConflict :=
  match ranged with
  | Ok events => scanConflicts events
  | Throw _ => []
  end.

(** The comparator of [searchEvents]. *)
Definition titleMatches (query : string) (e : ICalendarEvent.t) : bool :=
  includes (toLowerCase (ICalendarEvent.title e)) (toLowerCase query).

Definition searchCompare (query : string) (a b : ICalendarEvent.t) : Z :=
  let aRelevance := if titleMatches query a then 1 else 0 in
  let bRelevance := if titleMatches query b then 1 else 0 in
  if negb (aRelevance =? bRelevance) then bRelevance - aRelevance
  else ICalendarEvent.start a - ICalendarEvent.start b.

Definition startCompare (a b : ICalendarEvent.t) : Z :=
  ICalendarEvent.start a - ICalendarEvent.start b.

(** [Promise.all]: the values in order, or the first rejection. *)
Fixpoint promiseAll {A} (settled : list (result A)) : result (list A) :=
  match settled with
  | [] => Ok []
  | Ok v :: rest =>
      match promiseAll rest with
      | Ok vs => Ok (v :: vs)
      | Throw m => Throw m
      end
  | Throw m :: _ => Throw m
  end.

Section Service.
Variable ext : Collaborators.

Local Abbreviation Cache := (CacheService.t (list ICalendarEvent.t)).

(** [validateAndEnhanceEvents]: valid events, in order, with colour and
    calendar title and type filled in from the source. *)
Definition enhanceEvent (source : ICalendarSource.t) (event : ICalendarEvent.t)
    : ICalendarEvent.t :=
  {| ICalendarEvent.id := ICalendarEvent.id event;
     ICalendarEvent.title := ICalendarEvent.title event;
     ICalendarEvent.description := ICalendarEvent.description event;
     ICalendarEvent.start := ICalendarEvent.start event;
     ICalendarEvent.end_ := ICalendarEvent.end_ event;
     ICalendarEvent.location := ICalendarEvent.location event;
     ICalendarEvent.category := ICalendarEvent.category event;
     ICalendarEvent.isAllDay := ICalendarEvent.isAllDay event;
     ICalendarEvent.isRecurring := ICalendarEvent.isRecurring event;
     ICalendarEvent.calendarId := ICalendarEvent.calendarId event;
     ICalendarEvent.calendarTitle := ICalendarSource.title source;
     ICalendarEvent.calendarType := ICalendarSource.type source;
     ICalendarEvent.organizer := ICalendarEvent.organizer event;
     ICalendarEvent.created := ICalendarEvent.created event;
     ICalendarEvent.modified := ICalendarEvent.modified event;
     ICalendarEvent.webUrl := ICalendarEvent.webUrl event;
     ICalendarEvent.color :=
       if truthyStr (ICalendarEvent.color event) then ICalendarEvent.color event
       else if truthyStr (ICalendarSource.color source) then ICalendarSource.color source
       else generateColorFromString ext (ICalendarSource.title source);
     ICalendarEvent.importance := ICalendarEvent.importance event;
     ICalendarEvent.sensitivity := ICalendarEvent.sensitivity event;
     ICalendarEvent.showAs := ICalendarEvent.showAs event;
     ICalendarEvent.attendees := ICalendarEvent.attendees event;
     ICalendarEvent.attachments := ICalendarEvent.attachments event;
     ICalendarEvent.tags := ICalendarEvent.tags event;
     ICalendarEvent.masterSeriesId := ICalendarEvent.masterSeriesId event;
     ICalendarEvent.isException := ICalendarEvent.isException event |}.

Fixpoint validateAndEnhanceEvents (events : list ICalendarEvent.t)
    (source : ICalendarSource.t) : list ICalendarEvent.t :=
  match events with
  | [] => []
  | event :: rest =>
      if validateCalendarEvent ext event
      then enhanceEvent source event :: validateAndEnhanceEvents rest source
      else validateAndEnhanceEvents rest source
  end.

(** [getEventsFromSource] runs in two stretches.  The first is synchronous:
    validation and the cache look-up, after which the call has either
    settled or awaits its backend.  The second runs when the backend has
    answered, at time [later]. *)
Inductive started : Type :=
| Settled (outcome : result (list ICalendarEvent.t))
| Awaiting.

Definition beginGetEventsFromSource (now : Z) (source : ICalendarSource.t)
    (maxEvents : Z) (c : Cache) : started * Cache :=
  let errors := validateCalendarSource ext source in
  if negb (Nat.eqb (length errors) 0)
  then (Settled (Throw ("Invalid calendar source: " +:+ join ", " errors)), c)
  else
    let '(cachedEvents, c1) :=
      CacheService.getCachedEvents now (ICalendarSource.id source) c in
    match cachedEvents with
    | Some cached =>
        if Z.of_nat (length cached) <=? maxEvents
        then (Settled (Ok (slice0 maxEvents cached)), c1)
        else (Awaiting, c1)
    | None => (Awaiting, c1)
    end.

Definition fetchFromBackend (source : ICalendarSource.t) (maxEvents : Z)
    : result (list ICalendarEvent.t) :=
  match ICalendarSource.type source with
  | SharePoint => sharePoint_getEventsFromCalendar ext source maxEvents
  | Exchange => exchange_getEventsFromCalendar ext source maxEvents
  | other => Throw ("Unsupported calendar source type: " +:+ sourceTypeName other)
  end.

Definition finishGetEventsFromSource (later : Z) (source : ICalendarSource.t)
    (maxEvents : Z) (c : Cache) : result (list ICalendarEvent.t) * Cache :=
  match fetchFromBackend source maxEvents with
  | Throw m => (Throw m, c)
  | Ok fetched =>
      let events := validateAndEnhanceEvents fetched source in
      let c1 :=
        CacheService.setCachedEvents later (ICalendarSource.id source) events
          (Some AppConstants.CACHE_DURATION_MINUTES) c in
      (Ok (slice0 maxEvents events), c1)
  end.

Definition getEventsFromSource (now later : Z) (source : ICalendarSource.t)
    (maxEvents : Z) (c : Cache) : result (list ICalendarEvent.t) * Cache :=
  match beginGetEventsFromSource now source maxEvents c with
  | (Settled outcome, c1) => (outcome, c1)
  | (Awaiting, c1) => finishGetEventsFromSource later source maxEvents c1
  end.

(** The fan-out of [getEventsFromSources].  [sources.map(async ...)] runs
    the synchronous stretch of every per-source call, in order, before any
    backend answers; the answers are then taken in source order.  Each
    closure catches the failure of its own source and returns [[]]. *)
Fixpoint beginAll (now : Z) (sources : list ICalendarSource.t) (perSource : Z)
    (c : Cache) : list (ICalendarSource.t * started) * Cache :=
  match sources with
  | [] => ([], c)
  | source :: rest =>
      let '(st, c1) := beginGetEventsFromSource now source perSource c in
      let '(sts, c2) := beginAll now rest perSource c1 in
      ((source, st) :: sts, c2)
  end.

Definition settleOne (later : Z) (perSource : Z)
    (task : ICalendarSource.t * started) (c : Cache)
    : result (list ICalendarEvent.t) * Cache :=
  let '(outcome, c1) :=
    match snd task with
    | Settled outcome => (outcome, c)
    | Awaiting => finishGetEventsFromSource later (fst task) perSource c
    end in
  match outcome with
  | Ok events => (Ok events, c1)
  | Throw _ => (Ok [], c1)
  end.

Fixpoint settleAll (later : Z) (perSource : Z)
    (tasks : list (ICalendarSource.t * started)) (c : Cache)
    : list (result (list ICalendarEvent.t)) * Cache :=
  match tasks with
  | [] => ([], c)
  | task :: rest =>
      let '(r, c1) := settleOne later perSource task c in
      let '(rs, c2) := settleAll later perSource rest c1 in
      (r :: rs, c2)
  end.

Definition getEventsFromSources (now later : Z) (sources : list ICalendarSource.t)
    (maxEvents : Z) (c : Cache) : result (list ICalendarEvent.t) * Cache :=
  let sourceIds := List.map ICalendarSource.id sources in
  let '(cachedEvents, c0) := CacheService.getCachedAggregatedEvents now sourceIds c in
  let fanOut :=
    let perSource := ceilDiv maxEvents (Z.of_nat (length sources)) in
    let '(tasks, c1) := beginAll now sources perSource c0 in
    let '(eventPromises, c2) := settleAll later perSource tasks c1 in
    match promiseAll eventPromises with
    | Throw m => (Throw m, c2)
    | Ok eventArrays =>
        let allEvents := List.concat eventArrays in
        let sorted := sortBy startCompare allEvents in
        let limitedEvents := slice0 maxEvents sorted in
        let c3 :=
          CacheService.setCachedAggregatedEvents later sourceIds limitedEvents
            (Some AppConstants.CACHE_DURATION_MINUTES) c2 in
        (Ok limitedEvents, c3)
    end in
  match cachedEvents with
  | Some cached =>
      if Z.of_nat (length cached) <=? maxEvents
      then (Ok (slice0 maxEvents cached), c0)
      else fanOut
  | None => fanOut
  end.

(** [searchEvents]. *)
Definition searchBackend (search : list ICalendarSource.t -> string -> Z ->
                                   result (list ICalendarEvent.t))
    (selected : list ICalendarSource.t) (query : string) (maxResults : Z)
    : list ICalendarEvent.t :=
  if Nat.ltb 0 (length selected) then
    match search selected query maxResults with
    | Ok results => results
    | Throw _ => []
    end
  else [].

Definition searchEvents (now later : Z) (sources : list ICalendarSource.t)
    (query : string) (maxResults : Z) (c : Cache)
    : result (list ICalendarEvent.t) * Cache :=
  let queryErrors := ValidationUtils.validateSearchQuery query in
  if negb (Nat.eqb (length queryErrors) 0)
  then (Throw ("Invalid search query: " +:+ join ", " queryErrors), c)
  else
    let '(cachedResults, c0) := CacheService.getCachedSearchResults now query c in
    match cachedResults with
    | Some cached => (Ok (slice0 maxResults cached), c0)
    | None =>
        let sharePointResults :=
          searchBackend (sharePoint_searchEvents ext)
            (List.filter isSharePoint sources) query maxResults in
        let exchangeResults :=
          searchBackend (exchange_searchEvents ext)
            (List.filter isExchange sources) query maxResults in
        let allResults := sharePointResults ++ exchangeResults in
        let uniqueResults := removeDuplicateEvents allResults in
        let sorted := sortBy (searchCompare query) uniqueResults in
        let limitedResults := slice0 maxResults sorted in
        let c1 :=
          CacheService.setCachedSearchResults later query limitedResults (Some 5) c0 in
        (Ok limitedResults, c1)
    end.

(** [validateAndEnhanceSources]: the valid sources, in order, each with a
    colour. *)
Definition enhanceSource (source : ICalendarSource.t) : ICalendarSource.t :=
  {| ICalendarSource.id := ICalendarSource.id source;
     ICalendarSource.title := ICalendarSource.title source;
     ICalendarSource.description := ICalendarSource.description source;
     ICalendarSource.type := ICalendarSource.type source;
     ICalendarSource.url := ICalendarSource.url source;
     ICalendarSource.siteTitle := ICalendarSource.siteTitle source;
     ICalendarSource.siteUrl := ICalendarSource.siteUrl source;
     ICalendarSource.color :=
       if truthyStr (ICalendarSource.color source) then ICalendarSource.color source
       else generateColorFromString ext (ICalendarSource.title source);
     ICalendarSource.isEnabled := negb (Bool.eqb (ICalendarSource.isEnabled source) false);
     ICalendarSource.itemCount := ICalendarSource.itemCount source;
     ICalendarSource.lastModified := ICalendarSource.lastModified source;
     ICalendarSource.canEdit := ICalendarSource.canEdit source;
     ICalendarSource.canShare := ICalendarSource.canShare source |}.

Fixpoint validateAndEnhanceSources (sources : list ICalendarSource.t)
    : list ICalendarSource.t :=
  match sources with
  | [] => []
  | source :: rest =>
      if Nat.eqb (length (validateCalendarSource ext source)) 0
      then enhanceSource source :: validateAndEnhanceSources rest
      else validateAndEnhanceSources rest
  end.

(** [initialize] and [getCalendarSources].  The service keeps a flag and
    the cache; the two backends' answers to this call are arguments.  Each
    backend failure is caught where it occurs, so the call itself does not
    fail. *)
Record SourcesState : Type := mkSourcesState {
  isInitialized : bool;
  sourcesCache : CacheService.t (list ICalendarSource.t)
}.

Definition initialize (st : SourcesState) : SourcesState :=
  if isInitialized st then st
  else {| isInitialized := true;
          sourcesCache :=
            CacheService.configure (Some AppConstants.CACHE_DURATION_MINUTES)
              (sourcesCache st) |}.

Definition orNone {A} (answer : result (list A)) : list A :=
  match answer with
  | Ok l => l
  | Throw _ => []
  end.

Definition getCalendarSources
    (sharePointCalendars exchangeCalendars : result (list ICalendarSource.t))
    (now later : Z) (includeExchange : bool) (st : SourcesState)
    : list ICalendarSource.t * SourcesState :=
  let st1 := initialize st in
  let '(cachedSources, c1) := CacheService.getCachedSources now (sourcesCache st1) in
  match cachedSources with
  | Some cached =>
      (if includeExchange then cached else List.filter isSharePoint cached,
       {| isInitialized := isInitialized st1; sourcesCache := c1 |})
  | None =>
      let allSources :=
        orNone sharePointCalendars
        ++ (if includeExchange then orNone exchangeCalendars else []) in
      let validatedSources := validateAndEnhanceSources allSources in
      let c2 :=
        CacheService.setCachedSources later validatedSources
          (Some AppConstants.CACHE_DURATION_MINUTES) c1 in
      (validatedSources, {| isInitialized := isInitialized st1; sourcesCache := c2 |})
  end.

(** [getEventsForDateRange]; the two backends' range queries are
    arguments. *)
Definition rangeBackend
    (query : list ICalendarSource.t -> Z -> Z -> Z -> result (list ICalendarEvent.t))
    (selected : list ICalendarSource.t) (startDate endDate maxEvents : Z)
    : list ICalendarEvent.t :=
  if Nat.ltb 0 (length selected) then orNone (query selected startDate endDate maxEvents)
  else [].

Definition getEventsForDateRange
    (sharePointRange exchangeRange :
       list ICalendarSource.t -> Z -> Z -> Z -> result (list ICalendarEvent.t))
    (now later : Z) (sources : list ICalendarSource.t) (startDate endDate : Z)
    (maxEvents : Z) (c : Cache) : result (list ICalendarEvent.t) * Cache :=
  let dateValidation := ValidationUtils.validateDateRange now startDate endDate in
  if negb (ValidationUtils.isValid dateValidation)
  then (Throw ("Invalid date range: "
               +:+ join ", "
                     (List.map ValidationUtils.message
                        (ValidationUtils.errors dateValidation))), c)
  else
    let sourceIds := List.map ICalendarSource.id sources in
    let '(cachedEvents, c0) :=
      CacheService.getCachedDateRangeEvents now startDate endDate sourceIds c in
    match cachedEvents with
    | Some cached => (Ok (slice0 maxEvents cached), c0)
    | None =>
        let sharePointEvents :=
          rangeBackend sharePointRange (List.filter isSharePoint sources)
            startDate endDate maxEvents in
        let exchangeEvents :=
          rangeBackend exchangeRange (List.filter isExchange sources)
            startDate endDate maxEvents in
        let allEvents := sharePointEvents ++ exchangeEvents in
        let uniqueEvents := removeDuplicateEvents allEvents in
        let sorted := sortBy startCompare uniqueEvents in
        let limitedEvents := slice0 maxEvents sorted in
        let c1 :=
          CacheService.setCachedDateRangeEvents later startDate endDate sourceIds
            limitedEvents (Some AppConstants.CACHE_DURATION_MINUTES) c0 in
        (Ok limitedEvents, c1)
    end.

End Service.

(** [applyAdvancedFilters] and [filterEventsByQuery], the two filters of
    [advancedSearch]. *)
Definition whenListed (criterion : option (list string))
    (keep : list string -> ICalendarEvent.t -> bool)
    (events : list ICalendarEvent.t) : list ICalendarEvent.t :=
  match criterion with
  | Some (x :: xs) => List.filter (keep (x :: xs)) events
  | _ => events
  end.

Definition whenDefined (criterion : option bool)
    (keep : bool -> ICalendarEvent.t -> bool)
    (events : list ICalendarEvent.t) : list ICalendarEvent.t :=
  match criterion with
  | Some b => List.filter (keep b) events
  | None => events
  end.

Definition optionIncluded (listed : list string) (value : option string) : bool :=
  match value with
  | Some v => truthyStr v && includesString listed v
  | None => false
  end.

Definition containsLowered (text part : string) : bool :=
  includes (toLowerCase text) (toLowerCase part).

Definition hasSomeAttachment (event : ICalendarEvent.t) : bool :=
  match ICalendarEvent.attachments event with
  | Some l => Nat.ltb 0 (length l)
  | None => false
  end.

Definition applyAdvancedFilters (events : list ICalendarEvent.t)
    (criteria : IEventSearchCriteria.t) : list ICalendarEvent.t :=
  let filtered := events in
  let filtered :=
    whenListed (IEventSearchCriteria.categories criteria)
      (fun categories event => optionIncluded categories (ICalendarEvent.category event))
      filtered in
  let filtered :=
    whenListed (IEventSearchCriteria.organizers criteria)
      (fun organizers event =>
         existsb (fun org => containsLowered (ICalendarEvent.organizer event) org)
           organizers)
      filtered in
  let filtered :=
    whenListed (IEventSearchCriteria.attendees criteria)
      (fun searched event =>
         match ICalendarEvent.attendees event with
         | Some attendees =>
             existsb
               (fun attendee =>
                  existsb
                    (fun searchAttendee =>
                       containsLowered (IEventAttendee.email attendee) searchAttendee
                       || containsLowered (IEventAttendee.name attendee) searchAttendee)
                    searched)
               attendees
         | None => false
         end)
      filtered in
  let filtered :=
    whenListed (IEventSearchCriteria.importance criteria)
      (fun importance event => optionIncluded importance (ICalendarEvent.importance event))
      filtered in
  let filtered :=
    whenListed (IEventSearchCriteria.sensitivity criteria)
      (fun sensitivity event =>
         optionIncluded sensitivity (ICalendarEvent.sensitivity event))
      filtered in
  let filtered :=
    whenDefined (IEventSearchCriteria.hasAttachments criteria)
      (fun wanted event =>
         if wanted then hasSomeAttachment event else negb (hasSomeAttachment event))
      filtered in
  let filtered :=
    whenDefined (IEventSearchCriteria.isRecurring criteria)
      (fun wanted event => Bool.eqb (ICalendarEvent.isRecurring event) wanted)
      filtered in
  let filtered :=
    whenDefined (IEventSearchCriteria.isAllDay criteria)
      (fun wanted event => Bool.eqb (ICalendarEvent.isAllDay event) wanted)
      filtered in
  whenListed (IEventSearchCriteria.tags criteria)
    (fun tags event =>
       match ICalendarEvent.tags event with
       | Some eventTags => existsb (fun tag => includesString tags tag) eventTags
       | None => false
       end)
    filtered.

Definition searchableText (event : ICalendarEvent.t) : string :=
  toLowerCase
    (join " "
       ([ ICalendarEvent.title event;
          ICalendarEvent.description event;
          match ICalendarEvent.location event with Some l => l | None => "" end;
          ICalendarEvent.organizer event;
          match ICalendarEvent.category event with Some c => c | None => "" end ]
        ++ match ICalendarEvent.attendees event with
           | Some attendees =>
               List.map
                 (fun a => IEventAttendee.name a +:+ " " +:+ IEventAttendee.email a)
                 attendees
           | None => []
           end)).

Definition space : Ascii.ascii := Ascii.Ascii false false false false false true false false.

Definition searchTerms (query : string) : list string :=
  List.filter (fun term => Nat.ltb 0 (String.length term))
    (splitOn space (toLowerCase query)).

Definition filterEventsByQuery (events : list ICalendarEvent.t) (query : string)
    : list ICalendarEvent.t :=
  List.filter
    (fun event => forallb (fun term => includes (searchableText event) term)
                    (searchTerms query))
    events.

End CalendarService.

(** *** Vocabulary of the properties of Part II *)

Module Months.
Import JSDate.

(** The day number of the first day of the month with absolute index
    [A = 12 * year + month], and the absolute index of the month a day or a
    time value lies in. *)
Definition monthStart (A : Z) : Z := MakeDay 0 A 1.

Definition absMonth (d : Z) : Z := 12 * YearFromDay d + MonthFromDay d.

Definition absMonthOf (t : Z) : Z := absMonth (Day t).

End Months.

Module Expansion.
Import JS RecurrenceUtils.

(** The cursor after [n] steps of the pattern from [cur]. *)
Definition cursorAt (pattern : IRecurrencePattern.t) (n : nat) (cur : Z) : Z :=
  Nat.iter n (fun c => getNextOccurrence c pattern None) cur.

(** The occurrences built in [n] iterations that start with the cursor at
    [cur] and the counter at [count]. *)
Definition occurrencesFrom (baseEvent : ICalendarEvent.t)
    (pattern : IRecurrencePattern.t) (eventDuration : Z)
    (n : nat) (cur count : Z) : list ICalendarEvent.t :=
  List.map
    (fun i => recurringEvent baseEvent (count + Z.of_nat i)
                (cursorAt pattern i cur) eventDuration)
    (seq 0 n).

(** The ranges of the canonical pattern's fields: an interval of at least
    one, days of the week in 0..6, a day of the month in 1..31 and a month
    of the year in 1..12 (an optional number that is 0 counts as unset). *)
Definition fieldsInRange (p : IRecurrencePattern.t) : bool :=
  let dayOfMonthOk :=
    match IRecurrencePattern.dayOfMonth p with
    | Some d => (d =? 0) || ((1 <=? d) && (d <=? 31))
    | None => true
    end in
  (1 <=? IRecurrencePattern.interval p)
  && match IRecurrencePattern.type p with
     | weekly =>
         match IRecurrencePattern.daysOfWeek p with
         | Some days => forallb (fun d => (0 <=? d) && (d <=? 6)) days
         | None => true
         end
     | monthly => dayOfMonthOk
     | yearly =>
         match IRecurrencePattern.monthOfYear p with
         | Some m => (m =? 0) || ((1 <=? m) && (m <=? 12))
         | None => true
         end
         && dayOfMonthOk
     | _ => true
     end.

(** The fields an occurrence shares with its base event: all but [id],
    [start] and [end]. *)
Definition copiesBaseFields (baseEvent ev : ICalendarEvent.t) : Prop :=
  ICalendarEvent.title ev = ICalendarEvent.title baseEvent
  /\ ICalendarEvent.description ev = ICalendarEvent.description baseEvent
  /\ ICalendarEvent.location ev = ICalendarEvent.location baseEvent
  /\ ICalendarEvent.category ev = ICalendarEvent.category baseEvent
  /\ ICalendarEvent.isAllDay ev = ICalendarEvent.isAllDay baseEvent
  /\ ICalendarEvent.isRecurring ev = ICalendarEvent.isRecurring baseEvent
  /\ ICalendarEvent.calendarId ev = ICalendarEvent.calendarId baseEvent
  /\ ICalendarEvent.calendarTitle ev = ICalendarEvent.calendarTitle baseEvent
  /\ ICalendarEvent.calendarType ev = ICalendarEvent.calendarType baseEvent
  /\ ICalendarEvent.organizer ev = ICalendarEvent.organizer baseEvent
  /\ ICalendarEvent.created ev = ICalendarEvent.created baseEvent
  /\ ICalendarEvent.modified ev = ICalendarEvent.modified baseEvent
  /\ ICalendarEvent.webUrl ev = ICalendarEvent.webUrl baseEvent
  /\ ICalendarEvent.color ev = ICalendarEvent.color baseEvent
  /\ ICalendarEvent.importance ev = ICalendarEvent.importance baseEvent
  /\ ICalendarEvent.sensitivity ev = ICalendarEvent.sensitivity baseEvent
  /\ ICalendarEvent.showAs ev = ICalendarEvent.showAs baseEvent
  /\ ICalendarEvent.attendees ev = ICalendarEvent.attendees baseEvent
  /\ ICalendarEvent.attachments ev = ICalendarEvent.attachments baseEvent
  /\ ICalendarEvent.tags ev = ICalendarEvent.tags baseEvent
  /\ ICalendarEvent.masterSeriesId ev = ICalendarEvent.masterSeriesId baseEvent
  /\ ICalendarEvent.isException ev = ICalendarEvent.isException baseEvent.

(** [{...pattern, occurrences}]: the pattern with another occurrence
    count. *)
Definition withOccurrences (pattern : IRecurrencePattern.t) (occurrences : option Z)
    : IRecurrencePattern.t :=
  {| IRecurrencePattern.type := IRecurrencePattern.type pattern;
     IRecurrencePattern.interval := IRecurrencePattern.interval pattern;
     IRecurrencePattern.daysOfWeek := IRecurrencePattern.daysOfWeek pattern;
     IRecurrencePattern.dayOfMonth := IRecurrencePattern.dayOfMonth pattern;
     IRecurrencePattern.weekOfMonth := IRecurrencePattern.weekOfMonth pattern;
     IRecurrencePattern.monthOfYear := IRecurrencePattern.monthOfYear pattern;
     IRecurrencePattern.endDate := IRecurrencePattern.endDate pattern;
     IRecurrencePattern.occurrences := occurrences;
     IRecurrencePattern.firstDayOfWeek := IRecurrencePattern.firstDayOfWeek pattern |}.

End Expansion.

Module Aggregation.
Import JS CalendarService.

(** What a [get] at time [now] sees under a key. *)
Definition seenAt (now : Z) (c : CacheService.t (list ICalendarEvent.t)) (k : string)
    : option (list ICalendarEvent.t) :=
  fst (CacheService.get now k c).

(** The events one source contributes to the fan-out: those of its
    per-source call, or none when that call throws. *)
Definition outcomeOf (ext : Collaborators) (now later : Z) (cap : Z)
    (c0 : CacheService.t (list ICalendarEvent.t)) (source : ICalendarSource.t)
    : result (list ICalendarEvent.t) :=
  fst (getEventsFromSource ext now later source cap c0).

Definition throws (ext : Collaborators) (now later : Z) (cap : Z)
    (c0 : CacheService.t (list ICalendarEvent.t)) (source : ICalendarSource.t) : bool :=
  match outcomeOf ext now later cap c0 source with
  | Ok _ => false
  | Throw _ => true
  end.

Definition contribution (ext : Collaborators) (now later : Z) (cap : Z)
    (c0 : CacheService.t (list ICalendarEvent.t)) (source : ICalendarSource.t)
    : list ICalendarEvent.t :=
  match outcomeOf ext now later cap c0 source with
  | Ok events => events
  | Throw _ => []
  end.

(** The comparator [cmp] lets [a] stand before [b]. *)
Definition before {A : Type} (cmp : A -> A -> Z) (a b : A) : Prop := cmp a b <= 0.

(** The order the claim describes: of two events of the list, the earlier
    one matches the query in its title if the later one does, and when
    both or neither match, the earlier one does not start later. *)
Definition twoBucketOrdered (query : string) (l : list ICalendarEvent.t) : Prop :=
  forall (i j : nat) (a b : ICalendarEvent.t),
    (i < j)%nat -> l !! i = Some a -> l !! j = Some b ->
    (titleMatches query b = true -> titleMatches query a = true)
    /\ (titleMatches query a = titleMatches query b ->
        ICalendarEvent.start a <= ICalendarEvent.start b).

(** The order of a list sorted by start time. *)
Definition byStart (a b : ICalendarEvent.t) : Prop :=
  ICalendarEvent.start a <= ICalendarEvent.start b.

(** A list criterion that filters nothing: missing or empty. *)
Definition unsetList (criterion : option (list string)) : Prop :=
  criterion = None \/ criterion = Some [].

(** A query of [n] spaces. *)
Fixpoint spaces (n : nat) : string :=
  match n with
  | O => EmptyString
  | S n' => String space (spaces n')
  end.

End Aggregation.

(** *** Concrete inputs used by the examples of Part II *)

Module Samples.
Import JS.

(** A SharePoint calendar with a GUID id and a site URL. *)
Definition teamCalendar : ICalendarSource.t :=
  {| ICalendarSource.id := "3f2504e0-4f89-11d3-9a0c-0305e82c3301";
     ICalendarSource.title := "Team";
     ICalendarSource.description := "";
     ICalendarSource.type := SharePoint;
     ICalendarSource.url := "";
     ICalendarSource.siteTitle := "Team site";
     ICalendarSource.siteUrl := "https://contoso.sharepoint.com/sites/team";
     ICalendarSource.color := "#0078d4";
     ICalendarSource.isEnabled := true;
     ICalendarSource.itemCount := None;
     ICalendarSource.lastModified := None;
     ICalendarSource.canEdit := None;
     ICalendarSource.canShare := None |}.

(** A one-hour, non-recurring-instance event of that calendar. *)
Definition event (id title : string) (start : Z) : ICalendarEvent.t :=
  {| ICalendarEvent.id := id;
     ICalendarEvent.title := title;
     ICalendarEvent.description := "";
     ICalendarEvent.start := start;
     ICalendarEvent.end_ := start + 3600000;
     ICalendarEvent.location := None;
     ICalendarEvent.category := None;
     ICalendarEvent.isAllDay := false;
     ICalendarEvent.isRecurring := true;
     ICalendarEvent.calendarId := "3f2504e0-4f89-11d3-9a0c-0305e82c3301";
     ICalendarEvent.calendarTitle := "Team";
     ICalendarEvent.calendarType := SharePoint;
     ICalendarEvent.organizer := "ana@contoso.com";
     ICalendarEvent.created := 0;
     ICalendarEvent.modified := 0;
     ICalendarEvent.webUrl := "";
     ICalendarEvent.color := "#0078d4";
     ICalendarEvent.importance := None;
     ICalendarEvent.sensitivity := None;
     ICalendarEvent.showAs := None;
     ICalendarEvent.attendees := None;
     ICalendarEvent.attachments := None;
     ICalendarEvent.tags := None;
     ICalendarEvent.masterSeriesId := None;
     ICalendarEvent.isException := None |}.

Definition pattern (type : RecurrenceType) (interval : Z)
    (daysOfWeek : option (list Z)) (dayOfMonth : option Z) : IRecurrencePattern.t :=
  {| IRecurrencePattern.type := type;
     IRecurrencePattern.interval := interval;
     IRecurrencePattern.daysOfWeek := daysOfWeek;
     IRecurrencePattern.dayOfMonth := dayOfMonth;
     IRecurrencePattern.weekOfMonth := None;
     IRecurrencePattern.monthOfYear := None;
     IRecurrencePattern.endDate := None;
     IRecurrencePattern.occurrences := None;
     IRecurrencePattern.firstDayOfWeek := None |}.

(** [{type: 'weekly', interval: 1, daysOfWeek: [1, 3, 5]}] *)
Definition weeklyMonWedFri : IRecurrencePattern.t :=
  pattern weekly 1 (Some [1; 3; 5]) None.

(** [{type: 'monthly', interval: 1, dayOfMonth: 31}] *)
Definition monthlyOn31 : IRecurrencePattern.t := pattern monthly 1 None (Some 31).

(** [{type: 'daily', interval: 0}]: the cursor never advances. *)
Definition dailyEveryZeroDays : IRecurrencePattern.t := pattern daily 0 None None.

Definition dailyEveryDay : IRecurrencePattern.t := pattern daily 1 None None.

(** [{type: 'daily', interval: 1, endDate: 1970-01-03T12:00Z, occurrences: 3}]:
    a daily pattern with both end conditions. *)
Definition dailyThreeTimesUntilNoon : IRecurrencePattern.t :=
  {| IRecurrencePattern.type := daily;
     IRecurrencePattern.interval := 1;
     IRecurrencePattern.daysOfWeek := None;
     IRecurrencePattern.dayOfMonth := None;
     IRecurrencePattern.weekOfMonth := None;
     IRecurrencePattern.monthOfYear := None;
     IRecurrencePattern.endDate := Some (JSDate.UTC 1970 0 3 43200000);
     IRecurrencePattern.occurrences := Some 3;
     IRecurrencePattern.firstDayOfWeek := None |}.

(** A second SharePoint calendar and an Exchange calendar. *)
Definition hrCalendar : ICalendarSource.t :=
  {| ICalendarSource.id := "9b2d7c1a-0c44-4e8b-8f5e-2a6d0e4b7c10";
     ICalendarSource.title := "HR";
     ICalendarSource.description := "";
     ICalendarSource.type := SharePoint;
     ICalendarSource.url := "";
     ICalendarSource.siteTitle := "HR site";
     ICalendarSource.siteUrl := "https://contoso.sharepoint.com/sites/hr";
     ICalendarSource.color := "#107c10";
     ICalendarSource.isEnabled := true;
     ICalendarSource.itemCount := None;
     ICalendarSource.lastModified := None;
     ICalendarSource.canEdit := None;
     ICalendarSource.canShare := None |}.

Definition mailboxCalendar : ICalendarSource.t :=
  {| ICalendarSource.id := "5d1e8f3b-7a26-4c90-b1d4-6e0f9a2c3b58";
     ICalendarSource.title := "Mailbox";
     ICalendarSource.description := "";
     ICalendarSource.type := Exchange;
     ICalendarSource.url := "";
     ICalendarSource.siteTitle := "Outlook";
     ICalendarSource.siteUrl := "https://outlook.office.com";
     ICalendarSource.color := "#d83b01";
     ICalendarSource.isEnabled := true;
     ICalendarSource.itemCount := None;
     ICalendarSource.lastModified := None;
     ICalendarSource.canEdit := None;
     ICalendarSource.canShare := None |}.

(** Collaborators whose validators accept everything, whose SharePoint
    backend answers the event query for a source with [eventsOf source]
    and every search with [found], and whose Exchange backend is
    unreachable. *)
Definition backend (eventsOf : ICalendarSource.t -> list ICalendarEvent.t)
    (found : list ICalendarEvent.t) : CalendarService.Collaborators :=
  {| CalendarService.validateCalendarSource := fun _ => [];
     CalendarService.validateCalendarEvent := fun _ => true;
     CalendarService.generateColorFromString := fun _ => "#000000";
     CalendarService.sharePoint_getEventsFromCalendar :=
       fun source _ => Ok (eventsOf source);
     CalendarService.exchange_getEventsFromCalendar := fun _ _ => Throw "offline";
     CalendarService.sharePoint_searchEvents := fun _ _ _ => Ok found;
     CalendarService.exchange_searchEvents := fun _ _ _ => Throw "offline" |}.

(** The team calendar holds one event at 2 000, any other SharePoint
    calendar one at 1 000. *)
Definition eventsBySource (source : ICalendarSource.t) : list ICalendarEvent.t :=
  if String.eqb (ICalendarSource.id source) (ICalendarSource.id teamCalendar)
  then [event "1" "Sync" 2000]
  else [event "2" "Review" 1000].

End Samples.

(** ** Part II: properties *)

(** *** Conflict detection *)

Section Conflicts.
Import JS CalendarService.

Lemma calculateEventOverlap_formula e1 e2 :
  calculateEventOverlap e1 e2 =
  Z.max 0
    ((Z.min (ICalendarEvent.end_ e1) (ICalendarEvent.end_ e2)
      - Z.max (ICalendarEvent.start e1) (ICalendarEvent.start e2)) / 60000).
Proof.
  unfold calculateEventOverlap.
  change (1000 * 60) with 60000.
  destruct (Z.leb_spec (ICalendarEvent.end_ e1) (ICalendarEvent.start e2));
    destruct (Z.leb_spec (ICalendarEvent.end_ e2) (ICalendarEvent.start e1));
    cbn [orb]; try reflexivity;
    Z.div_mod_to_equations; lia.
Qed.

Lemma conflictsWith_not_all_day e1 rest :
  Forall (fun c => ICalendarEvent.isAllDay (event1 c) = false
                   /\ ICalendarEvent.isAllDay (event2 c) = false
                   /\ overlapMinutes c = calculateEventOverlap (event1 c) (event2 c)
                   /\ 0 < overlapMinutes c)
    (conflictsWith e1 rest).
Proof.
  induction rest as [| e2 rest IH]; cbn [conflictsWith]; [constructor |].
  apply Forall_app; split; [| exact IH].
  destruct (ICalendarEvent.isAllDay e1) eqn:H1; cbn [orb]; [constructor |].
  destruct (ICalendarEvent.isAllDay e2) eqn:H2; [constructor |].
  destruct (Z.ltb_spec 0 (calculateEventOverlap e1 e2)); constructor;
    [cbn; auto | constructor].
Qed.

Lemma scanConflicts_not_all_day events :
  Forall (fun c => ICalendarEvent.isAllDay (event1 c) = false
                   /\ ICalendarEvent.isAllDay (event2 c) = false
                   /\ overlapMinutes c = calculateEventOverlap (event1 c) (event2 c)
                   /\ 0 < overlapMinutes c)
    (scanConflicts events).
Proof.
  induction events as [| e1 rest IH]; cbn [scanConflicts]; [constructor |].
  apply Forall_app; split; [apply conflictsWith_not_all_day | exact IH].
Qed.

(** C7.  The overlap of two events does not depend on their order and is
    [min(end1, end2) - max(start1, start2)] in whole minutes, floored at
    zero; every conflict that [getEventConflicts] reports is between two
    events neither of which is all-day, and carries their (positive)
    overlap. *)
Theorem C7_overlap_symmetric_all_day_excluded :
  (forall e1 e2 : ICalendarEvent.t,
      calculateEventOverlap e1 e2 = calculateEventOverlap e2 e1
      /\ calculateEventOverlap e1 e2 =
         Z.max 0
           ((Z.min (ICalendarEvent.end_ e1) (ICalendarEvent.end_ e2)
             - Z.max (ICalendarEvent.start e1) (ICalendarEvent.start e2)) / 60000))
  /\ (forall ranged : result (list ICalendarEvent.t),
         Forall (fun c => ICalendarEvent.isAllDay (event1 c) = false
                          /\ ICalendarEvent.isAllDay (event2 c) = false
                          /\ overlapMinutes c = calculateEventOverlap (event1 c) (event2 c)
                          /\ 0 < overlapMinutes c)
           (getEventConflicts ranged)).
Proof.
  split.
  - intros e1 e2. split; [| apply calculateEventOverlap_formula].
    rewrite !calculateEventOverlap_formula.
    rewrite (Z.min_comm (ICalendarEvent.end_ e1)),
            (Z.max_comm (ICalendarEvent.start e1)).
    reflexivity.
  - intros [events | m]; cbn [getEventConflicts];
      [apply scanConflicts_not_all_day | constructor].
Qed.

End Conflicts.

(** *** The cache store *)

Section CacheStore.
Context {T : Type}.
Import CacheService.

Lemma lookup_fold_delete (keys : list string) (m : gmap string (ICacheItem T)) k :
  fold_left (fun m key => delete key m) keys m !! k =
  if decide (k ∈ keys) then None else m !! k.
Proof.
  revert m. induction keys as [| key keys IH]; intros m; cbn [fold_left].
  - rewrite decide_False by apply not_elem_of_nil. reflexivity.
  - rewrite IH. destruct (decide (k ∈ keys)) as [Hin | Hout].
    + rewrite decide_True by (right; exact Hin). reflexivity.
    + destruct (decide (k = key)) as [-> | Hne].
      * rewrite decide_True by left. apply lookup_delete_eq.
      * rewrite decide_False by (intros Hc; apply elem_of_cons in Hc; tauto).
        apply lookup_delete_ne. congruence.
Qed.

Lemma elem_of_expiredKeys now (m : gmap string (ICacheItem T)) k :
  k ∈ expiredKeys now m <-> exists item, m !! k = Some item /\ expiry item < now.
Proof.
  unfold expiredKeys. rewrite list_elem_of_In, in_map_iff. split.
  - intros [[k' item] [<- Hin]]. apply filter_In in Hin. destruct Hin as [Hin Hexp].
    apply list_elem_of_In, elem_of_map_to_list in Hin.
    exists item. split; [exact Hin | cbn in Hexp; lia].
  - intros [item [Hk Hexp]]. exists (k, item). split; [reflexivity |].
    apply filter_In. split; [| cbn; lia].
    apply list_elem_of_In, elem_of_map_to_list. exact Hk.
Qed.

(** The sweep removes exactly the expired items. *)
Lemma lookup_cleanupExpired now (s : t T) k :
  cache (cleanupExpired now s) !! k =
  match cache s !! k with
  | Some item => if expiry item <? now then None else Some item
  | None => None
  end.
Proof.
  unfold cleanupExpired. cbn [cache]. rewrite lookup_fold_delete.
  destruct (decide (k ∈ expiredKeys now (cache s))) as [Hin | Hout].
  - apply elem_of_expiredKeys in Hin. destruct Hin as [item [-> Hexp]].
    destruct (Z.ltb_spec (expiry item) now); [reflexivity | lia].
  - destruct (cache s !! k) as [item |] eqn:Hk; [| reflexivity].
    destruct (Z.ltb_spec (expiry item) now) as [Hexp | _]; [| reflexivity].
    exfalso. apply Hout, elem_of_expiredKeys. eauto.
Qed.

Lemma lookup_set_same now k (v : T) ttl (s : t T) :
  0 < ttl ->
  cache (set now k v (Some ttl) s) !! k =
  Some {| data := v; timestamp := now; expiry := now + ttl * 60 * 1000 |}.
Proof.
  intros Httl. unfold set.
  replace (JS.truthy (Some ttl)) with true
    by (unfold JS.truthy; destruct (Z.eqb_spec ttl 0); [lia | reflexivity]).
  rewrite lookup_cleanupExpired. cbn [cache].
  rewrite lookup_insert_eq. cbn [expiry].
  destruct (Z.ltb_spec (now + ttl * 60 * 1000) now); [lia | reflexivity].
Qed.

(** C6, as amended.  For a positive TTL (in minutes): a [get] at any time
    from the [set] up to and including the expiry time [now + ttl] returns
    the stored value and leaves the store as it is; a [get] strictly after
    the expiry time returns nothing and removes the entry. *)
Theorem C6_set_then_get (s : t T) (k : string) (v : T) (ttl now now' : Z) :
  0 < ttl ->
  (now <= now' <= now + ttl * 60 * 1000 ->
   get now' k (set now k v (Some ttl) s) = (Some v, set now k v (Some ttl) s))
  /\ (now + ttl * 60 * 1000 < now' ->
      fst (get now' k (set now k v (Some ttl) s)) = None
      /\ cache (snd (get now' k (set now k v (Some ttl) s))) !! k = None).
Proof.
  intros Httl. pose proof (lookup_set_same now k v ttl s Httl) as Hk.
  split; intros Hnow; unfold get; rewrite Hk; cbn [expiry data].
  - destruct (Z.ltb_spec (now + ttl * 60 * 1000) now'); [lia | reflexivity].
  - destruct (Z.ltb_spec (now + ttl * 60 * 1000) now'); [| lia].
    cbn [fst snd cache]. split; [reflexivity | apply lookup_delete_eq].
Qed.

End CacheStore.

(** Instance of C6: a value stored for five minutes at time 1 000 is read
    back at once, and is gone at 301 001. *)
Lemma C6_set_then_get_witness :
  (CacheService.get 1000 "k" (CacheService.set 1000 "k" 7 (Some 5) CacheService.create)
   = (Some 7, CacheService.set 1000 "k" 7 (Some 5) CacheService.create))
  /\ fst (CacheService.get 301001 "k"
            (CacheService.set 1000 "k" 7 (Some 5) CacheService.create)) = None.
Proof.
  destruct (C6_set_then_get (CacheService.create (T := Z)) "k" 7 5 1000 1000 ltac:(lia))
    as [Hhit _].
  destruct (C6_set_then_get (CacheService.create (T := Z)) "k" 7 5 1000 301001 ltac:(lia))
    as [_ Hmiss].
  split; [apply Hhit; lia | apply Hmiss; lia].
Defined.

(** The claim C6 as stated, "for every TTL", fails at TTL 0: the store
    then applies its default TTL (15 minutes), so one millisecond after the
    [set], which is strictly past "set time plus ttl", the value is still
    returned. *)
Lemma C6_counterexample_zero_ttl :
  let s := CacheService.set 1000 "k" 7 (Some 0) CacheService.create in
  1000 + 0 * 60 * 1000 < 1001
  /\ fst (CacheService.get 1001 "k" s) = Some 7.
Proof. cbv zeta. split; [lia | vm_compute; reflexivity]. Qed.

(** *** Months on the day line

    [monthStart A] is the day number of the first day of the month with
    absolute index [A = 12 * year + month]; months follow each other on
    the day line, each 28 to 31 days long. *)

Module MonthsFacts.
Import JSDate JSDateFacts Months.

Lemma monthStart_split q r :
  0 <= r < 12 ->
  monthStart (12 * q + r) = DayFromYear q + monthOffset (DaysInYear q - 365) r.
Proof.
  intros Hr. unfold monthStart, MakeDay.
  replace ((12 * q + r) / 12) with q by (Z.div_mod_to_equations; lia).
  replace ((12 * q + r) mod 12) with r by (Z.div_mod_to_equations; lia).
  rewrite Z.add_0_l. lia.
Qed.

Lemma MakeDay_monthStart y m dt :
  MakeDay y m dt = monthStart (12 * y + m) + dt - 1.
Proof.
  unfold monthStart, MakeDay.
  replace ((12 * y + m) / 12) with (y + m / 12) by (Z.div_mod_to_equations; lia).
  replace ((12 * y + m) mod 12) with (m mod 12) by (Z.div_mod_to_equations; lia).
  rewrite Z.add_0_l. lia.
Qed.

Lemma monthStart_succ_split q r :
  0 <= r < 12 ->
  monthStart (12 * q + r + 1) - monthStart (12 * q + r) =
  monthOffset (DaysInYear q - 365) (r + 1) - monthOffset (DaysInYear q - 365) r.
Proof.
  intros Hr. rewrite (monthStart_split q r) by lia.
  destruct (Z.eq_dec r 11) as [-> | Hne].
  - replace (12 * q + 11 + 1) with (12 * (q + 1) + 0) by lia.
    rewrite monthStart_split by lia. rewrite DayFromYear_succ.
    change (11 + 1) with 12.
    change (monthOffset (DaysInYear (q + 1) - 365) 0) with 0.
    change (monthOffset (DaysInYear q - 365) 12) with (365 + (DaysInYear q - 365)).
    lia.
  - replace (12 * q + r + 1) with (12 * q + (r + 1)) by lia.
    rewrite monthStart_split by lia. lia.
Qed.

Lemma monthStart_succ A : 28 <= monthStart (A + 1) - monthStart A <= 31.
Proof.
  pose proof (Z.div_mod A 12 ltac:(lia)) as HA.
  pose proof (Z.mod_pos_bound A 12 ltac:(lia)) as Hr.
  revert HA Hr. generalize (A / 12) as q. generalize (A mod 12) as r.
  intros r q -> Hr. rewrite monthStart_succ_split by lia.
  assert (Hcases : r = 0 \/ r = 1 \/ r = 2 \/ r = 3 \/ r = 4 \/ r = 5 \/ r = 6
                   \/ r = 7 \/ r = 8 \/ r = 9 \/ r = 10 \/ r = 11) by lia.
  destruct (DaysInYear_range q) as [Hy | Hy]; rewrite Hy.
  all: repeat (destruct Hcases as [-> | Hcases]; [vm_compute; split; discriminate |]).
  all: subst r; vm_compute; split; discriminate.
Qed.

Lemma monthStart_lt A B : A < B -> monthStart A + 28 <= monthStart B.
Proof.
  intros HAB. replace B with (A + 1 + (B - A - 1)) by lia.
  assert (Hk : 0 <= B - A - 1) by lia. revert Hk.
  generalize (B - A - 1) as k. intros k Hk. pattern k.
  apply natlike_ind; [| | exact Hk].
  - rewrite Z.add_0_r. pose proof (monthStart_succ A). lia.
  - intros x Hx IH. pose proof (monthStart_succ (A + 1 + x)).
    replace (A + 1 + Z.succ x) with (A + 1 + x + 1) by lia. lia.
Qed.

Lemma monthStart_le A B : A <= B -> monthStart A <= monthStart B.
Proof.
  intros HAB. destruct (Z.eq_dec A B) as [-> | Hne]; [lia |].
  pose proof (monthStart_lt A B ltac:(lia)). lia.
Qed.

(** A day lies in the month [absMonth] assigns to it. *)
Lemma absMonth_bracket d :
  monthStart (absMonth d) <= d < monthStart (absMonth d + 1)
  /\ DateFromDay d = d - monthStart (absMonth d) + 1.
Proof.
  unfold absMonth.
  pose proof (MonthFromDay_range d) as Hm.
  pose proof (DateFromDay_range d) as Hd.
  pose proof (MakeDay_fields d) as Hf. rewrite MakeDay_monthStart in Hf.
  pose proof (monthStart_succ_split (YearFromDay d) (MonthFromDay d) Hm) as Hs.
  fold (InLeapYear d) in Hs. lia.
Qed.

Lemma absMonth_unique A d :
  monthStart A <= d < monthStart (A + 1) -> absMonth d = A.
Proof.
  intros HA. destruct (absMonth_bracket d) as [Hb _].
  destruct (Z.lt_trichotomy (absMonth d) A) as [Hlt | [Heq | Hgt]]; [| exact Heq |].
  - pose proof (monthStart_le (absMonth d + 1) A ltac:(lia)). lia.
  - pose proof (monthStart_le (A + 1) (absMonth d) ltac:(lia)). lia.
Qed.

Lemma absMonth_ge A d : monthStart A <= d -> A <= absMonth d.
Proof.
  intros HA. destruct (absMonth_bracket d) as [Hb _].
  destruct (Z_le_gt_dec A (absMonth d)) as [Hle | Hgt]; [exact Hle |].
  pose proof (monthStart_le (absMonth d + 1) A ltac:(lia)). lia.
Qed.

(** The calendar fields of a day known to lie in month [A]. *)
Lemma fields_of_day A d :
  monthStart A <= d < monthStart (A + 1) ->
  YearFromDay d = A / 12 /\ MonthFromDay d = A mod 12
  /\ DateFromDay d = d - monthStart A + 1.
Proof.
  intros HA. pose proof (absMonth_unique A d HA) as Hu.
  destruct (absMonth_bracket d) as [_ Hdate]. rewrite Hu in Hdate.
  pose proof (MonthFromDay_range d) as Hr. unfold absMonth in Hu.
  repeat split; [| | exact Hdate]; Z.div_mod_to_equations; lia.
Qed.

(** The calendar fields of a date given by a year, a month in 0..11 and a
    day within that month. *)
Lemma fields_of_monthStart y m dt :
  0 <= m < 12 ->
  1 <= dt <= monthStart (12 * y + m + 1) - monthStart (12 * y + m) ->
  YearFromDay (monthStart (12 * y + m) + dt - 1) = y
  /\ MonthFromDay (monthStart (12 * y + m) + dt - 1) = m
  /\ DateFromDay (monthStart (12 * y + m) + dt - 1) = dt.
Proof.
  intros Hm Hdt.
  destruct (fields_of_day (12 * y + m) (monthStart (12 * y + m) + dt - 1))
    as (Hy & Hmo & Hd); [lia |].
  rewrite Hy, Hmo, Hd. repeat split; [| | lia]; Z.div_mod_to_equations; lia.
Qed.

End MonthsFacts.

Module MomentMonths.
Import JSDate JSDateFacts Months MonthsFacts Moment.

Lemma absMonthOf_fields t : absMonthOf t = 12 * year t + month t.
Proof. reflexivity. Qed.

Lemma Day_setDate t dt :
  Day (JSDate.setDate t dt) = monthStart (absMonthOf t) + dt - 1.
Proof.
  unfold JSDate.setDate. rewrite Day_MakeDate by apply TimeWithinDay_range.
  apply MakeDay_monthStart.
Qed.

Lemma Day_JSsetMonth t m dt :
  Day (JSDate.setMonth t m dt) = monthStart (12 * year t + m) + dt - 1.
Proof.
  unfold JSDate.setMonth. rewrite Day_MakeDate by apply TimeWithinDay_range.
  apply MakeDay_monthStart.
Qed.

Lemma time_setDate t dt : TimeWithinDay (JSDate.setDate t dt) = TimeWithinDay t.
Proof. apply TimeWithinDay_MakeDate, TimeWithinDay_range. Qed.

Lemma time_JSsetMonth t m dt : TimeWithinDay (JSDate.setMonth t m dt) = TimeWithinDay t.
Proof. apply TimeWithinDay_MakeDate, TimeWithinDay_range. Qed.

Lemma date_range t :
  1 <= date t <= monthStart (absMonthOf t + 1) - monthStart (absMonthOf t).
Proof.
  destruct (absMonth_bracket (Day t)) as [Hb Hd].
  unfold date, DateFromTime, absMonthOf. lia.
Qed.

Lemma daysInMonth_range y m : 28 <= daysInMonth y m <= 31.
Proof.
  unfold daysInMonth.
  destruct (Z.eqb_spec (m mod 12) 1); [destruct (isLeapYear _); lia |].
  Z.div_mod_to_equations; lia.
Qed.

(** Two time values at the same time of day compare as their days do. *)
Lemma same_time_le a b :
  TimeWithinDay a = TimeWithinDay b -> (a <= b <-> Day a <= Day b).
Proof.
  intros Ht. pose proof (MakeDate_Day a) as Ha. pose proof (MakeDate_Day b) as Hb.
  unfold MakeDate, msPerDay in *. lia.
Qed.

Lemma same_time_lt a b :
  TimeWithinDay a = TimeWithinDay b -> (a < b <-> Day a < Day b).
Proof.
  intros Ht. pose proof (MakeDate_Day a) as Ha. pose proof (MakeDate_Day b) as Hb.
  unfold MakeDate, msPerDay in *. lia.
Qed.

Lemma same_time_eq a b :
  TimeWithinDay a = TimeWithinDay b -> Day a = Day b -> a = b.
Proof.
  intros Ht Hd. pose proof (MakeDate_Day a) as Ha. pose proof (MakeDate_Day b) as Hb.
  unfold MakeDate in *. congruence.
Qed.

Lemma time_addDays n t : TimeWithinDay (addDays n t) = TimeWithinDay t.
Proof. rewrite MomentFacts.addDays_shift. apply TimeWithinDay_shift. Qed.

Lemma time_setMonth t v : TimeWithinDay (setMonth t v) = TimeWithinDay t.
Proof. unfold setMonth. apply time_JSsetMonth. Qed.

Lemma time_addMonths n t : TimeWithinDay (addMonths n t) = TimeWithinDay t.
Proof.
  unfold addMonths. destruct (n =? 0); [reflexivity | apply time_setMonth].
Qed.

(** moment's [setMonth] lands in or after the month asked for. *)
Lemma Day_setMonth_ge t v : monthStart (12 * year t + v) <= Day (setMonth t v).
Proof.
  unfold setMonth. rewrite Day_JSsetMonth.
  pose proof (date_range t). pose proof (daysInMonth_range (year t) v). lia.
Qed.

(** Adding [n >= 1] months lands in a later month. *)
Lemma addMonths_later n t :
  1 <= n -> monthStart (absMonthOf t + n) <= Day (addMonths n t).
Proof.
  intros Hn. unfold addMonths. destruct (Z.eqb_spec n 0); [lia |].
  pose proof (Day_setMonth_ge t (month t + n)) as H.
  rewrite absMonthOf_fields. replace (12 * year t + month t + n)
    with (12 * year t + (month t + n)) by lia. exact H.
Qed.

Lemma Day_lt_next_month t : Day t < monthStart (absMonthOf t + 1).
Proof. destruct (absMonth_bracket (Day t)) as [Hb _]. unfold absMonthOf. lia. Qed.

End MomentMonths.

(** *** One step of a pattern never moves the cursor back *)

Module NextOccurrence.
Import JS JSDate JSDateFacts Months MonthsFacts Moment MomentFacts MomentMonths
  RecurrenceUtils Expansion.

Lemma doWhile_related {S : Type} (body : S -> S) (cond : S -> bool)
    (left : S -> nat)
    (H : forall s, cond (body s) = true -> (left (body (body s)) < left (body s))%nat)
    (R : S -> S -> Prop) :
  (forall s, R s (body s)) ->
  (forall a b c, R a b -> R b c -> R a c) ->
  forall s, R s (doWhile body cond left H s).
Proof.
  intros Hbody Htrans s.
  funelim (doWhile body cond left H s).
  - eapply Htrans; [apply Hbody |].
    match goal with IH : forall R : _ -> _ -> Prop, _ |- _ => apply IH end;
      assumption.
  - apply Hbody.
Qed.

Lemma skipWeekend_later t :
  t < skipWeekend t /\ TimeWithinDay (skipWeekend t) = TimeWithinDay t.
Proof.
  unfold skipWeekend.
  apply (doWhile_related (addDays 1) isWeekend weekendLeft weekendLeft_decreases
           (fun a b => a < b /\ TimeWithinDay b = TimeWithinDay a)).
  - intros s. rewrite time_addDays, addDays_shift. unfold msPerDay. lia.
  - intros a b c [Hab Tab] [Hbc Tbc]. split; [lia | congruence].
Qed.

Lemma In_insertBy {A} (cmp : A -> A -> Z) x y l :
  In y (insertBy cmp x l) -> y = x \/ In y l.
Proof.
  induction l as [| z l IH]; cbn [insertBy].
  - intros [<- | []]. auto.
  - destruct (cmp x z <=? 0).
    + intros [<- | Hin]; auto.
    + intros [<- | Hin]; [right; left; reflexivity |].
      destruct (IH Hin); [auto | right; right; assumption].
Qed.

Lemma In_sortBy {A} (cmp : A -> A -> Z) y l : In y (sortBy cmp l) -> In y l.
Proof.
  induction l as [| x l IH]; cbn [sortBy]; [auto |].
  intros Hin. apply In_insertBy in Hin. destruct Hin as [-> | Hin];
    [left; reflexivity | right; auto].
Qed.

Lemma filter_nil_Forall {A} (f : A -> bool) l :
  List.filter f l = [] -> Forall (fun x => f x = false) l.
Proof.
  induction l as [| x l IH]; cbn [List.filter]; [constructor |].
  destruct (f x) eqn:Hx; [discriminate |]. intros Hl. constructor; auto.
Qed.

(** What [validateRecurrencePattern] guarantees of a pattern it accepts. *)
Lemma isValidPattern_facts p :
  isValidPattern p = true ->
  1 <= IRecurrencePattern.interval p
  /\ (IRecurrencePattern.type p = weekly ->
      forall days, IRecurrencePattern.daysOfWeek p = Some days ->
                   Forall (fun d => 0 <= d <= 6) days)
  /\ (IRecurrencePattern.type p = monthly \/ IRecurrencePattern.type p = yearly ->
      forall d, IRecurrencePattern.dayOfMonth p = Some d -> d = 0 \/ 1 <= d <= 31)
  /\ (IRecurrencePattern.type p = yearly ->
      forall m, IRecurrencePattern.monthOfYear p = Some m -> m = 0 \/ 1 <= m <= 12).
Proof.
  unfold isValidPattern, validateRecurrencePattern. intros Hv.
  apply Nat.eqb_eq, length_zero_iff_nil in Hv.
  apply app_eq_nil in Hv. destruct Hv as [Hint Hv].
  apply app_eq_nil in Hv. destruct Hv as [_ Hv].
  apply app_eq_nil in Hv. destruct Hv as [Hty _].
  assert (Hdom : forall d, IRecurrencePattern.dayOfMonth p = Some d ->
            (if truthy (Some d) && ((d <? 1) || (31 <? d))
             then ["Day of month must be between 1 and 31"%string] else []) = [] ->
            d = 0 \/ 1 <= d <= 31).
  { intros d _. unfold truthy.
    destruct (Z.eqb_spec d 0); [auto |].
    destruct (Z.ltb_spec d 1); [discriminate |].
    destruct (Z.ltb_spec 31 d); [discriminate |]. intros _. lia. }
  split; [| split; [| split]].
  - destruct (Z.eqb_spec (IRecurrencePattern.interval p) 0); [discriminate |].
    destruct (Z.ltb_spec (IRecurrencePattern.interval p) 1); [discriminate | lia].
  - intros Hw days Hdays. rewrite Hw, Hdays in Hty.
    apply app_eq_nil in Hty. destruct Hty as [_ Hbad].
    destruct (List.filter _ days) eqn:Hf; [| discriminate].
    apply filter_nil_Forall in Hf. eapply Forall_impl; [exact Hf |].
    intros d Hd. cbn beta in Hd. apply orb_false_iff in Hd.
    destruct Hd as [H0 H6]. apply Z.ltb_ge in H0, H6. lia.
  - intros [Hm | Hy] d Hd; [rewrite Hm in Hty | rewrite Hy in Hty];
      rewrite Hd in Hty; apply app_eq_nil in Hty; destruct Hty as [H1 H2];
      eapply Hdom; eauto.
  - intros Hy m Hm. rewrite Hy, Hm in Hty.
    apply app_eq_nil in Hty. destruct Hty as [Hmo _]. revert Hmo. unfold truthy.
    destruct (Z.eqb_spec m 0); [auto |].
    destruct (Z.ltb_spec m 1); [discriminate |].
    destruct (Z.ltb_spec 12 m); [discriminate |]. intros _. lia.
Qed.

Lemma fieldsInRange_facts p :
  fieldsInRange p = true ->
  1 <= IRecurrencePattern.interval p
  /\ (IRecurrencePattern.type p = weekly ->
      forall days, IRecurrencePattern.daysOfWeek p = Some days ->
                   Forall (fun d => 0 <= d <= 6) days)
  /\ (IRecurrencePattern.type p = monthly \/ IRecurrencePattern.type p = yearly ->
      forall d, IRecurrencePattern.dayOfMonth p = Some d -> d = 0 \/ 1 <= d <= 31)
  /\ (IRecurrencePattern.type p = yearly ->
      forall m, IRecurrencePattern.monthOfYear p = Some m -> m = 0 \/ 1 <= m <= 12).
Proof.
  unfold fieldsInRange. intros Hr. apply andb_true_iff in Hr. destruct Hr as [Hint Hty].
  apply Z.leb_le in Hint.
  assert (Hnum : forall lo hi x,
            (x =? 0) || ((lo <=? x) && (x <=? hi)) = true -> x = 0 \/ lo <= x <= hi).
  { intros lo hi x Hx. apply orb_true_iff in Hx. destruct Hx as [Hx | Hx].
    - left. apply Z.eqb_eq. exact Hx.
    - right. apply andb_true_iff in Hx. destruct Hx as [H1 H2].
      apply Z.leb_le in H1, H2. lia. }
  split; [exact Hint |]. split; [| split].
  - intros Hw days Hdays. rewrite Hw, Hdays in Hty.
    apply Forall_forall. intros d Hd.
    rewrite forallb_forall in Hty. apply list_elem_of_In in Hd.
    specialize (Hty d Hd). apply andb_true_iff in Hty. destruct Hty as [H0 H6].
    apply Z.leb_le in H0, H6. lia.
  - intros [Hm | Hy] d Hd; [rewrite Hm in Hty | rewrite Hy in Hty];
      rewrite Hd in Hty.
    + apply (Hnum 1 31). exact Hty.
    + apply andb_true_iff in Hty. destruct Hty as [_ Hty]. apply (Hnum 1 31). exact Hty.
  - intros Hy m Hm. rewrite Hy, Hm in Hty.
    apply andb_true_iff in Hty. destruct Hty as [Hty _]. apply (Hnum 1 12). exact Hty.
Qed.

(** Every pattern that [validateRecurrencePattern] accepts is in range. *)
Lemma isValidPattern_fieldsInRange p :
  isValidPattern p = true -> fieldsInRange p = true.
Proof.
  intros Hv. destruct (isValidPattern_facts p Hv) as (Hint & Hweek & Hdom & Hmoy).
  assert (Hnum : forall lo hi x,
            x = 0 \/ lo <= x <= hi -> (x =? 0) || ((lo <=? x) && (x <=? hi)) = true).
  { intros lo hi x [-> | Hx]; [reflexivity |].
    apply orb_true_iff. right. apply andb_true_iff. split; apply Z.leb_le; lia. }
  unfold fieldsInRange. apply andb_true_iff. split; [apply Z.leb_le; exact Hint |].
  destruct (IRecurrencePattern.type p) eqn:Hty; try reflexivity.
  - destruct (IRecurrencePattern.daysOfWeek p) as [days |] eqn:Hdays; [| reflexivity].
    specialize (Hweek eq_refl days eq_refl). rewrite Forall_forall in Hweek.
    apply forallb_forall. intros d Hd. apply list_elem_of_In in Hd.
    specialize (Hweek d Hd). apply andb_true_iff. split; apply Z.leb_le; lia.
  - destruct (IRecurrencePattern.dayOfMonth p) as [d |] eqn:Hd; [| reflexivity].
    apply Hnum, Hdom; auto.
  - apply andb_true_iff. split.
    + destruct (IRecurrencePattern.monthOfYear p) as [m |] eqn:Hm; [| reflexivity].
      apply Hnum, Hmoy; auto.
    + destruct (IRecurrencePattern.dayOfMonth p) as [d |] eqn:Hd; [| reflexivity].
      apply Hnum, Hdom; auto.
Qed.

(** A time value at the same time of day in a later month is later. *)
Lemma later_month t u :
  TimeWithinDay u = TimeWithinDay t ->
  monthStart (absMonthOf t + 1) <= Day u ->
  t < u.
Proof.
  intros Ht Hu. apply same_time_lt; [congruence |].
  pose proof (Day_lt_next_month t). lia.
Qed.

Lemma addMonths_in_later_month n t :
  1 <= n ->
  TimeWithinDay (addMonths n t) = TimeWithinDay t
  /\ absMonthOf t + 1 <= absMonthOf (addMonths n t).
Proof.
  intros Hn. split; [apply time_addMonths |].
  pose proof (addMonths_later n t Hn) as Hl.
  apply absMonth_ge in Hl. unfold absMonthOf in *. lia.
Qed.

Lemma set_date_in_month dom t :
  1 <= dom ->
  TimeWithinDay (set_date dom t) = TimeWithinDay t
  /\ absMonthOf t <= absMonthOf (set_date dom t)
  /\ (absMonthOf (set_date dom t) = absMonthOf t -> date (set_date dom t) = dom).
Proof.
  intros Hdom. unfold set_date.
  pose proof (Day_setDate t dom) as Hd.
  split; [apply time_setDate |].
  assert (Hge : absMonthOf t <= absMonthOf (JSDate.setDate t dom)).
  { unfold absMonthOf at 2. apply absMonth_ge. lia. }
  split; [exact Hge |].
  intros Heq. destruct (absMonth_bracket (Day (JSDate.setDate t dom))) as [_ Hdate].
  unfold date, DateFromTime, absMonthOf in *. rewrite Heq in Hdate. lia.
Qed.

Lemma set_date_zero t :
  TimeWithinDay (set_date 0 t) = TimeWithinDay t
  /\ Day (set_date 0 t) = monthStart (absMonthOf t) - 1.
Proof.
  unfold set_date. split; [apply time_setDate |].
  rewrite Day_setDate. lia.
Qed.

Lemma month_le_Day A t : A <= absMonthOf t -> monthStart A <= Day t.
Proof.
  intros HA. pose proof (monthStart_le A (absMonthOf t) HA).
  destruct (absMonth_bracket (Day t)) as [Hb _]. unfold absMonthOf in *. lia.
Qed.

(** The monthly step with a day of the month. *)
Lemma monthly_step_later n dom t :
  1 <= n -> 1 <= dom ->
  let next1 := set_date dom (addMonths n t) in
  t < (if negb (date next1 =? dom) then set_date 0 next1 else next1).
Proof.
  intros Hn Hdom. cbv zeta.
  destruct (addMonths_in_later_month n t Hn) as [Tr Ar].
  destruct (set_date_in_month dom (addMonths n t) Hdom) as (T1 & A1 & D1).
  remember (set_date dom (addMonths n t)) as next1 eqn:E in *. clear E.
  destruct (Z.eqb_spec (date next1) dom) as [Hsame | Hdiff]; cbn [negb].
  - apply later_month; [congruence |]. apply month_le_Day. lia.
  - destruct (set_date_zero next1) as [T0 D0].
    apply later_month; [congruence |]. rewrite D0.
    assert (absMonthOf (addMonths n t) + 1 <= absMonthOf next1) by
      (destruct (Z.eq_dec (absMonthOf next1) (absMonthOf (addMonths n t)));
       [exfalso; auto | lia]).
    pose proof (monthStart_lt (absMonthOf t + 1) (absMonthOf next1) ltac:(lia)).
    lia.
Qed.

Lemma set_month_in_year v t :
  0 <= v ->
  TimeWithinDay (set_month v t) = TimeWithinDay t
  /\ 12 * year t <= absMonthOf (set_month v t).
Proof.
  intros Hv. unfold set_month. split; [apply time_setMonth |].
  pose proof (Day_setMonth_ge t v) as Hd. apply absMonth_ge in Hd.
  unfold absMonthOf. lia.
Qed.

Lemma year_bounds t : 12 * year t <= absMonthOf t <= 12 * year t + 11.
Proof.
  rewrite absMonthOf_fields. pose proof (MonthFromDay_range (Day t)).
  unfold month, MonthFromTime. lia.
Qed.

(** The yearly step, with or without month and day overrides. *)
Lemma yearly_step_later n (moy dom : option Z) t :
  1 <= n ->
  (forall m, moy = Some m -> m = 0 \/ 1 <= m <= 12) ->
  (forall d, dom = Some d -> d = 0 \/ 1 <= d <= 31) ->
  let next1 := addYears n t in
  let next2 :=
    match moy with
    | Some m => if truthy (Some m) then set_month (m - 1) next1 else next1
    | None => next1
    end in
  t < match dom with
      | Some d => if truthy (Some d) then set_date d next2 else next2
      | None => next2
      end.
Proof.
  intros Hn Hmoy Hdom. cbv zeta. unfold addYears.
  destruct (addMonths_in_later_month (n * 12) t ltac:(lia)) as [T1 _].
  pose proof (addMonths_later (n * 12) t ltac:(lia)) as L1.
  apply absMonth_ge in L1.
  change (absMonth (Day (addMonths (n * 12) t)))
    with (absMonthOf (addMonths (n * 12) t)) in L1.
  remember (addMonths (n * 12) t) as next1 eqn:E1 in *. clear E1.
  pose proof (year_bounds t) as Yt. pose proof (year_bounds next1) as Y1.
  match goal with
  | |- _ < match dom with
           | Some d => if truthy (Some d) then set_date d ?n2 else ?n2
           | None => ?n2
           end => remember n2 as next2 eqn:E2
  end.
  assert (H2 : TimeWithinDay next2 = TimeWithinDay t
               /\ absMonthOf t + 1 <= absMonthOf next2).
  { subst next2. destruct moy as [m |]; [| split; [exact T1 | lia]].
    unfold truthy. destruct (Z.eqb_spec m 0); cbn [negb]; [split; [exact T1 | lia] |].
    destruct (Hmoy m eq_refl) as [? | Hm]; [lia |].
    destruct (set_month_in_year (m - 1) next1 ltac:(lia)) as [T2 A2].
    split; [congruence | lia]. }
  clear E2. destruct H2 as [T2 A2].
  destruct dom as [d |]; [| apply later_month; [exact T2 | apply month_le_Day; lia]].
  unfold truthy. destruct (Z.eqb_spec d 0); cbn [negb];
    [apply later_month; [exact T2 | apply month_le_Day; lia] |].
  destruct (Hdom d eq_refl) as [? | Hd]; [lia |].
  destruct (set_date_in_month d next2 ltac:(lia)) as (T3 & A3 & _).
  apply later_month; [congruence | apply month_le_Day; lia].
Qed.

(** The weekly step with listed days. *)
Lemma weekly_step_later n (d : Z) (ds : list Z) t :
  1 <= n ->
  Forall (fun x => 0 <= x <= 6) (d :: ds) ->
  t < match List.find (fun dd => day t <? dd) (sortDays (d :: ds)) with
      | Some nextDay => set_day nextDay t
      | None => set_day (List.hd d (sortDays (d :: ds))) (addWeeks n t)
      end.
Proof.
  intros Hn Hdays.
  destruct (List.find _ _) as [nextDay |] eqn:Hfind.
  - apply List.find_some in Hfind. destruct Hfind as [_ Hgt].
    unfold set_day. rewrite addDays_shift. unfold msPerDay. lia.
  - assert (Hin : In (List.hd d (sortDays (d :: ds))) (d :: ds)).
    { destruct (sortDays (d :: ds)) as [| x l] eqn:Hs; [left; reflexivity |].
      apply (In_sortBy (fun a b => a - b)). fold (sortDays (d :: ds)).
      rewrite Hs. left. reflexivity. }
    rewrite Forall_forall in Hdays.
    pose proof (Hdays _ (proj2 (list_elem_of_In _ _) Hin)) as Hd0.
    unfold set_day, addWeeks. rewrite !addDays_shift.
    pose proof (WeekDay_range (t + n * 7 * msPerDay)). unfold day, msPerDay in *. lia.
Qed.

(** For a pattern whose fields are in range, the next occurrence is
    strictly after the current one. *)
Lemma getNextOccurrence_later p t b :
  fieldsInRange p = true -> t < getNextOccurrence t p b.
Proof.
  intros Hv. destruct (fieldsInRange_facts p Hv) as (Hint & Hweek & Hdom & Hmoy).
  unfold getNextOccurrence.
  destruct (IRecurrencePattern.type p) eqn:Hty.
  - rewrite addDays_shift. unfold msPerDay. lia.
  - destruct (IRecurrencePattern.daysOfWeek p) as [[| d ds] |] eqn:Hdays.
    + unfold addWeeks. rewrite addDays_shift. unfold msPerDay. lia.
    + apply weekly_step_later; [exact Hint | eapply Hweek; eauto].
    + unfold addWeeks. rewrite addDays_shift. unfold msPerDay. lia.
  - assert (Hplain : t < addMonths (IRecurrencePattern.interval p) t).
    { destruct (addMonths_in_later_month _ t Hint) as [T1 A1].
      apply later_month; [exact T1 | apply month_le_Day; lia]. }
    destruct (IRecurrencePattern.dayOfMonth p) as [dom |] eqn:Hd; [| exact Hplain].
    unfold truthy. destruct (Z.eqb_spec dom 0); cbn [negb]; [exact Hplain |].
    destruct (Hdom (or_introl eq_refl) dom eq_refl) as [? | Hr]; [lia |].
    apply monthly_step_later; lia.
  - apply yearly_step_later; [exact Hint | |].
    + intros m Hm. apply Hmoy; [reflexivity | exact Hm].
    + intros d Hd. apply Hdom; [right; reflexivity | exact Hd].
  - apply skipWeekend_later.
  - rewrite addDays_shift. unfold msPerDay. lia.
Qed.

End NextOccurrence.

(** *** The expansion loop *)

Module ExpansionFacts.
Import JS JSDate Moment RecurrenceUtils NextOccurrence Expansion.

Lemma iter_shift {A : Type} (f : A -> A) (n : nat) (x : A) :
  Nat.iter (S n) f x = Nat.iter n f (f x).
Proof.
  induction n as [| n IH]; [reflexivity |].
  change (f (Nat.iter (S n) f x) = f (Nat.iter n f (f x))).
  rewrite IH. reflexivity.
Qed.

Section Loop.
Variable baseEvent : ICalendarEvent.t.
Variable pattern : IRecurrencePattern.t.
Variables endDate maxOccurrences eventDuration : Z.

Local Abbreviation cursorAt := (Expansion.cursorAt pattern).
Local Abbreviation occurrencesFrom :=
  (Expansion.occurrencesFrom baseEvent pattern eventDuration).

Lemma cursorAt_succ n cur :
  cursorAt (S n) cur = cursorAt n (getNextOccurrence cur pattern None).
Proof.
  exact (iter_shift (fun c => getNextOccurrence c pattern None) n cur).
Qed.

Lemma occurrencesFrom_succ n cur count :
  occurrencesFrom (S n) cur count =
  recurringEvent baseEvent count cur eventDuration
  :: occurrencesFrom n (getNextOccurrence cur pattern None) (count + 1).
Proof.
  unfold Expansion.occurrencesFrom. cbn [seq List.map]. f_equal.
  - f_equal. lia.
  - rewrite <- seq_shift, List.map_map. apply List.map_ext. intros i.
    rewrite cursorAt_succ. f_equal. lia.
Qed.

Lemma length_occurrencesFrom n cur count :
  length (occurrencesFrom n cur count) = n.
Proof. unfold Expansion.occurrencesFrom. rewrite List.length_map. apply length_seq. Qed.

Lemma lookup_occurrencesFrom n cur count i ev :
  occurrencesFrom n cur count !! i = Some ev ->
  (i < n)%nat
  /\ ev = recurringEvent baseEvent (count + Z.of_nat i) (cursorAt i cur) eventDuration.
Proof.
  unfold Expansion.occurrencesFrom. intros Hl.
  change (List.map ?f ?l) with (f <$> l) in Hl.
  rewrite list_lookup_fmap in Hl.
  destruct (seq 0 n !! i) as [j |] eqn:Hj; [| discriminate].
  apply lookup_seq in Hj. destruct Hj as [-> Hlt].
  cbn in Hl. injection Hl as <-. split; [exact Hlt | reflexivity].
Qed.

(** With fuel for the iterations the cap still allows, the loop returns:
    it ran some [n] iterations, at most as many as the cap allowed, the
    guard held before each and fails after the last. *)
Lemma expandLoop_returns fuel : forall cur count events,
  (Z.to_nat (maxOccurrences - count) <= fuel)%nat ->
  exists n,
    expandLoop fuel baseEvent pattern endDate maxOccurrences eventDuration
      cur count events
    = Some (events ++ occurrencesFrom n cur count)
    /\ (n <= Z.to_nat (maxOccurrences - count))%nat
    /\ (forall i, (i < n)%nat ->
          loopGuard pattern endDate maxOccurrences (cursorAt i cur)
            (count + Z.of_nat i) = true)
    /\ loopGuard pattern endDate maxOccurrences (cursorAt n cur)
         (count + Z.of_nat n) = false.
Proof.
  induction fuel as [| fuel IH]; intros cur count events Hfuel; cbn [expandLoop];
    destruct (loopGuard pattern endDate maxOccurrences cur count) eqn:Hg.
  - exfalso. unfold loopGuard in Hg.
    destruct (Z.ltb_spec count maxOccurrences) as [Hlt | Hge];
      [lia | rewrite andb_false_r in Hg; discriminate].
  - exists 0%nat. rewrite app_nil_r, Z.add_0_r. cbn.
    repeat split; [lia | intros i Hi; lia | exact Hg].
  - assert (Hlt : count < maxOccurrences).
    { unfold loopGuard in Hg.
      destruct (Z.ltb_spec count maxOccurrences) as [Hlt | Hge];
        [exact Hlt | rewrite andb_false_r in Hg; discriminate]. }
    destruct (IH (getNextOccurrence cur pattern None) (count + 1)
                (events ++ [recurringEvent baseEvent count cur eventDuration])
                ltac:(lia)) as (n & Hrun & Hn & Hguards & Hstop).
    exists (S n). rewrite Hrun, occurrencesFrom_succ, <- app_assoc.
    repeat split.
    + lia.
    + intros [| i] Hi; [rewrite Z.add_0_r; exact Hg |].
      rewrite cursorAt_succ.
      replace (count + Z.of_nat (S i)) with (count + 1 + Z.of_nat i) by lia.
      apply Hguards. lia.
    + rewrite cursorAt_succ.
      replace (count + Z.of_nat (S n)) with (count + 1 + Z.of_nat n) by lia.
      exact Hstop.
  - exists 0%nat. rewrite app_nil_r, Z.add_0_r. cbn.
    repeat split; [lia | intros i Hi; lia | exact Hg].
Qed.

End Loop.

(** [generateRecurringEvents] with enough fuel. *)
Lemma generateRecurringEvents_returns fuel baseEvent pattern startDate endDate
    maxOccurrences :
  (Z.to_nat maxOccurrences <= fuel)%nat ->
  let eventDuration := ICalendarEvent.end_ baseEvent - ICalendarEvent.start baseEvent in
  let first := initialDate baseEvent pattern startDate in
  exists n,
    generateRecurringEvents fuel baseEvent pattern startDate endDate maxOccurrences
    = Some (occurrencesFrom baseEvent pattern eventDuration n first 0)
    /\ (n <= Z.to_nat maxOccurrences)%nat
    /\ (forall i, (i < n)%nat ->
          loopGuard pattern endDate maxOccurrences (cursorAt pattern i first)
            (Z.of_nat i) = true)
    /\ loopGuard pattern endDate maxOccurrences (cursorAt pattern n first)
         (Z.of_nat n) = false.
Proof.
  intros Hfuel eventDuration first. unfold generateRecurringEvents.
  destruct (expandLoop_returns baseEvent pattern endDate maxOccurrences eventDuration
              fuel first 0 [] ltac:(rewrite Z.sub_0_r; exact Hfuel))
    as (n & Hrun & Hn & Hguards & Hstop).
  rewrite Z.sub_0_r in Hn. exists n. repeat split; auto.
Qed.

End ExpansionFacts.

Section ExpansionClaims.
Import JS JSDate Moment RecurrenceUtils NextOccurrence Expansion ExpansionFacts.

(** C10.  Given fuel for as many iterations as the cap allows, the
    expansion loop returns, with at most [maxOccurrences] occurrences (none
    for a cap that is not positive): whatever the pattern, also one without
    end date and occurrence count or with interval zero. *)
Theorem C10_expansion_terminates_within_cap
    (fuel : nat) (baseEvent : ICalendarEvent.t) (pattern : IRecurrencePattern.t)
    (startDate endDate maxOccurrences : Z) :
  (Z.to_nat maxOccurrences <= fuel)%nat ->
  exists events,
    generateRecurringEvents fuel baseEvent pattern startDate endDate maxOccurrences
    = Some events
    /\ Z.of_nat (length events) <= Z.max 0 maxOccurrences.
Proof.
  intros Hfuel.
  destruct (generateRecurringEvents_returns fuel baseEvent pattern startDate endDate
              maxOccurrences Hfuel) as (n & Hrun & Hn & _).
  eexists. split; [exact Hrun |].
  rewrite length_occurrencesFrom. lia.
Qed.


(** Instance of C10: a daily pattern with interval zero and no end, capped
    at three occurrences. *)
Lemma C10_expansion_terminates_within_cap_witness :
  exists events,
    generateRecurringEvents 3 (Samples.event "evt" "Stand-up" 36000000)
      Samples.dailyEveryZeroDays 0 (10 * msPerDay) 3 = Some events
    /\ Z.of_nat (length events) <= Z.max 0 3.
Proof.
  apply (C10_expansion_terminates_within_cap 3 (Samples.event "evt" "Stand-up" 36000000)
           Samples.dailyEveryZeroDays 0 (10 * msPerDay) 3).
  apply Nat.leb_le. vm_compute. reflexivity.
Defined.

Lemma cursorAt_ge pattern first i :
  fieldsInRange pattern = true -> first <= cursorAt pattern i first.
Proof.
  intros Hv. induction i as [| i IH]; [cbn; lia |].
  change (cursorAt pattern (S i) first)
    with (getNextOccurrence (cursorAt pattern i first) pattern None).
  pose proof (getNextOccurrence_later pattern (cursorAt pattern i first) None Hv). lia.
Qed.

Lemma initialDate_ge baseEvent pattern startDate :
  fieldsInRange pattern = true -> startDate <= initialDate baseEvent pattern startDate.
Proof.
  intros Hv. unfold initialDate, isBefore.
  destruct (Z.ltb_spec (ICalendarEvent.start baseEvent) startDate); [| lia].
  pose proof (getNextOccurrence_later pattern startDate
                (Some (ICalendarEvent.start baseEvent)) Hv). lia.
Qed.

Lemma loopGuard_before pattern endDate maxOccurrences cur count :
  loopGuard pattern endDate maxOccurrences cur count = true -> cur < endDate.
Proof.
  unfold loopGuard, isBefore. intros Hg.
  destruct (Z.ltb_spec cur endDate); [assumption | discriminate].
Qed.

(** C3, as amended.  For a pattern whose fields are in range (interval at
    least one, days of the week in 0..6, day of the month in 1..31, month
    of the year in 1..12; every pattern [validateRecurrencePattern] accepts
    is), every occurrence returned by the expansion starts inside the
    window: at or after [startDate] and strictly before [endDate]. *)
Theorem C3_window_containment
    (fuel : nat) (baseEvent : ICalendarEvent.t) (pattern : IRecurrencePattern.t)
    (startDate endDate maxOccurrences : Z) :
  fieldsInRange pattern = true ->
  (Z.to_nat maxOccurrences <= fuel)%nat ->
  exists events,
    generateRecurringEvents fuel baseEvent pattern startDate endDate maxOccurrences
    = Some events
    /\ Forall (fun ev => startDate <= ICalendarEvent.start ev < endDate) events.
Proof.
  intros Hv Hfuel.
  destruct (generateRecurringEvents_returns fuel baseEvent pattern startDate endDate
              maxOccurrences Hfuel) as (n & Hrun & _ & Hguards & _).
  eexists. split; [exact Hrun |].
  apply Forall_lookup. intros i ev Hev.
  apply lookup_occurrencesFrom in Hev. destruct Hev as [Hi ->].
  cbn [recurringEvent ICalendarEvent.start]. split.
  - pose proof (initialDate_ge baseEvent pattern startDate Hv).
    pose proof (cursorAt_ge pattern (initialDate baseEvent pattern startDate) i Hv).
    lia.
  - eapply loopGuard_before. apply Hguards. exact Hi.
Qed.

(** Instance of C3: a base event on 31 January 2023, 10:00, repeated on the
    31st of every month, expanded over March to June 2023. *)
Lemma C3_window_containment_witness :
  exists events,
    generateRecurringEvents 100 (Samples.event "evt" "Report" (UTC 2023 0 31 36000000))
      Samples.monthlyOn31 (UTC 2023 2 1 0) (UTC 2023 6 1 0) 100 = Some events
    /\ Forall (fun ev => UTC 2023 2 1 0 <= ICalendarEvent.start ev < UTC 2023 6 1 0)
         events.
Proof.
  apply (C3_window_containment 100
           (Samples.event "evt" "Report" (UTC 2023 0 31 36000000))
           Samples.monthlyOn31 (UTC 2023 2 1 0) (UTC 2023 6 1 0) 100).
  - vm_compute. reflexivity.
  - apply Nat.leb_le. vm_compute. reflexivity.
Defined.

(** The claim C3 as stated, for every pattern, fails for an interval of
    zero (which [parseSharePointRecurrence] passes on when the rule says
    [weekFrequency="0"]).  Weekly on Mondays with interval 0, base event on
    Monday 1 January 2024, window from Wednesday 3 January: the cursor is
    put on the window's start and stepped once, which with no weeks to add
    moves it back to Monday 1 January, before the window; two occurrences
    (the cap) are returned there. *)
Lemma C3_counterexample_zero_interval :
  exists ev1 ev2,
    generateRecurringEvents 100 (Samples.event "evt" "Sync" (UTC 2024 0 1 36000000))
      (Samples.pattern weekly 0 (Some [1]) None)
      (UTC 2024 0 3 0) (UTC 2024 0 31 0) 2 = Some [ev1; ev2]
    /\ ICalendarEvent.start ev1 = UTC 2024 0 1 0
    /\ ICalendarEvent.start ev1 < UTC 2024 0 3 0
    /\ ~ Forall (fun ev => UTC 2024 0 3 0 <= ICalendarEvent.start ev < UTC 2024 0 31 0)
          [ev1; ev2].
Proof.
  eexists. eexists. split; [vm_compute; reflexivity |].
  split; [vm_compute; reflexivity |]. split; [vm_compute; reflexivity |].
  intros Hall. apply Forall_cons in Hall. destruct Hall as [[Hge _] _].
  vm_compute in Hge. apply Hge. reflexivity.
Qed.

(** C5, as amended.  The [n]-th occurrence returned by the expansion has
    the base event's id suffixed with [_recur_n], ends its start plus the
    base event's duration later, and has every other field of the base
    event unchanged: its [masterSeriesId] is the base event's own
    [masterSeriesId], not a reference to the base event. *)
Theorem C5_occurrence_fields
    (fuel : nat) (baseEvent : ICalendarEvent.t) (pattern : IRecurrencePattern.t)
    (startDate endDate maxOccurrences : Z) :
  (Z.to_nat maxOccurrences <= fuel)%nat ->
  exists events,
    generateRecurringEvents fuel baseEvent pattern startDate endDate maxOccurrences
    = Some events
    /\ forall (n : nat) (ev : ICalendarEvent.t),
         events !! n = Some ev ->
         ICalendarEvent.id ev
         = ICalendarEvent.id baseEvent +:+ "_recur_" +:+ numberToString (Z.of_nat n)
         /\ ICalendarEvent.end_ ev
            = ICalendarEvent.start ev
              + (ICalendarEvent.end_ baseEvent - ICalendarEvent.start baseEvent)
         /\ copiesBaseFields baseEvent ev.
Proof.
  intros Hfuel.
  destruct (generateRecurringEvents_returns fuel baseEvent pattern startDate endDate
              maxOccurrences Hfuel) as (n & Hrun & _).
  eexists. split; [exact Hrun |].
  intros i ev Hev. apply lookup_occurrencesFrom in Hev. destruct Hev as [_ ->].
  cbn. unfold copiesBaseFields. cbn. repeat split; reflexivity.
Qed.

(** Instance of C5: a daily event expanded over three days. *)
Lemma C5_occurrence_fields_witness :
  exists events,
    generateRecurringEvents 10 (Samples.event "evt" "Stand-up" 36000000)
      Samples.dailyEveryDay 0 (3 * msPerDay) 10 = Some events
    /\ forall (n : nat) (ev : ICalendarEvent.t),
         events !! n = Some ev ->
         ICalendarEvent.id ev = "evt" +:+ "_recur_" +:+ numberToString (Z.of_nat n)
         /\ ICalendarEvent.end_ ev = ICalendarEvent.start ev + (36000000 + 3600000 - 36000000)
         /\ copiesBaseFields (Samples.event "evt" "Stand-up" 36000000) ev.
Proof.
  apply (C5_occurrence_fields 10 (Samples.event "evt" "Stand-up" 36000000)
           Samples.dailyEveryDay 0 (3 * msPerDay) 10).
  apply Nat.leb_le. vm_compute. reflexivity.
Defined.

(** The claim C5 as stated fails: the occurrences of a base event that has
    no [masterSeriesId] have none either, so they carry no reference to
    the base event (whose id is ["evt"]). *)
Lemma C5_counterexample_no_back_reference :
  exists ev,
    generateRecurringEvents 10 (Samples.event "evt" "Stand-up" 36000000)
      Samples.dailyEveryDay 0 msPerDay 10 = Some [ev]
    /\ ICalendarEvent.masterSeriesId ev = None
    /\ ICalendarEvent.masterSeriesId ev
       <> Some (ICalendarEvent.id (Samples.event "evt" "Stand-up" 36000000)).
Proof.
  eexists. split; [vm_compute; reflexivity |]. split; [reflexivity | discriminate].
Qed.


Lemma lookup_occurrencesFrom_lt baseEvent pattern eventDuration n cur count i :
  (i < n)%nat ->
  Expansion.occurrencesFrom baseEvent pattern eventDuration n cur count !! i
  = Some (recurringEvent baseEvent (count + Z.of_nat i)
            (cursorAt pattern i cur) eventDuration).
Proof.
  intros Hi. unfold Expansion.occurrencesFrom.
  change (List.map ?f ?l) with (f <$> l).
  rewrite list_lookup_fmap, (lookup_seq_lt 0 n i Hi). reflexivity.
Qed.

(** The number of iterations is fixed by where the guard first fails. *)
Lemma iterations_determined pattern endDate maxOccurrences first (n k : nat) :
  (forall i, (i < n)%nat ->
     loopGuard pattern endDate maxOccurrences (cursorAt pattern i first) (Z.of_nat i)
     = true) ->
  loopGuard pattern endDate maxOccurrences (cursorAt pattern n first) (Z.of_nat n)
  = false ->
  (forall i, (i < k)%nat ->
     loopGuard pattern endDate maxOccurrences (cursorAt pattern i first) (Z.of_nat i)
     = true) ->
  (k <= n)%nat.
Proof.
  intros Hguards Hstop Hk.
  destruct (Nat.le_gt_cases k n) as [Hle | Hgt]; [exact Hle |].
  rewrite (Hk n Hgt) in Hstop. discriminate.
Qed.

Lemma loopGuard_unbounded pattern endDate maxOccurrences cur count :
  IRecurrencePattern.endDate pattern = None ->
  IRecurrencePattern.occurrences pattern = None ->
  loopGuard pattern endDate maxOccurrences cur count
  = (cur <? endDate) && (count <? maxOccurrences).
Proof.
  intros He Ho. unfold loopGuard, isBefore. rewrite He, Ho. cbn.
  rewrite !andb_true_r. reflexivity.
Qed.

(** **** Monthly on the 31st, from 31 January *)

Import JSDateFacts Months MonthsFacts MomentMonths.

Lemma isLeapYear_DaysInYear Y : DaysInYear Y = if isLeapYear Y then 366 else 365.
Proof.
  unfold DaysInYear, isLeapYear.
  destruct (Z.eqb_spec (Y mod 4) 0), (Z.eqb_spec (Y mod 100) 0),
    (Z.eqb_spec (Y mod 400) 0); cbn; try reflexivity;
    exfalso; Z.div_mod_to_equations; lia.
Qed.

Lemma daysInMonth_february Y : daysInMonth Y 1 = if isLeapYear Y then 29 else 28.
Proof.
  unfold daysInMonth. change (1 mod 12) with 1. change ((1 - 1) / 12) with 0.
  rewrite Z.add_0_r. reflexivity.
Qed.

Lemma month_lengths Y :
  monthStart (12 * Y + 1) - monthStart (12 * Y) = 31
  /\ monthStart (12 * Y + 2) - monthStart (12 * Y + 1)
     = (if isLeapYear Y then 29 else 28)
  /\ monthStart (12 * Y + 3) - monthStart (12 * Y + 2) = 31.
Proof.
  pose proof (monthStart_succ_split Y 0 ltac:(lia)) as H0.
  pose proof (monthStart_succ_split Y 1 ltac:(lia)) as H1.
  pose proof (monthStart_succ_split Y 2 ltac:(lia)) as H2.
  rewrite isLeapYear_DaysInYear in H0, H1, H2.
  replace (12 * Y + 0 + 1) with (12 * Y + 1) in H0 by lia.
  replace (12 * Y + 0) with (12 * Y) in H0 by lia.
  replace (12 * Y + 1 + 1) with (12 * Y + 2) in H1 by lia.
  replace (12 * Y + 2 + 1) with (12 * Y + 3) in H2 by lia.
  destruct (isLeapYear Y); eval_monthOffset; lia.
Qed.

(** The calendar fields of a moment whose day is given by month and date. *)
Lemma fields_of_moment t Y m d :
  Day t = monthStart (12 * Y + m) + d - 1 ->
  0 <= m < 12 ->
  1 <= d <= monthStart (12 * Y + m + 1) - monthStart (12 * Y + m) ->
  year t = Y /\ month t = m /\ date t = d /\ absMonthOf t = 12 * Y + m.
Proof.
  intros Ht Hm Hd.
  destruct (fields_of_monthStart Y m d Hm Hd) as (Hy & Hmo & Hda).
  unfold year, month, date, absMonthOf, YearFromTime, MonthFromTime, DateFromTime,
    absMonth.
  rewrite Ht, Hy, Hmo, Hda. repeat split; reflexivity.
Qed.

Lemma Day_UTC Y m d tod :
  0 <= tod < msPerDay ->
  Day (UTC Y m d tod) = monthStart (12 * Y + m) + d - 1
  /\ TimeWithinDay (UTC Y m d tod) = tod.
Proof.
  intros Htod. unfold UTC.
  rewrite Day_MakeDate, TimeWithinDay_MakeDate by exact Htod.
  split; [apply MakeDay_monthStart | reflexivity].
Qed.

(** From 31 January, the step of the monthly pattern on day 31 lands on the
    day before 1 March. *)
Lemma next_from_january_31 Y tod b :
  0 <= tod < msPerDay ->
  getNextOccurrence (UTC Y 0 31 tod) Samples.monthlyOn31 b = UTC Y 2 0 tod.
Proof.
  intros Htod.
  destruct (month_lengths Y) as (Jan & Feb & Mar).
  destruct (Day_UTC Y 0 31 tod Htod) as [D0 T0].
  destruct (fields_of_moment (UTC Y 0 31 tod) Y 0 31) as (Y0 & M0 & Da0 & _);
    [exact D0 | lia
     | replace (12 * Y + 0 + 1) with (12 * Y + 1) by lia;
       replace (12 * Y + 0) with (12 * Y) by lia; lia |].
  set (feb := if isLeapYear Y then 29 else 28) in *.
  assert (Hfeb : feb = 28 \/ feb = 29) by (subst feb; destruct (isLeapYear Y); auto).
  (* one month later: the last day of February *)
  set (r := addMonths 1 (UTC Y 0 31 tod)).
  assert (Dr : Day r = monthStart (12 * Y + 1) + feb - 1
               /\ TimeWithinDay r = tod).
  { subst r. split; [| rewrite time_addMonths; exact T0].
    unfold addMonths. change (1 =? 0) with false. cbv iota.
    unfold setMonth. rewrite Day_JSsetMonth, Y0, M0, Da0, daysInMonth_february.
    fold feb. replace (Z.min 31 feb) with feb by lia. reflexivity. }
  destruct Dr as [Dr Tr].
  destruct (fields_of_moment r Y 1 feb Dr ltac:(lia)) as (_ & _ & _ & Ar);
    [replace (12 * Y + 1 + 1) with (12 * Y + 2) by lia; lia |].
  (* the 31st of that month is in March *)
  set (next1 := set_date 31 r).
  assert (D1 : Day next1 = monthStart (12 * Y + 2) + (31 - feb) - 1
               /\ TimeWithinDay next1 = tod).
  { subst next1. unfold set_date. rewrite time_setDate, Day_setDate, Ar.
    split; [lia | exact Tr]. }
  destruct D1 as [D1 T1].
  destruct (fields_of_moment next1 Y 2 (31 - feb) D1 ltac:(lia)) as (_ & _ & Da1 & A1);
    [replace (12 * Y + 2 + 1) with (12 * Y + 3) by lia; lia |].
  (* so the date is not 31 and the step falls back to day 0 of March *)
  unfold getNextOccurrence.
  cbn [Samples.monthlyOn31 Samples.pattern IRecurrencePattern.type
       IRecurrencePattern.dayOfMonth IRecurrencePattern.interval].
  change (truthy (Some 31)) with true. cbv iota.
  fold r. fold next1. rewrite Da1.
  destruct (Z.eqb_spec (31 - feb) 31) as [Heq | _]; [lia |]. cbn [negb].
  destruct (Day_UTC Y 2 0 tod Htod) as [Dt Tt].
  apply same_time_eq.
  - unfold set_date. rewrite time_setDate. congruence.
  - unfold set_date. rewrite Day_setDate, A1, Dt. reflexivity.
Qed.

Lemma fields_of_last_of_february Y tod :
  0 <= tod < msPerDay ->
  year (UTC Y 2 0 tod) = Y
  /\ month (UTC Y 2 0 tod) = 1
  /\ date (UTC Y 2 0 tod) = (if isLeapYear Y then 29 else 28).
Proof.
  intros Htod.
  destruct (month_lengths Y) as (Jan & Feb & Mar).
  destruct (Day_UTC Y 2 0 tod Htod) as [Dt _].
  destruct (fields_of_moment (UTC Y 2 0 tod) Y 1 (if isLeapYear Y then 29 else 28))
    as (Hy & Hm & Hd & _).
  - rewrite Dt. lia.
  - lia.
  - replace (12 * Y + 1 + 1) with (12 * Y + 2) by lia.
    destruct (isLeapYear Y); lia.
  - auto.
Qed.

(** For the pattern [{monthly, interval 1, dayOfMonth 31}] and a base event
    on 31 January of a year [Y] (at any time of day), a window that starts
    no later than the base event and ends after the last day of February at
    that time of day, and a cap of at least two: the second occurrence
    returned is on the last day of February of [Y]: the 28th, or the 29th
    in a leap year, the day before 1 March. *)
Theorem january_31_monthly_clamps_to_february
    (fuel : nat) (baseEvent : ICalendarEvent.t) (Y tod : Z)
    (startDate endDate maxOccurrences : Z) :
  0 <= tod < msPerDay ->
  ICalendarEvent.start baseEvent = UTC Y 0 31 tod ->
  startDate <= ICalendarEvent.start baseEvent ->
  UTC Y 2 0 tod < endDate ->
  2 <= maxOccurrences ->
  (Z.to_nat maxOccurrences <= fuel)%nat ->
  exists events ev,
    generateRecurringEvents fuel baseEvent Samples.monthlyOn31 startDate endDate
      maxOccurrences = Some events
    /\ events !! 1%nat = Some ev
    /\ ICalendarEvent.start ev = UTC Y 2 0 tod
    /\ year (ICalendarEvent.start ev) = Y
    /\ month (ICalendarEvent.start ev) = 1
    /\ date (ICalendarEvent.start ev) = (if isLeapYear Y then 29 else 28).
Proof.
  intros Htod Hbase Hstart Hend Hcap Hfuel.
  destruct (generateRecurringEvents_returns fuel baseEvent Samples.monthlyOn31
              startDate endDate maxOccurrences Hfuel)
    as (n & Hrun & _ & Hguards & Hstop).
  cbv zeta in Hrun, Hguards, Hstop.
  assert (Hfirst : initialDate baseEvent Samples.monthlyOn31 startDate = UTC Y 0 31 tod).
  { unfold initialDate, isBefore.
    destruct (Z.ltb_spec (ICalendarEvent.start baseEvent) startDate); [lia | exact Hbase]. }
  rewrite Hfirst in Hrun, Hguards, Hstop.
  assert (C1 : cursorAt Samples.monthlyOn31 1 (UTC Y 0 31 tod) = UTC Y 2 0 tod)
    by (apply (next_from_january_31 Y tod None Htod)).
  assert (Hjan : UTC Y 0 31 tod < UTC Y 2 0 tod).
  { destruct (Day_UTC Y 0 31 tod Htod) as [D0 T0].
    destruct (Day_UTC Y 2 0 tod Htod) as [D2 T2].
    destruct (month_lengths Y) as (Jan & Feb & Mar).
    apply same_time_lt; [congruence |]. rewrite D0, D2.
    replace (12 * Y + 0) with (12 * Y) by lia.
    destruct (isLeapYear Y); lia. }
  assert (Hn : (2 <= n)%nat).
  { apply (iterations_determined Samples.monthlyOn31 endDate maxOccurrences
             (UTC Y 0 31 tod) n 2 Hguards Hstop).
    intros i Hi. rewrite loopGuard_unbounded by reflexivity.
    assert (Hi2 : (i = 0 \/ i = 1)%nat) by lia.
    apply andb_true_iff.
    destruct Hi2 as [-> | ->]; [change (cursorAt Samples.monthlyOn31 0 (UTC Y 0 31 tod))
                                  with (UTC Y 0 31 tod) | rewrite C1];
      split; apply Z.ltb_lt; lia. }
  eexists. eexists. split; [exact Hrun |].
  split; [apply lookup_occurrencesFrom_lt; lia |].
  cbn [recurringEvent ICalendarEvent.start]. rewrite C1.
  split; [reflexivity | apply fields_of_last_of_february; exact Htod].
Qed.

(** An instance: 31 January 2024 (a leap year), 10:00, expanded over
    January to April. *)
Lemma january_31_monthly_clamps_to_february_witness :
  exists events ev,
    generateRecurringEvents 100
      (Samples.event "evt" "Report" (UTC 2024 0 31 36000000)) Samples.monthlyOn31
      (UTC 2024 0 1 0) (UTC 2024 4 1 0) 100 = Some events
    /\ events !! 1%nat = Some ev
    /\ ICalendarEvent.start ev = UTC 2024 2 0 36000000
    /\ year (ICalendarEvent.start ev) = 2024
    /\ month (ICalendarEvent.start ev) = 1
    /\ date (ICalendarEvent.start ev) = (if isLeapYear 2024 then 29 else 28).
Proof.
  apply (january_31_monthly_clamps_to_february 100
           (Samples.event "evt" "Report" (UTC 2024 0 31 36000000)) 2024 36000000
           (UTC 2024 0 1 0) (UTC 2024 4 1 0) 100).
  - unfold msPerDay. lia.
  - reflexivity.
  - vm_compute. discriminate.
  - vm_compute. reflexivity.
  - lia.
  - apply Nat.leb_le. vm_compute. reflexivity.
Defined.

(** C4.  The base event is on 31 January 2023, 10:00, the pattern is
    [{monthly, interval 1, dayOfMonth 31}] and the window runs from
    1 February to 1 March 2023.  The last day of February at 10:00 lies in
    that window, and it is the second occurrence when the window starts on
    1 January; yet from 1 February the expansion returns no occurrence:
    the cursor is restarted at the start of the window and stepped once,
    to 31 March, without regard to the base event. *)
Theorem C4_window_from_february_misses_the_february_occurrence :
  let baseEvent := Samples.event "evt" "Report" (UTC 2023 0 31 36000000) in
  generateRecurringEvents 100 baseEvent Samples.monthlyOn31
    (UTC 2023 1 1 0) (UTC 2023 2 1 0) 100 = Some []
  /\ initialDate baseEvent Samples.monthlyOn31 (UTC 2023 1 1 0) = UTC 2023 2 31 0
  /\ UTC 2023 1 1 0 <= UTC 2023 1 28 36000000 < UTC 2023 2 1 0
  /\ option_map (List.map ICalendarEvent.start)
       (generateRecurringEvents 100 baseEvent Samples.monthlyOn31
          (UTC 2023 0 1 0) (UTC 2023 2 1 0) 100)
     = Some [UTC 2023 0 31 36000000; UTC 2023 1 28 36000000].
Proof.
  cbv zeta. split; [vm_compute; reflexivity |]. split; [vm_compute; reflexivity |].
  split; [vm_compute; split; [discriminate | reflexivity] | vm_compute; reflexivity].
Qed.

End ExpansionClaims.

(** *** The aggregator *)

Section Aggregator.
Import JS CalendarService Aggregation.
Variable ext : Collaborators.

Local Abbreviation outcomeOf := (Aggregation.outcomeOf ext).
Local Abbreviation throws := (Aggregation.throws ext).
Local Abbreviation contribution := (Aggregation.contribution ext).

(** A [get] may evict the entry it finds expired; what later look-ups at
    the same instant see is unchanged. *)
Lemma seenAt_after_get now k k' (c : CacheService.t (list ICalendarEvent.t)) :
  seenAt now (snd (CacheService.get now k c)) k' = seenAt now c k'.
Proof.
  unfold seenAt, CacheService.get.
  destruct (CacheService.cache c !! k) as [item |] eqn:Hk; [| reflexivity].
  destruct (CacheService.expiry item <? now) eqn:Hexp; [| reflexivity].
  cbn [snd CacheService.cache].
  destruct (decide (k' = k)) as [-> | Hne].
  - rewrite lookup_delete_eq, Hk, Hexp. reflexivity.
  - rewrite lookup_delete_ne by congruence.
    destruct (CacheService.cache c !! k') as [item' |]; [| reflexivity].
    destruct (CacheService.expiry item' <? now); reflexivity.
Qed.

Lemma begin_started now source cap (c c0 : CacheService.t (list ICalendarEvent.t)) :
  (forall k, seenAt now c k = seenAt now c0 k) ->
  fst (beginGetEventsFromSource ext now source cap c)
  = fst (beginGetEventsFromSource ext now source cap c0)
  /\ (forall k, seenAt now (snd (beginGetEventsFromSource ext now source cap c)) k
               = seenAt now c0 k).
Proof.
  intros Hseen. unfold beginGetEventsFromSource.
  destruct (negb _); [split; [reflexivity | exact Hseen] |].
  unfold CacheService.getCachedEvents.
  pose proof (Hseen (CacheService.generateKey AppConstants.CACHE_EVENTS_KEY
                       (ICalendarSource.id source))) as Hk.
  unfold seenAt in Hk.
  assert (Hafter : forall k,
            seenAt now (snd (CacheService.get now
                               (CacheService.generateKey AppConstants.CACHE_EVENTS_KEY
                                  (ICalendarSource.id source)) c)) k
            = seenAt now c0 k)
    by (intros k; rewrite seenAt_after_get; apply Hseen).
  destruct (CacheService.get now _ c) as [cached c1].
  destruct (CacheService.get now _ c0) as [cached0 c01].
  cbn [fst snd] in *. subst cached0.
  destruct cached as [cached |]; [| split; [reflexivity | exact Hafter]].
  destruct (Z.of_nat (length cached) <=? cap); split;
    try reflexivity; exact Hafter.
Qed.

(** The synchronous stretches of the fan-out all see the cache as it was
    when the fan-out began. *)
Lemma beginAll_tasks now cap sources : forall c c0,
  (forall k, seenAt now c k = seenAt now c0 k) ->
  fst (beginAll ext now sources cap c)
  = List.map (fun source =>
                (source, fst (beginGetEventsFromSource ext now source cap c0)))
      sources.
Proof.
  induction sources as [| source rest IH]; intros c c0 Hseen; [reflexivity |].
  cbn [beginAll List.map].
  destruct (begin_started now source cap c c0 Hseen) as [Hst Hafter].
  destruct (beginGetEventsFromSource ext now source cap c) as [st c1].
  cbn [fst snd] in Hst, Hafter.
  specialize (IH c1 c0 Hafter).
  destruct (beginAll ext now rest cap c1) as [sts c2].
  cbn [fst] in *. rewrite Hst, IH. reflexivity.
Qed.

Lemma settleOne_outcome now later cap c0 source c :
  fst (settleOne ext later cap
         (source, fst (beginGetEventsFromSource ext now source cap c0)) c)
  = Ok (contribution now later cap c0 source).
Proof.
  unfold settleOne, Aggregation.contribution, Aggregation.outcomeOf, getEventsFromSource. cbn [fst snd].
  destruct (beginGetEventsFromSource ext now source cap c0) as [[outcome |] c1];
    cbn [fst snd].
  - destruct outcome; reflexivity.
  - unfold finishGetEventsFromSource.
    destruct (fetchFromBackend ext source cap); reflexivity.
Qed.

Lemma settleAll_outcomes now later cap c0 sources : forall c,
  fst (settleAll ext later cap
         (List.map (fun source =>
                      (source, fst (beginGetEventsFromSource ext now source cap c0)))
            sources) c)
  = List.map (fun source => Ok (contribution now later cap c0 source)) sources.
Proof.
  induction sources as [| source rest IH]; intros c; [reflexivity |].
  cbn [List.map settleAll].
  pose proof (settleOne_outcome now later cap c0 source c) as Hone.
  destruct (settleOne ext later cap _ c) as [r c1]. cbn [fst] in Hone.
  specialize (IH c1).
  destruct (settleAll ext later cap _ c1) as [rs c2]. cbn [fst] in *.
  rewrite Hone, IH. reflexivity.
Qed.

Lemma promiseAll_Ok {A B : Type} (f : B -> A) (l : list B) :
  promiseAll (List.map (fun x => Ok (f x)) l) = Ok (List.map f l).
Proof.
  induction l as [| x l IH]; [reflexivity |].
  cbn [List.map promiseAll]. rewrite IH. reflexivity.
Qed.

(** A source that throws adds nothing to the merged list. *)
Lemma concat_contributions now later cap c0 sources :
  List.concat (List.map (contribution now later cap c0) sources)
  = List.concat
      (List.map (contribution now later cap c0)
         (List.filter (fun source => negb (throws now later cap c0 source)) sources)).
Proof.
  induction sources as [| source rest IH]; [reflexivity |].
  cbn [List.map List.concat List.filter]. unfold Aggregation.throws at 1, Aggregation.contribution at 1.
  destruct (outcomeOf now later cap c0 source) eqn:Hout; cbn [negb].
  - cbn [List.map List.concat]. unfold Aggregation.contribution at 2. rewrite Hout, IH. reflexivity.
  - cbn [app]. exact IH.
Qed.

Lemma filter_negb_all {A : Type} (f : A -> bool) (l : list A) :
  Forall (fun x => f x = true) l -> List.filter (fun x => negb (f x)) l = [].
Proof.
  induction 1 as [| x l Hx _ IH]; [reflexivity |].
  cbn [List.filter]. rewrite Hx. exact IH.
Qed.

(** The result of the fan-out. *)
Lemma getEventsFromSources_fan_out now later sources maxEvents c :
  (forall cached,
      fst (CacheService.getCachedAggregatedEvents now
             (List.map ICalendarSource.id sources) c) = Some cached ->
      maxEvents < Z.of_nat (length cached)) ->
  fst (getEventsFromSources ext now later sources maxEvents c)
  = Ok (slice0 maxEvents
          (sortBy startCompare
             (List.concat
                (List.map
                   (contribution now later
                      (ceilDiv maxEvents (Z.of_nat (length sources)))
                      (snd (CacheService.getCachedAggregatedEvents now
                              (List.map ICalendarSource.id sources) c)))
                   sources)))).
Proof.
  intros Hmiss. unfold getEventsFromSources.
  destruct (CacheService.getCachedAggregatedEvents now _ c) as [cached c0] eqn:Hget.
  cbn [fst snd] in *.
  set (cap := ceilDiv maxEvents (Z.of_nat (length sources))).
  pose proof (beginAll_tasks now cap sources c0 c0 (fun k => eq_refl)) as Htasks.
  destruct (beginAll ext now sources cap c0) as [tasks c1]. cbn [fst] in Htasks.
  subst tasks.
  pose proof (settleAll_outcomes now later cap c0 sources c1) as Hsettled.
  destruct (settleAll ext later cap _ c1) as [promises c2]. cbn [fst] in Hsettled.
  subst promises. rewrite promiseAll_Ok.
  destruct cached as [cached |]; [| reflexivity].
  specialize (Hmiss cached eq_refl).
  destruct (Z.leb_spec (Z.of_nat (length cached)) maxEvents); [lia | reflexivity].
Qed.

Lemma getEventsFromSources_never_throws now later sources maxEvents c :
  exists events, fst (getEventsFromSources ext now later sources maxEvents c) = Ok events.
Proof.
  unfold getEventsFromSources.
  destruct (CacheService.getCachedAggregatedEvents now _ c) as [cached c0].
  set (cap := ceilDiv maxEvents (Z.of_nat (length sources))).
  pose proof (beginAll_tasks now cap sources c0 c0 (fun k => eq_refl)) as Htasks.
  destruct (beginAll ext now sources cap c0) as [tasks c1]. cbn [fst] in Htasks.
  subst tasks.
  pose proof (settleAll_outcomes now later cap c0 sources c1) as Hsettled.
  destruct (settleAll ext later cap _ c1) as [promises c2]. cbn [fst] in Hsettled.
  subst promises. rewrite promiseAll_Ok.
  destruct cached as [cached |]; [| eexists; reflexivity].
  destruct (Z.of_nat (length cached) <=? maxEvents); eexists; reflexivity.
Qed.

(** C2.  [getEventsFromSources] never throws.  When it fans out (the
    cache holds no usable aggregate for these sources), a source whose
    per-source call throws contributes nothing: the result is the merge
    (concatenation in source order, stable sort by start, cut to
    [maxEvents]) of what the sources that do not throw return, each asked
    for [ceil(maxEvents / sources.length)] events; when every source
    throws, the result is the empty list. *)
Theorem C2_partial_failure_tolerance
    (now later : Z) (sources : list ICalendarSource.t) (maxEvents : Z)
    (c : CacheService.t (list ICalendarEvent.t)) :
  (exists events,
      fst (getEventsFromSources ext now later sources maxEvents c) = Ok events)
  /\ ((forall cached,
          fst (CacheService.getCachedAggregatedEvents now
                 (List.map ICalendarSource.id sources) c) = Some cached ->
          maxEvents < Z.of_nat (length cached)) ->
      let cap := ceilDiv maxEvents (Z.of_nat (length sources)) in
      let c0 := snd (CacheService.getCachedAggregatedEvents now
                       (List.map ICalendarSource.id sources) c) in
      fst (getEventsFromSources ext now later sources maxEvents c)
      = Ok (slice0 maxEvents
              (sortBy startCompare
                 (List.concat
                    (List.map (contribution now later cap c0)
                       (List.filter (fun source => negb (throws now later cap c0 source))
                          sources)))))
      /\ (Forall (fun source => throws now later cap c0 source = true) sources ->
          fst (getEventsFromSources ext now later sources maxEvents c) = Ok [])).
Proof.
  split; [apply getEventsFromSources_never_throws |].
  intros Hmiss cap c0.
  pose proof (getEventsFromSources_fan_out now later sources maxEvents c Hmiss) as Hfan.
  fold cap c0 in Hfan. rewrite concat_contributions in Hfan.
  split; [exact Hfan |].
  intros Hall. rewrite Hfan.
  replace (List.filter (fun source => negb (throws now later cap c0 source)) sources)
    with (@nil ICalendarSource.t).
  - cbn [List.map List.concat sortBy]. unfold slice0.
    destruct (maxEvents <? 0); rewrite firstn_nil; reflexivity.
  - symmetry. apply filter_negb_all. exact Hall.
Qed.

End Aggregator.

Section AggregatorExamples.
Import JS CalendarService Aggregation.

(** Instance of C2: three sources of which the second (the Exchange
    mailbox, whose backend is unreachable) throws; the call returns the
    events of the other two, merged by start time. *)
Lemma C2_partial_failure_tolerance_witness :
  fst (getEventsFromSources (Samples.backend Samples.eventsBySource []) 0 0
         [Samples.teamCalendar; Samples.mailboxCalendar; Samples.hrCalendar] 1000
         CacheService.create)
  = Ok [enhanceEvent (Samples.backend Samples.eventsBySource []) Samples.hrCalendar
          (Samples.event "2" "Review" 1000);
        enhanceEvent (Samples.backend Samples.eventsBySource []) Samples.teamCalendar
          (Samples.event "1" "Sync" 2000)]
  /\ throws (Samples.backend Samples.eventsBySource []) 0 0 334 CacheService.create
       Samples.mailboxCalendar = true.
Proof.
  destruct (C2_partial_failure_tolerance (Samples.backend Samples.eventsBySource []) 0 0
              [Samples.teamCalendar; Samples.mailboxCalendar; Samples.hrCalendar] 1000
              CacheService.create) as [_ Hfan].
  destruct Hfan as [Hresult _].
  - intros cached Hcached. vm_compute in Hcached. discriminate.
  - split; [rewrite Hresult |]; vm_compute; reflexivity.
Defined.

(** C1 fails on the code: [getEventsFromSources] merges and sorts but never
    calls [removeDuplicateEvents].  With a source that holds one event, the
    list that names the source twice returns the event twice, the list
    that names it once returns it once. *)
Lemma C1_duplicate_source_returned_twice :
  fst (getEventsFromSources (Samples.backend Samples.eventsBySource []) 0 0
         [Samples.teamCalendar; Samples.teamCalendar] 1000 CacheService.create)
  = Ok [Samples.event "1" "Sync" 2000; Samples.event "1" "Sync" 2000]
  /\ fst (getEventsFromSources (Samples.backend Samples.eventsBySource []) 0 0
            [Samples.teamCalendar] 1000 CacheService.create)
     = Ok [Samples.event "1" "Sync" 2000]
  /\ removeDuplicateEvents [Samples.event "1" "Sync" 2000; Samples.event "1" "Sync" 2000]
     = [Samples.event "1" "Sync" 2000].
Proof. repeat split; vm_compute; reflexivity. Qed.

End AggregatorExamples.

(** *** Search ranking *)

Section Sorting.
Context {A : Type} (cmp : A -> A -> Z).

Local Abbreviation before := (Aggregation.before cmp).

Hypothesis before_total : forall a b, before a b \/ before b a.
Hypothesis before_trans : forall a b c, before a b -> before b c -> before a c.

Lemma insertBy_Forall x y l :
  before y x -> Forall (before y) l -> Forall (before y) (JS.insertBy cmp x l).
Proof.
  intros Hyx. induction 1 as [| z l Hz Hl IH]; cbn [JS.insertBy].
  - repeat constructor. exact Hyx.
  - destruct (cmp x z <=? 0); repeat constructor; assumption.
Qed.

Lemma insertBy_sorted x l :
  StronglySorted before l -> StronglySorted before (JS.insertBy cmp x l).
Proof.
  induction 1 as [| y l Hs IH Hall]; cbn [JS.insertBy].
  - repeat constructor.
  - destruct (Z.leb_spec (cmp x y) 0) as [Hxy | Hyx].
    + constructor; [constructor; assumption |].
      constructor; [exact Hxy |].
      eapply Forall_impl; [exact Hall |]. intros z Hz.
      eapply before_trans; [exact Hxy | exact Hz].
    + constructor; [exact IH |]. apply insertBy_Forall; [| exact Hall].
      destruct (before_total y x) as [H | H]; [exact H | unfold Aggregation.before in H; lia].
Qed.

Lemma sortBy_sorted l : StronglySorted before (JS.sortBy cmp l).
Proof.
  induction l as [| x l IH]; cbn [JS.sortBy]; [constructor |].
  apply insertBy_sorted. exact IH.
Qed.

Lemma StronglySorted_pairs l :
  StronglySorted before l ->
  forall (i j : nat) (a b : A),
    (i < j)%nat -> l !! i = Some a -> l !! j = Some b -> before a b.
Proof.
  induction 1 as [| x l Hs IH Hall]; intros i j a b Hij Ha Hb; [discriminate |].
  destruct j as [| j]; [lia |]. cbn in Hb.
  destruct i as [| i].
  - cbn in Ha. injection Ha as <-.
    rewrite Forall_forall in Hall. apply Hall.
    apply list_elem_of_lookup. eauto.
  - cbn in Ha. apply (IH i j); [lia | assumption | assumption].
Qed.

End Sorting.

Section Search.
Import JS CalendarService Aggregation.

Lemma searchCompare_before query a b :
  before (searchCompare query) a b <->
  (titleMatches query a = true /\ titleMatches query b = false)
  \/ (titleMatches query a = titleMatches query b
      /\ ICalendarEvent.start a <= ICalendarEvent.start b).
Proof.
  unfold Aggregation.before, searchCompare.
  destruct (titleMatches query a), (titleMatches query b); cbn; split;
    intros H; try lia; try tauto; try (right; split; [reflexivity | lia]);
    destruct H as [[H1 H2] | [H1 H2]]; try discriminate; lia.
Qed.

Lemma searchCompare_total query a b :
  before (searchCompare query) a b \/ before (searchCompare query) b a.
Proof.
  rewrite !searchCompare_before.
  destruct (titleMatches query a), (titleMatches query b);
    destruct (Z.le_ge_cases (ICalendarEvent.start a) (ICalendarEvent.start b));
    auto.
Qed.

Lemma searchCompare_trans query a b c :
  before (searchCompare query) a b -> before (searchCompare query) b c ->
  before (searchCompare query) a c.
Proof.
  rewrite !searchCompare_before.
  destruct (titleMatches query a), (titleMatches query b), (titleMatches query c);
    intros [[H1 H2] | [H1 H2]] [[H3 H4] | [H3 H4]]; try discriminate;
    auto; right; split; auto; lia.
Qed.

Lemma sorted_twoBucketOrdered query l :
  twoBucketOrdered query (sortBy (searchCompare query) l).
Proof.
  intros i j a b Hij Ha Hb.
  pose proof (StronglySorted_pairs (searchCompare query) _
                (sortBy_sorted (searchCompare query) (searchCompare_total query)
                   (searchCompare_trans query) l) i j a b Hij Ha Hb) as Hab.
  apply searchCompare_before in Hab.
  destruct Hab as [[H1 H2] | [H1 H2]]; split; intros H; try congruence; auto.
Qed.

Lemma slice0_twoBucketOrdered query n l :
  twoBucketOrdered query l -> twoBucketOrdered query (slice0 n l).
Proof.
  intros Hl i j a b Hij Ha Hb. unfold slice0 in Ha, Hb.
  destruct (n <? 0); apply lookup_take_Some in Ha, Hb;
    apply (Hl i j a b Hij); tauto.
Qed.

(** For a query that [validateSearchQuery] accepts, [searchEvents] returns
    a list.  When the cache holds an unexpired list under the key of the
    query, that is the first [maxResults] elements of the cached list, as
    stored; otherwise the list is computed, and it is in two-bucket order
    for the query. *)
Theorem searchEvents_ranks_what_it_computes
    (ext : Collaborators) (now later : Z) (sources : list ICalendarSource.t)
    (query : string) (maxResults : Z) (c : CacheService.t (list ICalendarEvent.t)) :
  ValidationUtils.validateSearchQuery query = [] ->
  exists results,
    fst (searchEvents ext now later sources query maxResults c) = Ok results
    /\ (forall cached,
          fst (CacheService.getCachedSearchResults now query c) = Some cached ->
          results = slice0 maxResults cached)
    /\ (fst (CacheService.getCachedSearchResults now query c) = None ->
        twoBucketOrdered query results).
Proof.
  intros Hvalid. unfold searchEvents. rewrite Hvalid. cbn [length Nat.eqb negb].
  destruct (CacheService.getCachedSearchResults now query c) as [[cached |] c0];
    cbn [fst].
  - eexists. split; [reflexivity |]. split; [| discriminate].
    intros cached' [= <-]. reflexivity.
  - eexists. split; [reflexivity |]. split; [discriminate |].
    intros _. apply slice0_twoBucketOrdered, sorted_twoBucketOrdered.
Qed.

(** An instance: a search for "foo" on an empty cache. *)
Lemma searchEvents_ranks_what_it_computes_witness :
  exists results,
    fst (searchEvents
           (Samples.backend Samples.eventsBySource
              [Samples.event "1" "Lunch" 1000; Samples.event "2" "Foo review" 3000;
               Samples.event "3" "A foo" 2000])
           0 0 [Samples.teamCalendar] "foo" 50 CacheService.create) = Ok results
    /\ (forall cached,
          fst (CacheService.getCachedSearchResults 0 "foo"
                 (CacheService.create (T := list ICalendarEvent.t))) = Some cached ->
          results = slice0 50 cached)
    /\ (fst (CacheService.getCachedSearchResults 0 "foo"
               (CacheService.create (T := list ICalendarEvent.t))) = None ->
        twoBucketOrdered "foo" results).
Proof.
  apply (searchEvents_ranks_what_it_computes
           (Samples.backend Samples.eventsBySource
              [Samples.event "1" "Lunch" 1000; Samples.event "2" "Foo review" 3000;
               Samples.event "3" "A foo" 2000])
           0 0 [Samples.teamCalendar] "foo" 50 CacheService.create).
  vm_compute. reflexivity.
Defined.

(** C9.  A search for " foo" (with a leading blank) ranks "a foo" before
    "foo", because only the former contains " foo", and stores that list
    under the key of the trimmed query.  A search for "foo" one second
    later finds it there and returns it as it is: both titles contain
    "foo", yet the event that starts later comes first.  The same search
    on an empty cache returns the two events by start time. *)
Theorem C9_cached_results_ranked_for_the_untrimmed_query :
  let ext := Samples.backend Samples.eventsBySource
               [Samples.event "1" "foo" 1000; Samples.event "2" "a foo" 2000] in
  let c1 := snd (searchEvents ext 0 0 [Samples.teamCalendar] " foo" 50
                   CacheService.create) in
  ValidationUtils.validateSearchQuery " foo" = []
  /\ ValidationUtils.validateSearchQuery "foo" = []
  /\ fst (searchEvents ext 1000 1000 [Samples.teamCalendar] "foo" 50 c1)
     = Ok [Samples.event "2" "a foo" 2000; Samples.event "1" "foo" 1000]
  /\ ~ twoBucketOrdered "foo"
        [Samples.event "2" "a foo" 2000; Samples.event "1" "foo" 1000]
  /\ fst (searchEvents ext 1000 1000 [Samples.teamCalendar] "foo" 50
            CacheService.create)
     = Ok [Samples.event "1" "foo" 1000; Samples.event "2" "a foo" 2000].
Proof.
  cbv zeta. split; [vm_compute; reflexivity |]. split; [vm_compute; reflexivity |].
  split; [vm_compute; reflexivity |]. split; [| vm_compute; reflexivity].
  intros Hordered.
  destruct (Hordered 0%nat 1%nat (Samples.event "2" "a foo" 2000)
              (Samples.event "1" "foo" 1000) ltac:(lia) eq_refl eq_refl) as [_ Hstart].
  specialize (Hstart eq_refl). cbn in Hstart. lia.
Qed.

End Search.

(** ** Part III: further properties of the code *)

(** *** Strings *)

Module StringFacts.
Import JS.

Lemma prefix_cons c n d h :
  String.prefix (String c n) (String d h)
  = if Ascii.ascii_dec c d then String.prefix n h else false.
Proof. reflexivity. Qed.

Lemma prefix_app (x y : string) : String.prefix x (x +:+ y) = true.
Proof.
  induction x as [| c x IH]; [destruct y; reflexivity |].
  change (String c x +:+ y) with (String c (x +:+ y)). rewrite prefix_cons.
  destruct (Ascii.ascii_dec c c); [exact IH | congruence].
Qed.

Lemma prefix_app_r (n h q : string) :
  String.prefix n h = true -> String.prefix n (h +:+ q) = true.
Proof.
  revert h. induction n as [| c n IH]; intros h; [destruct (h +:+ q); reflexivity |].
  destruct h as [| d h]; [discriminate |].
  change (String d h +:+ q) with (String d (h +:+ q)). rewrite !prefix_cons.
  destruct (Ascii.ascii_dec c d); [apply IH | discriminate].
Qed.

Lemma includes_here (h n : string) : String.prefix n h = true -> includes h n = true.
Proof. intros H. destruct h; cbn [includes]; rewrite H; reflexivity. Qed.

Lemma includes_app_l (p h n : string) :
  includes h n = true -> includes (p +:+ h) n = true.
Proof.
  intros H. induction p as [| c p IH]; [exact H |].
  change (String c p +:+ h) with (String c (p +:+ h)).
  cbn [includes]. rewrite IH. apply orb_true_r.
Qed.

Lemma includes_app_r (h q n : string) :
  includes h n = true -> includes (h +:+ q) n = true.
Proof.
  induction h as [| c h IH]; cbn [includes].
  - rewrite orb_false_r. intros H. apply includes_here.
    apply (prefix_app_r n "" q). exact H.
  - intros H. apply orb_true_iff in H. destruct H as [H | H].
    + apply includes_here. apply (prefix_app_r n (String c h) q). exact H.
    + change (String c h +:+ q) with (String c (h +:+ q)).
      cbn [includes]. rewrite (IH H). apply orb_true_r.
Qed.

Lemma append_empty_r (x : string) : x +:+ "" = x.
Proof.
  induction x as [| c x IH]; [reflexivity |].
  change (String c x +:+ "") with (String c (x +:+ "")). congruence.
Qed.

Lemma includes_self (x : string) : includes x x = true.
Proof.
  apply includes_here. pose proof (prefix_app x "") as H.
  rewrite append_empty_r in H. exact H.
Qed.

Lemma includes_empty (h : string) : includes h "" = true.
Proof. apply includes_here. destruct h; reflexivity. Qed.

Lemma includes_middle (p x q : string) : includes (p +:+ x +:+ q) x = true.
Proof. apply includes_app_l, includes_app_r, includes_self. Qed.

Lemma includes_join sep (l : list string) x :
  In x l -> includes (join sep l) x = true.
Proof.
  unfold join. induction l as [| y l IH]; [intros [] |].
  intros [-> | Hin].
  - destruct l as [| z l]; [apply includes_self |].
    cbn [String.concat]. apply includes_app_r, includes_self.
  - destruct l as [| z l]; [destruct Hin |].
    cbn [String.concat]. apply includes_app_l, includes_app_l. apply IH. exact Hin.
Qed.

Lemma length_append (a b : string) :
  String.length (a +:+ b) = (String.length a + String.length b)%nat.
Proof.
  induction a as [| c a IH]; [reflexivity |].
  change (String c a +:+ b) with (String c (a +:+ b)). cbn [String.length].
  rewrite IH. reflexivity.
Qed.

Lemma toLowerCase_app a b : toLowerCase (a +:+ b) = toLowerCase a +:+ toLowerCase b.
Proof.
  induction a as [| c a IH]; [reflexivity |].
  change (String c a +:+ b) with (String c (a +:+ b)). cbn [toLowerCase].
  rewrite IH. reflexivity.
Qed.

(** A number is read back from its decimal rendering. *)
Lemma numberToString_inj a b : numberToString a = numberToString b -> a = b.
Proof.
  unfold numberToString. intros H.
  assert (Hnn : forall z, Z.to_int z <> Decimal.Pos Decimal.Nil
                          /\ Z.to_int z <> Decimal.Neg Decimal.Nil).
  { intros [| p | p]; cbn; split; try discriminate;
      intros [= Hp]; exact (DecimalPos.Unsigned.to_uint_nonnil p Hp). }
  pose proof (NilZero.isi (Z.to_int a) (proj1 (Hnn a)) (proj2 (Hnn a))) as Ha.
  pose proof (NilZero.isi (Z.to_int b) (proj1 (Hnn b)) (proj2 (Hnn b))) as Hb.
  rewrite H, Hb in Ha. injection Ha as Ha.
  rewrite <- (DecimalZ.of_to a), <- (DecimalZ.of_to b), Ha. reflexivity.
Qed.

(** The order of [compareStrings] is total, transitive and antisymmetric. *)
Lemma compare_refl (a : string) : String.compare a a = Eq.
Proof.
  pose proof (String.compare_antisym a a) as H.
  destruct (String.compare a a); try reflexivity; discriminate.
Qed.

Lemma ascii_compare_trans (a b c : Ascii.ascii) :
  Ascii.compare a b = Lt -> Ascii.compare b c = Lt -> Ascii.compare a c = Lt.
Proof. unfold Ascii.compare. rewrite !N.compare_lt_iff. lia. Qed.

Lemma compare_le_trans (a b c : string) :
  String.compare a b <> Gt -> String.compare b c <> Gt -> String.compare a c <> Gt.
Proof.
  revert b c. induction a as [| x a IH]; intros [| y b] [| z c]; cbn;
    try congruence.
  destruct (Ascii.compare x y) eqn:Hxy; [| | congruence];
    destruct (Ascii.compare y z) eqn:Hyz; try congruence.
  - apply Ascii.compare_eq_iff in Hxy, Hyz. subst.
    replace (Ascii.compare z z) with Eq; [apply IH |].
    pose proof (Ascii.compare_antisym z z) as H.
    destruct (Ascii.compare z z); try reflexivity; discriminate.
  - apply Ascii.compare_eq_iff in Hxy. subst. rewrite Hyz. intros _ _. discriminate.
  - apply Ascii.compare_eq_iff in Hyz. subst. rewrite Hxy. intros _ _. discriminate.
  - rewrite (ascii_compare_trans x y z Hxy Hyz). intros _ _. discriminate.
Qed.

Lemma compareStrings_le a b : compareStrings a b <= 0 <-> String.compare a b <> Gt.
Proof.
  unfold compareStrings. destruct (String.compare a b); split; try lia; congruence.
Qed.

Lemma compareStrings_total a b : compareStrings a b <= 0 \/ compareStrings b a <= 0.
Proof.
  rewrite !compareStrings_le, (String.compare_antisym b a).
  destruct (String.compare a b); cbn; [left | left | right]; congruence.
Qed.

Lemma compareStrings_trans a b c :
  compareStrings a b <= 0 -> compareStrings b c <= 0 -> compareStrings a c <= 0.
Proof. rewrite !compareStrings_le. apply compare_le_trans. Qed.

Lemma compareStrings_antisym a b :
  compareStrings a b <= 0 -> compareStrings b a <= 0 -> a = b.
Proof.
  rewrite !compareStrings_le, (String.compare_antisym b a). intros H1 H2.
  apply String.compare_eq_iff. destruct (String.compare a b); cbn in *; congruence.
Qed.

End StringFacts.

(** *** Sorted, sliced and filtered lists *)

Section ListFacts.
Context {A : Type}.

Lemma slice0_prefix (n : Z) (l : list A) : exists rest, l = JS.slice0 n l ++ rest.
Proof.
  unfold JS.slice0. destruct (n <? 0); eexists; symmetry; apply firstn_skipn.
Qed.

Lemma length_slice0 (n : Z) (l : list A) :
  0 <= n -> Z.of_nat (length (JS.slice0 n l)) <= n.
Proof.
  intros Hn. unfold JS.slice0. destruct (Z.ltb_spec n 0); [lia |].
  rewrite length_firstn. lia.
Qed.

Lemma slice0_all (n : Z) (l : list A) :
  Z.of_nat (length l) <= n -> JS.slice0 n l = l.
Proof.
  intros Hn. unfold JS.slice0. destruct (Z.ltb_spec n 0); [lia |].
  apply firstn_all2. lia.
Qed.

Lemma StronglySorted_app_l (R : A -> A -> Prop) (l1 l2 : list A) :
  StronglySorted R (l1 ++ l2) -> StronglySorted R l1.
Proof.
  induction l1 as [| x l1 IH]; [constructor |].
  cbn [app]. intros Hs. apply StronglySorted_inv in Hs. destruct Hs as [Hs Hall].
  constructor; [apply IH, Hs |].
  apply List.Forall_app in Hall. tauto.
Qed.

Lemma StronglySorted_weaken (R R' : A -> A -> Prop) (l : list A) :
  (forall a b, R a b -> R' a b) -> StronglySorted R l -> StronglySorted R' l.
Proof.
  intros HR. induction 1 as [| x l Hs IH Hall]; constructor; [exact IH |].
  eapply List.Forall_impl; [| exact Hall]. intros b. apply HR.
Qed.

Lemma NoDup_map_app_l {B} (f : A -> B) (l1 l2 : list A) :
  NoDup (List.map f (l1 ++ l2)) -> NoDup (List.map f l1).
Proof. rewrite List.map_app. apply NoDup_app. Qed.

Lemma filter_sublist (p : A -> bool) (l : list A) : sublist (List.filter p l) l.
Proof.
  induction l as [| x l IH]; cbn [List.filter]; [constructor |].
  destruct (p x); [apply sublist_skip | apply sublist_cons]; exact IH.
Qed.

Lemma filter_twice (p q : A -> bool) (l : list A) :
  List.filter q (List.filter p l) = List.filter (fun x => p x && q x) l.
Proof.
  induction l as [| x l IH]; [reflexivity |]. cbn [List.filter].
  destruct (p x); cbn [List.filter andb]; [destruct (q x) |]; rewrite IH; reflexivity.
Qed.

Lemma filter_all (l : list A) : List.filter (fun _ => true) l = l.
Proof. induction l as [| x l IH]; [reflexivity |]. cbn. rewrite IH. reflexivity. Qed.

Lemma compose_filters (f g : list A -> list A) :
  (exists p, forall l, f l = List.filter p l) ->
  (exists q, forall l, g l = List.filter q l) ->
  exists r, forall l, g (f l) = List.filter r l.
Proof.
  intros [p Hp] [q Hq]. exists (fun x => p x && q x). intros l.
  rewrite Hp, Hq. apply filter_twice.
Qed.

Variable cmp : A -> A -> Z.

Lemma insertBy_Permutation x l : Permutation (JS.insertBy cmp x l) (x :: l).
Proof.
  induction l as [| y l IH]; cbn [JS.insertBy]; [reflexivity |].
  destruct (cmp x y <=? 0); [reflexivity |].
  rewrite IH. apply perm_swap.
Qed.

Lemma sortBy_Permutation l : Permutation (JS.sortBy cmp l) l.
Proof.
  induction l as [| x l IH]; cbn [JS.sortBy]; [reflexivity |].
  rewrite insertBy_Permutation, IH. reflexivity.
Qed.

(** Two sorted lists with the same elements are equal when the order is
    antisymmetric. *)
Lemma sorted_Permutation_eq (l1 l2 : list A) :
  (forall a b, cmp a b <= 0 -> cmp b a <= 0 -> a = b) ->
  StronglySorted (Aggregation.before cmp) l1 ->
  StronglySorted (Aggregation.before cmp) l2 ->
  Permutation l1 l2 -> l1 = l2.
Proof.
  intros Hanti H1. revert l2.
  induction H1 as [| x l1 Hs1 IH Hall1]; intros l2 H2 Hperm.
  - apply Permutation_nil in Hperm. congruence.
  - destruct H2 as [| y l2 Hs2 Hall2];
      [apply Permutation_sym, Permutation_nil in Hperm; discriminate |].
    assert (Hxy : x = y).
    { assert (Hx : In x (y :: l2))
        by (eapply Permutation_in; [exact Hperm | left; reflexivity]).
      assert (Hy : In y (x :: l1))
        by (eapply Permutation_in; [apply Permutation_sym; exact Hperm | left; reflexivity]).
      rewrite List.Forall_forall in Hall1, Hall2.
      destruct Hx as [-> | Hx]; [reflexivity |].
      destruct Hy as [-> | Hy]; [reflexivity |].
      apply Hanti; [apply Hall1, Hy | apply Hall2, Hx]. }
    subst y. f_equal. apply IH; [exact Hs2 |].
    eapply Permutation_cons_inv. exact Hperm.
Qed.

End ListFacts.

Lemma sortBy_compareStrings_Permutation (ids ids' : list string) :
  Permutation ids ids' ->
  JS.sortBy JS.compareStrings ids = JS.sortBy JS.compareStrings ids'.
Proof.
  intros Hperm. apply (sorted_Permutation_eq JS.compareStrings).
  - apply StringFacts.compareStrings_antisym.
  - apply sortBy_sorted;
      [apply StringFacts.compareStrings_total | apply StringFacts.compareStrings_trans].
  - apply sortBy_sorted;
      [apply StringFacts.compareStrings_total | apply StringFacts.compareStrings_trans].
  - rewrite !sortBy_Permutation. exact Hperm.
Qed.

Lemma sortBy_startCompare_sorted (l : list ICalendarEvent.t) :
  StronglySorted Aggregation.byStart (JS.sortBy CalendarService.startCompare l).
Proof.
  apply (StronglySorted_weaken (Aggregation.before CalendarService.startCompare));
    [unfold Aggregation.before, CalendarService.startCompare, Aggregation.byStart;
     intros; lia |].
  apply (sortBy_sorted CalendarService.startCompare);
    unfold Aggregation.before, CalendarService.startCompare; intros; lia.
Qed.

(** *** The cache store: presence, removal and the sweep *)

Section CacheMaintenance.
Context {T : Type}.
Import JS CacheService.

Lemma fst_get now k (s : t T) :
  fst (get now k s) =
  match cache s !! k with
  | Some item => if expiry item <? now then None else Some (data item)
  | None => None
  end.
Proof.
  unfold get. destruct (cache s !! k) as [item |]; [| reflexivity].
  destruct (expiry item <? now); reflexivity.
Qed.

Lemma has_as_get now key (s : t T) :
  has now key s =
  (match fst (get now key s) with Some _ => true | None => false end,
   snd (get now key s)).
Proof.
  unfold has, get. destruct (cache s !! key) as [item |]; [| reflexivity].
  destruct (expiry item <? now); reflexivity.
Qed.

(** X1.  [has] answers as [get] would and leaves the same store (it too
    evicts an expired entry); [delete] reports whether the map held the key,
    expired or not, after which [get] and [has] find nothing under it while
    every other key reads as before; after [clear] no key is found. *)
Theorem has_delete_and_clear_agree_with_get (now : Z) (key : string) (s : t T) :
  has now key s =
    (match fst (get now key s) with Some _ => true | None => false end,
     snd (get now key s))
  /\ (fst (delete_ key s) = true <-> cache s !! key <> None)
  /\ fst (get now key (snd (delete_ key s))) = None
  /\ fst (has now key (snd (delete_ key s))) = false
  /\ (forall k', k' <> key ->
        fst (get now k' (snd (delete_ key s))) = fst (get now k' s))
  /\ (forall k, fst (get now k (clear s)) = None).
Proof.
  split; [apply has_as_get |]. unfold delete_. cbn [fst snd].
  split; [| split; [| split; [| split]]].
  - destruct (cache s !! key); split; congruence.
  - rewrite fst_get. cbn [cache]. rewrite lookup_delete_eq. reflexivity.
  - rewrite has_as_get. cbn [fst]. rewrite fst_get. cbn [cache].
    rewrite lookup_delete_eq. reflexivity.
  - intros k' Hne. rewrite !fst_get. cbn [cache].
    rewrite lookup_delete_ne by congruence. reflexivity.
  - intros k. rewrite fst_get. cbn [clear cache]. rewrite lookup_empty. reflexivity.
Qed.

Lemma lookup_set now key (v : T) ttlMinutes (s : t T) k :
  cache (set now key v ttlMinutes s) !! k =
  if decide (k = key)
  then (let ttl := match ttlMinutes with
                   | Some minutes =>
                       if truthy (Some minutes) then minutes * 60 * 1000 else defaultTtl s
                   | None => defaultTtl s
                   end in
        if now + ttl <? now then None
        else Some {| data := v; timestamp := now; expiry := now + ttl |})
  else match cache s !! k with
       | Some item => if expiry item <? now then None else Some item
       | None => None
       end.
Proof.
  unfold set. rewrite lookup_cleanupExpired. cbn [cache].
  destruct (decide (k = key)) as [-> | Hne].
  - rewrite lookup_insert_eq. cbn [expiry]. reflexivity.
  - rewrite lookup_insert_ne by congruence. reflexivity.
Qed.

Lemma get_after_set now now' k (v : T) ttl (s : t T) :
  0 < ttl -> now <= now' <= now + ttl * 60 * 1000 ->
  fst (get now' k (set now k v (Some ttl) s)) = Some v.
Proof.
  intros Httl Hnow. rewrite fst_get, (lookup_set_same now k v ttl s Httl).
  cbn [expiry data]. destruct (Z.ltb_spec (now + ttl * 60 * 1000) now'); [lia | reflexivity].
Qed.

(** X2.  A [set] at time [now] leaves no entry in the store that has
    expired by [now] (the health report taken at that instant counts no
    expired item), keeps every other entry that has not expired, and does
    not change what a [get] at that time or later returns for any other
    key. *)
Theorem set_sweeps_expired_entries_only (jsonLength : T -> Z) (now : Z) (key : string)
    (v : T) (ttlMinutes : option Z) (s : t T) :
  (forall k item, cache (set now key v ttlMinutes s) !! k = Some item ->
                  now <= expiry item)
  /\ (forall k item, k <> key -> cache s !! k = Some item -> now <= expiry item ->
                     cache (set now key v ttlMinutes s) !! k = Some item)
  /\ expiredItems (getCacheHealth jsonLength now (set now key v ttlMinutes s)) = 0
  /\ (forall now' k', k' <> key -> now <= now' ->
        fst (get now' k' (set now key v ttlMinutes s)) = fst (get now' k' s)).
Proof.
  assert (Hlive : forall k item, cache (set now key v ttlMinutes s) !! k = Some item ->
                                 now <= expiry item).
  { intros k item. rewrite lookup_set. destruct (decide (k = key)) as [-> | Hne].
    - cbv zeta. match goal with |- context [?a <? now] =>
        destruct (Z.ltb_spec a now) as [Hexp | Hok] end; [discriminate |].
      intros [= <-]. cbn [expiry]. exact Hok.
    - destruct (cache s !! k) as [item' |]; [| discriminate].
      destruct (Z.ltb_spec (expiry item') now); [discriminate |].
      intros [= <-]. assumption. }
  split; [exact Hlive |]. split; [| split].
  - intros k item Hne Hk Hexp. rewrite lookup_set, decide_False by exact Hne.
    rewrite Hk. destruct (Z.ltb_spec (expiry item) now); [lia | reflexivity].
  - unfold getCacheHealth. cbn [expiredItems].
    match goal with |- Z.of_nat (length ?l) = 0 => assert (Hnil : l = []) end;
      [| rewrite Hnil; reflexivity].
    assert (Hall : Forall (fun item : ICacheItem T => (expiry item <? now) = false)
                     (List.map snd (map_to_list (cache (set now key v ttlMinutes s))))).
    { apply Forall_forall. intros item Hin.
      apply list_elem_of_In, in_map_iff in Hin. destruct Hin as [[k item'] [<- Hin]].
      apply list_elem_of_In, elem_of_map_to_list in Hin. cbn [snd].
      apply Z.ltb_ge. eapply Hlive. exact Hin. }
    induction Hall as [| item l Hitem _ IH]; [reflexivity |].
    cbn [List.filter]. rewrite Hitem. exact IH.
  - intros now' k' Hne Hnow. rewrite !fst_get, lookup_set.
    rewrite decide_False by exact Hne.
    destruct (cache s !! k') as [item |]; [| reflexivity].
    destruct (Z.ltb_spec (expiry item) now) as [Hexp | Hlive']; [| reflexivity].
    destruct (Z.ltb_spec (expiry item) now'); [reflexivity | lia].
Qed.

Lemma elem_of_keysToDelete (test : string -> bool) (m : gmap string (ICacheItem T)) k :
  k ∈ keysToDelete test m <-> is_Some (m !! k) /\ test k = true.
Proof.
  unfold keysToDelete. rewrite list_elem_of_In, in_map_iff. split.
  - intros [[k' item] [<- Hin]]. apply filter_In in Hin. destruct Hin as [Hin Ht].
    apply list_elem_of_In, elem_of_map_to_list in Hin. cbn [fst] in *.
    split; [eexists; exact Hin | exact Ht].
  - intros [[item Hk] Ht]. exists (k, item). split; [reflexivity |].
    apply filter_In. split; [| exact Ht].
    apply list_elem_of_In, elem_of_map_to_list. exact Hk.
Qed.

Lemma lookup_deleteAll (test : string -> bool) (s : t T) k :
  cache (deleteAll (keysToDelete test (cache s)) s) !! k =
  if test k then None else cache s !! k.
Proof.
  unfold deleteAll. cbn [cache]. rewrite lookup_fold_delete.
  destruct (decide (k ∈ keysToDelete test (cache s))) as [Hin | Hout].
  - apply elem_of_keysToDelete in Hin. destruct Hin as [_ ->]. reflexivity.
  - destruct (test k) eqn:Ht; [| reflexivity].
    destruct (cache s !! k) as [item |] eqn:Hk; [| reflexivity].
    exfalso. apply Hout, elem_of_keysToDelete. split; [eexists; exact Hk | exact Ht].
Qed.

End CacheMaintenance.

(** *** The cache store: invalidation and keys *)

Section CacheInvalidation.
Context {T : Type}.
Import JS CacheService StringFacts.

Lemma In_sortBy_intro {A} (cmp : A -> A -> Z) y (l : list A) :
  In y l -> In y (sortBy cmp l).
Proof.
  intros H. eapply Permutation_in; [apply Permutation_sym, sortBy_Permutation | exact H].
Qed.

Lemma eventsKey_includes (calendarId : string) :
  includes (generateKey AppConstants.CACHE_EVENTS_KEY calendarId) calendarId = true.
Proof. unfold generateKey. repeat apply includes_app_l. apply includes_self. Qed.

Lemma aggregatedKey_includes (ids : list string) id :
  In id ids -> includes (aggregatedKey ids) id = true.
Proof.
  intros Hin. unfold aggregatedKey, generateKey.
  repeat apply includes_app_l. apply includes_join, In_sortBy_intro, Hin.
Qed.

Lemma dateRangeKey_includes a b (ids : list string) id :
  In id ids -> includes (dateRangeKey a b ids) id = true.
Proof.
  intros Hin. unfold dateRangeKey, generateKey.
  repeat apply includes_app_l. apply includes_join, In_sortBy_intro, Hin.
Qed.

(** X3.  [clearCalendarSpecificCache(id)], which is [invalidateByPattern]
    under another name, removes exactly the keys that contain [id]: the
    events cached for that calendar, every aggregate and every date-range
    entry whose id list names it; the keys that do not contain [id] read as
    before.  With the empty string it empties the store. *)
Theorem clearCalendarSpecificCache_removes_keys_containing_id (now : Z)
    (calendarId : string) (s : t T) :
  (forall k, cache (clearCalendarSpecificCache calendarId s) !! k =
             if includes k calendarId then None else cache s !! k)
  /\ fst (getCachedEvents now calendarId (clearCalendarSpecificCache calendarId s)) = None
  /\ (forall ids, In calendarId ids ->
        fst (getCachedAggregatedEvents now ids
               (clearCalendarSpecificCache calendarId s)) = None)
  /\ (forall startDate endDate ids, In calendarId ids ->
        fst (getCachedDateRangeEvents now startDate endDate ids
               (clearCalendarSpecificCache calendarId s)) = None)
  /\ (forall k, includes k calendarId = false ->
        fst (get now k (clearCalendarSpecificCache calendarId s)) = fst (get now k s))
  /\ invalidateByPattern calendarId s = clearCalendarSpecificCache calendarId s
  /\ cache (clearCalendarSpecificCache "" s) = ∅.
Proof.
  assert (Hlookup : forall pattern k,
            cache (clearCalendarSpecificCache pattern s) !! k =
            if includes k pattern then None else cache s !! k)
    by (intros pattern k; exact (lookup_deleteAll (fun key => includes key pattern) s k)).
  unfold getCachedEvents, getCachedAggregatedEvents, getCachedDateRangeEvents.
  split; [apply Hlookup |]. split; [| split; [| split; [| split; [| split]]]].
  - rewrite fst_get, Hlookup, eventsKey_includes. reflexivity.
  - intros ids Hin. rewrite fst_get, Hlookup, aggregatedKey_includes by exact Hin.
    reflexivity.
  - intros a b ids Hin. rewrite fst_get, Hlookup, dateRangeKey_includes by exact Hin.
    reflexivity.
  - intros k Hk. rewrite !fst_get, Hlookup, Hk. reflexivity.
  - reflexivity.
  - apply map_eq. intros k. rewrite Hlookup, includes_empty, lookup_empty. reflexivity.
Qed.

Lemma search_key_markers (q : string) :
  includes (generateKey "search" q) AppConstants.CACHE_SOURCES_KEY
  || includes (generateKey "search" q) AppConstants.CACHE_EVENTS_KEY
  || includes (generateKey "search" q) "metadata"
  || includes (generateKey "search" q) "daterange"
  = includes q AppConstants.CACHE_SOURCES_KEY
    || includes q AppConstants.CACHE_EVENTS_KEY
    || includes q "metadata"
    || includes q "daterange".
Proof.
  unfold generateKey, AppConstants.CACHE_KEY_PREFIX, AppConstants.CACHE_SOURCES_KEY,
    AppConstants.CACHE_EVENTS_KEY.
  cbn. reflexivity.
Qed.

(** X4.  After [clearCalendarCache] no per-calendar events, no aggregate,
    no date-range entry and no source list is found in the cache; cached
    search results are kept, unless the normalised query itself contains
    one of the four markers the sweep looks for. *)
Theorem clearCalendarCache_drops_calendar_data_keeps_searches (now : Z) (s : t T) :
  (forall id, fst (getCachedEvents now id (clearCalendarCache s)) = None)
  /\ (forall ids, fst (getCachedAggregatedEvents now ids (clearCalendarCache s)) = None)
  /\ (forall startDate endDate ids,
        fst (getCachedDateRangeEvents now startDate endDate ids (clearCalendarCache s))
        = None)
  /\ fst (getCachedSources now (clearCalendarCache s)) = None
  /\ (forall query,
        let normalizedQuery := trim (toLowerCase query) in
        includes normalizedQuery AppConstants.CACHE_SOURCES_KEY
        || includes normalizedQuery AppConstants.CACHE_EVENTS_KEY
        || includes normalizedQuery "metadata"
        || includes normalizedQuery "daterange" = false ->
        fst (getCachedSearchResults now query (clearCalendarCache s))
        = fst (getCachedSearchResults now query s)).
Proof.
  set (test := fun key : string =>
                 includes key AppConstants.CACHE_SOURCES_KEY
                 || includes key AppConstants.CACHE_EVENTS_KEY
                 || includes key "metadata"
                 || includes key "daterange").
  assert (Hgone : forall k, test k = true ->
                            fst (get now k (clearCalendarCache s)) = None).
  { intros k Hk. rewrite fst_get.
    change (clearCalendarCache s) with (deleteAll (keysToDelete test (cache s)) s).
    rewrite (lookup_deleteAll test s k), Hk. reflexivity. }
  assert (Hevents : forall x, test (generateKey AppConstants.CACHE_EVENTS_KEY x) = true).
  { intros x. unfold test.
    replace (includes (generateKey AppConstants.CACHE_EVENTS_KEY x)
               AppConstants.CACHE_EVENTS_KEY) with true;
      [rewrite orb_true_r; reflexivity |].
    symmetry. unfold generateKey. apply includes_middle. }
  split; [| split; [| split; [| split]]].
  - intros id. apply Hgone, Hevents.
  - intros ids. apply Hgone, Hevents.
  - intros a b ids. apply Hgone. unfold test, dateRangeKey.
    match goal with |- context [includes ?k "daterange"] =>
      replace (includes k "daterange") with true; [apply orb_true_r |] end.
    symmetry. unfold generateKey. apply includes_middle.
  - apply Hgone. unfold test.
    replace (includes (generateKey AppConstants.CACHE_SOURCES_KEY "all")
               AppConstants.CACHE_SOURCES_KEY) with true; [reflexivity |].
    symmetry. unfold generateKey. apply includes_middle.
  - intros query normalizedQuery Hq.
    unfold getCachedSearchResults, searchKey. fold normalizedQuery.
    rewrite !fst_get.
    change (clearCalendarCache s) with (deleteAll (keysToDelete test (cache s)) s).
    rewrite (lookup_deleteAll test s _). unfold test.
    rewrite search_key_markers, Hq. reflexivity.
Qed.

(** X5.  The aggregate cache does not depend on the order of the calendar
    ids: events stored for a list of ids with a positive TTL are returned,
    until they expire, for every reordering of that list. *)
Theorem aggregated_cache_ignores_id_order (now now' : Z) (ids ids' : list string)
    (v : T) (ttl : Z) (s : t T) :
  Permutation ids ids' -> 0 < ttl -> now <= now' <= now + ttl * 60 * 1000 ->
  fst (getCachedAggregatedEvents now' ids'
         (setCachedAggregatedEvents now ids v (Some ttl) s)) = Some v.
Proof.
  intros Hperm Httl Hnow.
  unfold getCachedAggregatedEvents, setCachedAggregatedEvents, aggregatedKey.
  rewrite (sortBy_compareStrings_Permutation ids' ids) by (symmetry; exact Hperm).
  apply get_after_set; assumption.
Qed.

Lemma isoDate_Day t t' : JSDate.Day t = JSDate.Day t' -> isoDate t = isoDate t'.
Proof.
  intros H. unfold isoDate, JSDate.YearFromTime, JSDate.MonthFromTime,
    JSDate.DateFromTime. rewrite H. reflexivity.
Qed.

(** X6.  The date-range cache is keyed by calendar day, not by instant:
    events stored for a range are returned, until they expire, for every
    range that starts on the same UTC day and ends on the same UTC day,
    whatever the times of day, and for every reordering of the ids. *)
Theorem date_range_cache_is_keyed_by_day (now now' : Z)
    (startDate endDate startDate' endDate' : Z) (ids ids' : list string)
    (v : T) (ttl : Z) (s : t T) :
  JSDate.Day startDate' = JSDate.Day startDate ->
  JSDate.Day endDate' = JSDate.Day endDate ->
  Permutation ids ids' ->
  0 < ttl -> now <= now' <= now + ttl * 60 * 1000 ->
  fst (getCachedDateRangeEvents now' startDate' endDate' ids'
         (setCachedDateRangeEvents now startDate endDate ids v (Some ttl) s)) = Some v.
Proof.
  intros Hs He Hperm Httl Hnow.
  unfold getCachedDateRangeEvents, setCachedDateRangeEvents, dateRangeKey.
  rewrite (isoDate_Day startDate' startDate Hs), (isoDate_Day endDate' endDate He).
  rewrite (sortBy_compareStrings_Permutation ids' ids) by (symmetry; exact Hperm).
  apply get_after_set; assumption.
Qed.

(** X7.  [configure] with a positive number of minutes makes that the
    lifetime of every later [set] that names no TTL (the value is read back
    until then and gone after) and leaves the stored entries alone; with 0
    minutes or none it changes nothing. *)
Theorem configure_sets_the_default_ttl (minutes now now' : Z) (k : string) (v : T)
    (s : t T) :
  0 < minutes ->
  (now <= now' <= now + minutes * 60 * 1000 ->
   fst (get now' k (set now k v None (configure (Some minutes) s))) = Some v)
  /\ (now + minutes * 60 * 1000 < now' ->
      fst (get now' k (set now k v None (configure (Some minutes) s))) = None)
  /\ cache (configure (Some minutes) s) = cache s
  /\ configure (Some 0) s = s
  /\ configure None s = s.
Proof.
  intros Hm.
  assert (Hcfg : configure (Some minutes) s
                 = {| cache := cache s; defaultTtl := minutes * 60 * 1000 |}).
  { unfold configure, truthy. destruct (Z.eqb_spec minutes 0); [lia | reflexivity]. }
  rewrite Hcfg.
  repeat split; try reflexivity; intros Hnow; rewrite fst_get, lookup_set,
    decide_True by reflexivity; cbv zeta; cbn [defaultTtl];
    (destruct (Z.ltb_spec (now + minutes * 60 * 1000) now); [lia |]);
    cbn [expiry data];
    destruct (Z.ltb_spec (now + minutes * 60 * 1000) now'); try lia; reflexivity.
Qed.

End CacheInvalidation.

(** Instance of X5: events stored for the ids b, a are found under a, b. *)
Lemma aggregated_cache_ignores_id_order_witness :
  fst (CacheService.getCachedAggregatedEvents 2000 ["a"; "b"]
         (CacheService.setCachedAggregatedEvents 1000 ["b"; "a"] 7 (Some 15)
            CacheService.create)) = Some 7.
Proof.
  apply (aggregated_cache_ignores_id_order 1000 2000 ["b"; "a"] ["a"; "b"] 7 15
           (CacheService.create (T := Z))).
  - apply perm_swap.
  - lia.
  - lia.
Defined.

(** Instance of X6: what is stored for 2 January 2024 from 09:00 to 17:00
    is returned for 2 January 2024 from 10:00 to 11:00. *)
Lemma date_range_cache_is_keyed_by_day_witness :
  fst (CacheService.getCachedDateRangeEvents 2000
         (JSDate.UTC 2024 0 2 36000000) (JSDate.UTC 2024 0 2 39600000) ["a"]
         (CacheService.setCachedDateRangeEvents 1000
            (JSDate.UTC 2024 0 2 32400000) (JSDate.UTC 2024 0 2 61200000) ["a"]
            7 (Some 15) CacheService.create)) = Some 7.
Proof.
  apply (date_range_cache_is_keyed_by_day 1000 2000
           (JSDate.UTC 2024 0 2 32400000) (JSDate.UTC 2024 0 2 61200000)
           (JSDate.UTC 2024 0 2 36000000) (JSDate.UTC 2024 0 2 39600000)
           ["a"] ["a"] 7 15 (CacheService.create (T := Z))).
  - vm_compute. reflexivity.
  - vm_compute. reflexivity.
  - reflexivity.
  - lia.
  - lia.
Defined.

(** Instance of X7: with a default of 30 minutes, a value set at 1 000 is
    there at 2 000 and gone at 2 000 000. *)
Lemma configure_sets_the_default_ttl_witness :
  fst (CacheService.get 2000 "k"
         (CacheService.set 1000 "k" 7 None
            (CacheService.configure (Some 30) CacheService.create))) = Some 7
  /\ fst (CacheService.get 2000000 "k"
            (CacheService.set 1000 "k" 7 None
               (CacheService.configure (Some 30) CacheService.create))) = None.
Proof.
  destruct (configure_sets_the_default_ttl 30 1000 2000 "k" 7
              (CacheService.create (T := Z)) ltac:(lia)) as (Hhit & _).
  destruct (configure_sets_the_default_ttl 30 1000 2000000 "k" 7
              (CacheService.create (T := Z)) ltac:(lia)) as (_ & Hmiss & _).
  split; [apply Hhit; lia | apply Hmiss; lia].
Defined.

(** *** Duplicates and conflicts *)

Section Deduplication.
Import JS CalendarService.

Lemma removeDuplicatesFrom_spec (events : list ICalendarEvent.t) : forall seen,
  NoDup (List.map dedupKey (removeDuplicatesFrom seen events))
  /\ Forall (fun e => dedupKey e ∉ seen) (removeDuplicatesFrom seen events)
  /\ sublist (removeDuplicatesFrom seen events) events
  /\ (forall e, In e events ->
        dedupKey e ∈ seen
        \/ exists e', In e' (removeDuplicatesFrom seen events)
                      /\ dedupKey e' = dedupKey e)
  /\ (forall e', In e' (removeDuplicatesFrom seen events) ->
        exists earlier later,
          events = earlier ++ e' :: later
          /\ Forall (fun x => dedupKey x <> dedupKey e') earlier).
Proof.
  induction events as [| x events IH]; intros seen; cbn [removeDuplicatesFrom].
  - repeat split; [constructor | constructor | constructor | intros e [] | intros e []].
  - destruct (decide (dedupKey x ∈ seen)) as [Hseen | Hnew].
    + destruct (IH seen) as (Hnd & Hout & Hsub & Hcov & Hfirst).
      repeat split; [exact Hnd | exact Hout | apply sublist_cons; exact Hsub | |].
      * intros e [<- | Hin]; [left; exact Hseen | apply Hcov, Hin].
      * intros e' Hin. destruct (Hfirst e' Hin) as (earlier & later & -> & Hne).
        exists (x :: earlier), later. split; [reflexivity |].
        constructor; [| exact Hne]. intros Hk.
        rewrite List.Forall_forall in Hout. apply (Hout e' Hin).
        rewrite <- Hk. exact Hseen.
    + destruct (IH ({[dedupKey x]} ∪ seen)) as (Hnd & Hout & Hsub & Hcov & Hfirst).
      rewrite List.Forall_forall in Hout.
      repeat split.
      * cbn [List.map]. constructor; [| exact Hnd].
        intros Hin. apply list_elem_of_In, in_map_iff in Hin.
        destruct Hin as [e' [Hkey Hin']].
        apply (Hout e' Hin'). rewrite Hkey.
        apply elem_of_union_l, elem_of_singleton. reflexivity.
      * constructor; [exact Hnew |].
        apply List.Forall_forall. intros e He Hk.
        apply (Hout e He), elem_of_union_r, Hk.
      * apply sublist_skip. exact Hsub.
      * intros e [<- | Hin]; [right; exists x; split; [left |]; reflexivity |].
        destruct (Hcov e Hin) as [Hk | [e' [Hin' Hk]]].
        -- apply elem_of_union in Hk. destruct Hk as [Hk | Hk]; [| left; exact Hk].
           apply elem_of_singleton in Hk. right. exists x. split; [left; reflexivity | auto].
        -- right. exists e'. split; [right; exact Hin' | exact Hk].
      * intros e' [<- | Hin]; [exists [], events; split; [reflexivity | constructor] |].
        destruct (Hfirst e' Hin) as (earlier & later & -> & Hne).
        exists (x :: earlier), later. split; [reflexivity |].
        constructor; [| exact Hne]. intros Hk.
        apply (Hout e' Hin). rewrite <- Hk.
        apply elem_of_union_l, elem_of_singleton. reflexivity.
Qed.

Lemma removeDuplicatesFrom_fixed (events : list ICalendarEvent.t) : forall seen,
  NoDup (List.map dedupKey events) ->
  Forall (fun e => dedupKey e ∉ seen) events ->
  removeDuplicatesFrom seen events = events.
Proof.
  induction events as [| x events IH]; intros seen Hnd Hout; [reflexivity |].
  cbn [removeDuplicatesFrom]. cbn [List.map] in Hnd.
  apply NoDup_cons in Hnd. destruct Hnd as [Hx Hnd].
  apply List.Forall_cons_iff in Hout. destruct Hout as [Hxs Hout].
  rewrite decide_False by exact Hxs. f_equal. apply IH; [exact Hnd |].
  apply List.Forall_forall. intros e Hin Hk.
  apply elem_of_union in Hk. destruct Hk as [Hk | Hk].
  - apply elem_of_singleton in Hk. apply Hx. rewrite <- Hk.
    apply list_elem_of_In, in_map, Hin.
  - rewrite List.Forall_forall in Hout. exact (Hout e Hin Hk).
Qed.

Lemma NoDup_keys_sorted_sliced (cmp : ICalendarEvent.t -> ICalendarEvent.t -> Z)
    (n : Z) (l : list ICalendarEvent.t) :
  NoDup (List.map dedupKey l) ->
  NoDup (List.map dedupKey (slice0 n (sortBy cmp l))).
Proof.
  intros Hnd. destruct (slice0_prefix n (sortBy cmp l)) as [rest Hrest].
  apply (NoDup_map_app_l dedupKey _ rest). rewrite <- Hrest.
  apply NoDup_ListNoDup. eapply Permutation_NoDup;
    [apply Permutation_map, Permutation_sym, sortBy_Permutation |].
  apply NoDup_ListNoDup. exact Hnd.
Qed.

(** X8.  [removeDuplicateEvents] keeps, in their order, exactly the first
    event of each key (title, start and organizer, compared without case):
    no two events it returns share a key, every event of the input has its
    key represented, an event it returns has no event of equal key before
    it in the input, and applying it a second time changes nothing. *)
Theorem removeDuplicateEvents_keeps_first_of_each_key (events : list ICalendarEvent.t) :
  NoDup (List.map dedupKey (removeDuplicateEvents events))
  /\ sublist (removeDuplicateEvents events) events
  /\ (forall e, In e events ->
        exists e', In e' (removeDuplicateEvents events) /\ dedupKey e' = dedupKey e)
  /\ (forall e', In e' (removeDuplicateEvents events) ->
        exists earlier later,
          events = earlier ++ e' :: later
          /\ Forall (fun x => dedupKey x <> dedupKey e') earlier)
  /\ removeDuplicateEvents (removeDuplicateEvents events) = removeDuplicateEvents events.
Proof.
  unfold removeDuplicateEvents.
  destruct (removeDuplicatesFrom_spec events ∅) as (Hnd & Hout & Hsub & Hcov & Hfirst).
  repeat split; [exact Hnd | exact Hsub | | exact Hfirst |].
  - intros e Hin. destruct (Hcov e Hin) as [Hk | H]; [| exact H].
    apply elem_of_empty in Hk. destruct Hk.
  - apply removeDuplicatesFrom_fixed; [exact Hnd | exact Hout].
Qed.

End Deduplication.

Section ConflictScan.
Import JS CalendarService.

Lemma overlap_positive_iff e1 e2 :
  0 < calculateEventOverlap e1 e2 <->
  60000 <= Z.min (ICalendarEvent.end_ e1) (ICalendarEvent.end_ e2)
           - Z.max (ICalendarEvent.start e1) (ICalendarEvent.start e2).
Proof.
  rewrite calculateEventOverlap_formula. split; intros H;
    Z.div_mod_to_equations; lia.
Qed.

Lemma conflictsWith_complete e1 rest e2 :
  In e2 rest ->
  ICalendarEvent.isAllDay e1 = false -> ICalendarEvent.isAllDay e2 = false ->
  0 < calculateEventOverlap e1 e2 ->
  In (mkConflict e1 e2 (calculateEventOverlap e1 e2)) (conflictsWith e1 rest).
Proof.
  intros Hin H1 H2 Hpos. induction rest as [| x rest IH]; [destruct Hin |].
  cbn [conflictsWith]. apply in_or_app. destruct Hin as [-> | Hin].
  - left. rewrite H1, H2. cbn [orb].
    destruct (Z.ltb_spec 0 (calculateEventOverlap e1 e2)); [left; reflexivity | lia].
  - right. apply IH, Hin.
Qed.

Lemma conflictsWith_sound e1 rest c :
  In c (conflictsWith e1 rest) -> event1 c = e1 /\ In (event2 c) rest.
Proof.
  induction rest as [| x rest IH]; cbn [conflictsWith]; [intros [] |].
  intros Hin. apply in_app_or in Hin. destruct Hin as [Hin | Hin].
  - destruct (ICalendarEvent.isAllDay e1 || ICalendarEvent.isAllDay x); [destruct Hin |].
    destruct (0 <? calculateEventOverlap e1 x); [| destruct Hin].
    destruct Hin as [<- | []]. split; [reflexivity | left; reflexivity].
  - destruct (IH Hin) as [H1 H2]. split; [exact H1 | right; exact H2].
Qed.

Lemma length_conflictsWith e1 rest : (length (conflictsWith e1 rest) <= length rest)%nat.
Proof.
  induction rest as [| x rest IH]; cbn [conflictsWith]; [cbn; lia |].
  rewrite length_app. cbn [length].
  destruct (ICalendarEvent.isAllDay e1 || ICalendarEvent.isAllDay x); [cbn; lia |].
  destruct (0 <? calculateEventOverlap e1 x); cbn; lia.
Qed.

(** X9.  The conflict scan is complete and exact: two events of the list
    that are not all-day and share at least one full minute are reported,
    the earlier-listed one first, with their overlap; every reported
    conflict is such a pair, taken at two positions of the list in their
    order (so events that merely touch, or overlap by less than a minute,
    are not reported); and [n] events give at most [n (n - 1) / 2]
    conflicts. *)
Theorem getEventConflicts_reports_exactly_the_overlaps (events : list ICalendarEvent.t) :
  (forall (i j : nat) (e1 e2 : ICalendarEvent.t),
      (i < j)%nat -> events !! i = Some e1 -> events !! j = Some e2 ->
      ICalendarEvent.isAllDay e1 = false -> ICalendarEvent.isAllDay e2 = false ->
      60000 <= Z.min (ICalendarEvent.end_ e1) (ICalendarEvent.end_ e2)
               - Z.max (ICalendarEvent.start e1) (ICalendarEvent.start e2) ->
      In (mkConflict e1 e2 (calculateEventOverlap e1 e2))
         (getEventConflicts (Ok events)))
  /\ (forall c, In c (getEventConflicts (Ok events)) ->
        60000 <= Z.min (ICalendarEvent.end_ (event1 c)) (ICalendarEvent.end_ (event2 c))
                 - Z.max (ICalendarEvent.start (event1 c))
                         (ICalendarEvent.start (event2 c))
        /\ exists (i j : nat), (i < j)%nat /\ events !! i = Some (event1 c)
                               /\ events !! j = Some (event2 c))
  /\ (2 * length (getEventConflicts (Ok events))
      <= length events * (length events - 1))%nat.
Proof.
  cbn [getEventConflicts]. split; [| split].
  - induction events as [| x events IH]; intros i j e1 e2 Hij Hi Hj H1 H2 Hov;
      [discriminate |].
    cbn [scanConflicts]. apply in_or_app.
    destruct j as [| j]; [lia |]. cbn in Hj.
    destruct i as [| i].
    + cbn in Hi. injection Hi as ->. left.
      apply conflictsWith_complete; [| assumption | assumption |
                                     apply overlap_positive_iff; exact Hov].
      apply list_elem_of_In, list_elem_of_lookup. eauto.
    + cbn in Hi. right. apply (IH i j); auto. lia.
  - intros c Hin. split.
    + pose proof (scanConflicts_not_all_day events) as Hall.
      rewrite List.Forall_forall in Hall. destruct (Hall c Hin) as (_ & _ & Heq & Hpos).
      rewrite Heq in Hpos. apply overlap_positive_iff. exact Hpos.
    + induction events as [| x events IH]; [destruct Hin |].
      cbn [scanConflicts] in Hin. apply in_app_or in Hin. destruct Hin as [Hin | Hin].
      * apply conflictsWith_sound in Hin. destruct Hin as [H1 H2].
        apply list_elem_of_In, list_elem_of_lookup in H2. destruct H2 as [j Hj].
        exists 0%nat, (S j). repeat split; [lia | cbn; congruence | exact Hj].
      * destruct (IH Hin) as (i & j & Hij & Hi & Hj).
        exists (S i), (S j). repeat split; [lia | exact Hi | exact Hj].
  - induction events as [| x events IH]; [cbn; lia |].
    cbn [scanConflicts]. rewrite length_app. cbn [length].
    pose proof (length_conflictsWith x events).
    destruct (length events) as [| n]; [cbn in *; lia |].
    cbn [Nat.sub] in *. rewrite Nat.sub_0_r in *. nia.
Qed.

End ConflictScan.

(** *** The aggregator: bounds, order, failures and the cache *)

Section ServiceBounds.
Import JS CalendarService Aggregation.

(** X10.  For a cap that is not negative, [getEventsFromSources] returns
    at most [maxEvents] events; when it fans out (no cached aggregate that
    fits the cap), they are in ascending order of start time. *)
Theorem getEventsFromSources_capped_and_sorted (ext : Collaborators) (now later : Z)
    (sources : list ICalendarSource.t) (maxEvents : Z)
    (c : CacheService.t (list ICalendarEvent.t)) :
  0 <= maxEvents ->
  exists events,
    fst (getEventsFromSources ext now later sources maxEvents c) = Ok events
    /\ Z.of_nat (length events) <= maxEvents
    /\ ((forall cached,
           fst (CacheService.getCachedAggregatedEvents now
                  (List.map ICalendarSource.id sources) c) = Some cached ->
           maxEvents < Z.of_nat (length cached)) ->
        StronglySorted byStart events).
Proof.
  intros Hmax.
  destruct (getEventsFromSources_never_throws ext now later sources maxEvents c)
    as [events Hev].
  exists events. split; [exact Hev |]. split.
  - revert Hev. unfold getEventsFromSources.
    destruct (CacheService.getCachedAggregatedEvents now _ c) as [cached c0].
    destruct (beginAll ext now sources _ c0) as [tasks c1].
    destruct (settleAll ext later _ tasks c1) as [promises c2].
    assert (Hfan : forall r : result (list ICalendarEvent.t) *
                               CacheService.t (list ICalendarEvent.t),
              r = match promiseAll promises with
                  | Throw m => (Throw m, c2)
                  | Ok eventArrays =>
                      (Ok (slice0 maxEvents (sortBy startCompare (List.concat eventArrays))),
                       CacheService.setCachedAggregatedEvents later
                         (List.map ICalendarSource.id sources)
                         (slice0 maxEvents (sortBy startCompare (List.concat eventArrays)))
                         (Some AppConstants.CACHE_DURATION_MINUTES) c2)
                  end ->
              fst r = Ok events -> Z.of_nat (length events) <= maxEvents).
    { intros r ->. destruct (promiseAll promises); cbn [fst]; [| discriminate].
      intros [= <-]. apply length_slice0, Hmax. }
    destruct cached as [cached |]; [| apply Hfan; reflexivity].
    destruct (Z.leb_spec (Z.of_nat (length cached)) maxEvents); [| apply Hfan; reflexivity].
    cbn [fst]. intros [= <-]. apply length_slice0, Hmax.
  - intros Hmiss.
    rewrite (getEventsFromSources_fan_out ext now later sources maxEvents c Hmiss) in Hev.
    injection Hev as <-.
    match goal with |- StronglySorted _ (slice0 ?n ?l) =>
      destruct (slice0_prefix n l) as [rest Hrest] end.
    eapply StronglySorted_app_l. rewrite <- Hrest. apply sortBy_startCompare_sorted.
Qed.

End ServiceBounds.

(** Instance of X10: the team and HR calendars, a cap of 1 000. *)
Lemma getEventsFromSources_capped_and_sorted_witness :
  exists events,
    fst (CalendarService.getEventsFromSources
           (Samples.backend Samples.eventsBySource []) 0 1
           [Samples.teamCalendar; Samples.hrCalendar] 1000 CacheService.create)
    = JS.Ok events
    /\ Z.of_nat (length events) <= 1000
    /\ ((forall cached : list ICalendarEvent.t,
           fst (CacheService.getCachedAggregatedEvents 0
                  (List.map ICalendarSource.id [Samples.teamCalendar; Samples.hrCalendar])
                  CacheService.create) = Some cached ->
           1000 < Z.of_nat (length cached)) ->
        StronglySorted Aggregation.byStart events).
Proof.
  apply (getEventsFromSources_capped_and_sorted
           (Samples.backend Samples.eventsBySource []) 0 1
           [Samples.teamCalendar; Samples.hrCalendar] 1000 CacheService.create).
  lia.
Defined.

Section SourceCalls.
Import JS CalendarService Aggregation.

(** X11.  How [getEventsFromSource] fails.  A source that does not pass
    validation makes it throw "Invalid calendar source: ..." with the
    messages joined by ", ", before the cache is read.  For a valid source
    with nothing usable cached, a type other than SharePoint and Exchange
    makes it throw "Unsupported calendar source type: ...", and a failure
    of the backend is passed on unchanged. *)
Theorem getEventsFromSource_failures (ext : Collaborators) (now later : Z)
    (source : ICalendarSource.t) (maxEvents : Z)
    (c : CacheService.t (list ICalendarEvent.t)) :
  (validateCalendarSource ext source <> [] ->
   getEventsFromSource ext now later source maxEvents c
   = (Throw ("Invalid calendar source: "
             +:+ join ", " (validateCalendarSource ext source)), c))
  /\ (validateCalendarSource ext source = [] ->
      ICalendarSource.type source <> SharePoint ->
      ICalendarSource.type source <> Exchange ->
      (forall cached,
          fst (CacheService.getCachedEvents now (ICalendarSource.id source) c)
          = Some cached -> maxEvents < Z.of_nat (length cached)) ->
      fst (getEventsFromSource ext now later source maxEvents c)
      = Throw ("Unsupported calendar source type: "
               +:+ sourceTypeName (ICalendarSource.type source)))
  /\ (validateCalendarSource ext source = [] ->
      forall m, fetchFromBackend ext source maxEvents = Throw m ->
      (forall cached,
          fst (CacheService.getCachedEvents now (ICalendarSource.id source) c)
          = Some cached -> maxEvents < Z.of_nat (length cached)) ->
      fst (getEventsFromSource ext now later source maxEvents c) = Throw m).
Proof.
  unfold getEventsFromSource, beginGetEventsFromSource.
  split; [| split].
  - intros Hbad. destruct (validateCalendarSource ext source) as [| e errors];
      [congruence | reflexivity].
  - intros -> Hsp Hex Hmiss. cbn [length Nat.eqb negb].
    destruct (CacheService.getCachedEvents now _ c) as [cached c1]. cbn [fst] in Hmiss.
    assert (Hfin : fst (finishGetEventsFromSource ext later source maxEvents c1)
                   = Throw ("Unsupported calendar source type: "
                            +:+ sourceTypeName (ICalendarSource.type source))).
    { unfold finishGetEventsFromSource, fetchFromBackend.
      destruct (ICalendarSource.type source); try congruence; reflexivity. }
    destruct cached as [cached |]; [| exact Hfin].
    destruct (Z.leb_spec (Z.of_nat (length cached)) maxEvents);
      [specialize (Hmiss cached eq_refl); lia | exact Hfin].
  - intros -> m Hfetch Hmiss. cbn [length Nat.eqb negb].
    destruct (CacheService.getCachedEvents now _ c) as [cached c1]. cbn [fst] in Hmiss.
    assert (Hfin : fst (finishGetEventsFromSource ext later source maxEvents c1) = Throw m).
    { unfold finishGetEventsFromSource. rewrite Hfetch. reflexivity. }
    destruct cached as [cached |]; [| exact Hfin].
    destruct (Z.leb_spec (Z.of_nat (length cached)) maxEvents);
      [specialize (Hmiss cached eq_refl); lia | exact Hfin].
Qed.

(** X12.  A repeated call is served from the cache.  When a call for a
    valid source with nothing usable cached fetches events of which, after
    validation, at most [maxEvents] remain, it returns them, and a second
    call for that source within the cache duration returns the same events
    whatever the backends would answer by then (the second call runs
    against other collaborators, of which only the validity of the source
    is assumed). *)
Theorem getEventsFromSource_repeat_is_served_from_cache (ext ext' : Collaborators)
    (now later now' later' : Z) (source : ICalendarSource.t) (maxEvents : Z)
    (c : CacheService.t (list ICalendarEvent.t)) (fetched : list ICalendarEvent.t) :
  validateCalendarSource ext source = [] ->
  validateCalendarSource ext' source = [] ->
  (forall cached,
      fst (CacheService.getCachedEvents now (ICalendarSource.id source) c) = Some cached ->
      maxEvents < Z.of_nat (length cached)) ->
  fetchFromBackend ext source maxEvents = Ok fetched ->
  Z.of_nat (length (validateAndEnhanceEvents ext fetched source)) <= maxEvents ->
  later <= now' <= later + AppConstants.CACHE_DURATION_MINUTES * 60 * 1000 ->
  fst (getEventsFromSource ext now later source maxEvents c)
  = Ok (validateAndEnhanceEvents ext fetched source)
  /\ fst (getEventsFromSource ext' now' later' source maxEvents
            (snd (getEventsFromSource ext now later source maxEvents c)))
     = Ok (validateAndEnhanceEvents ext fetched source).
Proof.
  intros Hv Hv' Hmiss Hfetch Hlen Hnow.
  set (events := validateAndEnhanceEvents ext fetched source) in *.
  assert (Hfirst : exists c0,
            getEventsFromSource ext now later source maxEvents c
            = (Ok events,
               CacheService.setCachedEvents later (ICalendarSource.id source) events
                 (Some AppConstants.CACHE_DURATION_MINUTES) c0)).
  { unfold getEventsFromSource, beginGetEventsFromSource. rewrite Hv.
    cbn [length Nat.eqb negb].
    destruct (CacheService.getCachedEvents now _ c) as [cached c1]. cbn [fst] in Hmiss.
    exists c1.
    assert (Hfin : finishGetEventsFromSource ext later source maxEvents c1
                   = (Ok events,
                      CacheService.setCachedEvents later (ICalendarSource.id source) events
                        (Some AppConstants.CACHE_DURATION_MINUTES) c1)).
    { unfold finishGetEventsFromSource. rewrite Hfetch. fold events.
      rewrite (slice0_all maxEvents events Hlen). reflexivity. }
    destruct cached as [cached |]; [| exact Hfin].
    destruct (Z.leb_spec (Z.of_nat (length cached)) maxEvents);
      [specialize (Hmiss cached eq_refl); lia | exact Hfin]. }
  destruct Hfirst as [c0 Hfirst]. rewrite Hfirst. cbn [fst snd].
  split; [reflexivity |].
  unfold getEventsFromSource, beginGetEventsFromSource. rewrite Hv'.
  cbn [length Nat.eqb negb].
  pose proof (get_after_set later now'
                (CacheService.generateKey AppConstants.CACHE_EVENTS_KEY
                   (ICalendarSource.id source))
                events AppConstants.CACHE_DURATION_MINUTES c0 ltac:(reflexivity) Hnow)
    as Hhit.
  unfold CacheService.getCachedEvents, CacheService.setCachedEvents.
  destruct (CacheService.get now' _ _) as [cached c2]. cbn [fst] in Hhit. subst cached.
  destruct (Z.leb_spec (Z.of_nat (length events)) maxEvents); [| lia].
  cbn [fst]. rewrite (slice0_all maxEvents events Hlen). reflexivity.
Qed.

(** X13.  [searchEvents] throws for an empty query and for one of white
    space only, leaving the cache as it is; for any other query it returns,
    and for a cap that is not negative at most [maxResults] events; the
    results it computes (nothing cached for the query) hold no two events
    with the same key. *)
Theorem searchEvents_rejects_blank_caps_and_dedups (ext : Collaborators)
    (now later : Z) (sources : list ICalendarSource.t) (query : string)
    (maxResults : Z) (c : CacheService.t (list ICalendarEvent.t)) :
  (query = "" ->
   searchEvents ext now later sources query maxResults c
   = (Throw "Invalid search query: Search query must be a non-empty string", c))
  /\ (query <> "" -> trim query = "" ->
      searchEvents ext now later sources query maxResults c
      = (Throw "Invalid search query: Search query cannot be empty", c))
  /\ (trim query <> "" ->
      exists results,
        fst (searchEvents ext now later sources query maxResults c) = Ok results
        /\ (0 <= maxResults -> Z.of_nat (length results) <= maxResults)
        /\ (fst (CacheService.getCachedSearchResults now query c) = None ->
            NoDup (List.map dedupKey results))).
Proof.
  unfold searchEvents, ValidationUtils.validateSearchQuery.
  split; [| split].
  - intros ->. reflexivity.
  - intros Hq Ht. destruct query as [| ch query]; [congruence |].
    cbn [truthyStr negb]. rewrite Ht. reflexivity.
  - intros Ht.
    assert (Hq : truthyStr query = true).
    { destruct query; [exfalso; apply Ht; reflexivity | reflexivity]. }
    rewrite Hq. cbn [negb].
    destruct (trim query) as [| ch rest] eqn:Htrim; [congruence |].
    cbn [String.length Nat.eqb length negb].
    destruct (CacheService.getCachedSearchResults now query c) as [[cached |] c0];
      cbn [fst]; eexists; (split; [reflexivity |]); split;
      try (intros Hmax; apply length_slice0, Hmax); try discriminate.
    intros _. apply NoDup_keys_sorted_sliced.
    apply (removeDuplicatesFrom_spec _ ∅).
Qed.

End SourceCalls.

(** Instance of X12: the team calendar is fetched at time 1 and asked for
    again at time 2, when the SharePoint backend would answer with no
    events. *)
Lemma getEventsFromSource_repeat_is_served_from_cache_witness :
  let ext := Samples.backend Samples.eventsBySource [] in
  let ext' := Samples.backend (fun _ => []) [] in
  let events :=
    CalendarService.validateAndEnhanceEvents ext [Samples.event "1" "Sync" 2000]
      Samples.teamCalendar in
  fst (CalendarService.getEventsFromSource ext 0 1 Samples.teamCalendar 1000
         CacheService.create) = JS.Ok events
  /\ fst (CalendarService.getEventsFromSource ext' 2 3 Samples.teamCalendar 1000
            (snd (CalendarService.getEventsFromSource ext 0 1 Samples.teamCalendar 1000
                    CacheService.create))) = JS.Ok events.
Proof.
  apply (getEventsFromSource_repeat_is_served_from_cache
           (Samples.backend Samples.eventsBySource [])
           (Samples.backend (fun _ => []) []) 0 1 2 3 Samples.teamCalendar 1000
           CacheService.create [Samples.event "1" "Sync" 2000]).
  - reflexivity.
  - reflexivity.
  - intros cached Hcached. vm_compute in Hcached. discriminate.
  - reflexivity.
  - vm_compute. discriminate.
  - vm_compute. split; discriminate.
Defined.

(** *** Calendar sources and date ranges *)

Section Sources.
Import JS CalendarService Aggregation.

Lemma initialize_initialized st : isInitialized (initialize st) = true.
Proof. unfold initialize. destruct (isInitialized st) eqn:H; [exact H | reflexivity]. Qed.

Lemma initialize_idem st : isInitialized st = true -> initialize st = st.
Proof. unfold initialize. intros ->. reflexivity. Qed.

(** X14.  The cache of calendar sources is shared by both modes of
    [getCalendarSources].  A call that finds nothing cached returns the
    enhanced sources of the backends it asked and caches them; a later call
    within the cache duration asks no backend: with [includeExchange] true
    it returns the first call's list as it is, also when the first call
    left Exchange out, and with [includeExchange] false it returns the
    SharePoint sources of that list. *)
Theorem getCalendarSources_cache_shared_between_modes (ext : Collaborators)
    (sharePointCalendars exchangeCalendars sharePointCalendars' exchangeCalendars' :
       result (list ICalendarSource.t))
    (now later now' later' : Z) (includeExchange : bool) (st : SourcesState) :
  fst (CacheService.getCachedSources now (sourcesCache (initialize st))) = None ->
  later <= now' <= later + AppConstants.CACHE_DURATION_MINUTES * 60 * 1000 ->
  let first :=
    getCalendarSources ext sharePointCalendars exchangeCalendars now later
      includeExchange st in
  fst first
  = validateAndEnhanceSources ext
      (orNone sharePointCalendars
       ++ (if includeExchange then orNone exchangeCalendars else []))
  /\ fst (getCalendarSources ext sharePointCalendars' exchangeCalendars' now' later'
            true (snd first)) = fst first
  /\ fst (getCalendarSources ext sharePointCalendars' exchangeCalendars' now' later'
            false (snd first)) = List.filter isSharePoint (fst first).
Proof.
  intros Hmiss Hnow first.
  set (validated := validateAndEnhanceSources ext
         (orNone sharePointCalendars
          ++ (if includeExchange then orNone exchangeCalendars else []))).
  assert (Hfirst : exists c1,
            first = (validated,
                     {| isInitialized := true;
                        sourcesCache :=
                          CacheService.setCachedSources later validated
                            (Some AppConstants.CACHE_DURATION_MINUTES) c1 |})).
  { subst first. unfold getCalendarSources.
    destruct (CacheService.getCachedSources now (sourcesCache (initialize st)))
      as [cached c1]. cbn [fst] in Hmiss. subst cached.
    exists c1. rewrite initialize_initialized. reflexivity. }
  destruct Hfirst as [c1 ->]. cbn [fst snd].
  split; [reflexivity |].
  pose proof (get_after_set later now'
                (CacheService.generateKey AppConstants.CACHE_SOURCES_KEY "all")
                validated AppConstants.CACHE_DURATION_MINUTES c1 ltac:(reflexivity) Hnow)
    as Hhit.
  unfold getCalendarSources. rewrite initialize_idem by reflexivity.
  unfold CacheService.getCachedSources. cbn [sourcesCache].
  unfold CacheService.setCachedSources.
  destruct (CacheService.get now' _ _) as [cached c2]. cbn [fst] in Hhit. subst cached.
  split; reflexivity.
Qed.

(** X15.  [getEventsForDateRange] throws, leaving the cache untouched, when
    the end date is not after the start date, and [getEventConflicts] then
    reports no conflict; otherwise it returns, for a cap that is not
    negative at most [maxEvents] events, and what it computes (nothing
    cached for the range) holds no two events with the same key and is
    ordered by start time. *)
Theorem getEventsForDateRange_checks_dedups_sorts
    (sharePointRange exchangeRange :
       list ICalendarSource.t -> Z -> Z -> Z -> result (list ICalendarEvent.t))
    (now later : Z) (sources : list ICalendarSource.t) (startDate endDate : Z)
    (maxEvents : Z) (c : CacheService.t (list ICalendarEvent.t)) :
  (endDate <= startDate ->
   getEventsForDateRange sharePointRange exchangeRange now later sources
     startDate endDate maxEvents c
   = (Throw "Invalid date range: End date must be after start date", c)
   /\ getEventConflicts
        (fst (getEventsForDateRange sharePointRange exchangeRange now later sources
                startDate endDate maxEvents c)) = [])
  /\ (startDate < endDate ->
      exists events,
        fst (getEventsForDateRange sharePointRange exchangeRange now later sources
               startDate endDate maxEvents c) = Ok events
        /\ (0 <= maxEvents -> Z.of_nat (length events) <= maxEvents)
        /\ (fst (CacheService.getCachedDateRangeEvents now startDate endDate
                   (List.map ICalendarSource.id sources) c) = None ->
            NoDup (List.map dedupKey events) /\ StronglySorted byStart events)).
Proof.
  unfold getEventsForDateRange, ValidationUtils.validateDateRange,
    ValidationUtils.resultOf.
  cbn [ValidationUtils.isValid ValidationUtils.errors].
  split.
  - intros Hinv. destruct (Z.leb_spec endDate startDate); [| lia].
    cbn [length Nat.eqb negb List.map]. split; reflexivity.
  - intros Hok. destruct (Z.leb_spec endDate startDate); [lia |].
    cbn [length Nat.eqb negb].
    destruct (CacheService.getCachedDateRangeEvents now startDate endDate _ c)
      as [[cached |] c0]; cbn [fst]; eexists; (split; [reflexivity |]); split;
      try (intros Hmax; apply length_slice0, Hmax); try discriminate.
    intros _. split.
    + apply NoDup_keys_sorted_sliced. apply (removeDuplicatesFrom_spec _ ∅).
    + match goal with |- StronglySorted _ (slice0 ?n ?l) =>
        destruct (slice0_prefix n l) as [rest Hrest] end.
      eapply StronglySorted_app_l. rewrite <- Hrest. apply sortBy_startCompare_sorted.
Qed.

End Sources.

(** Instance of X14: a first call with Exchange included at time 1, then
    calls at time 2 while both backends are unreachable. *)
Lemma getCalendarSources_cache_shared_between_modes_witness :
  let ext := Samples.backend Samples.eventsBySource [] in
  let first :=
    CalendarService.getCalendarSources ext
      (JS.Ok [Samples.teamCalendar]) (JS.Ok [Samples.mailboxCalendar]) 0 1 true
      (CalendarService.mkSourcesState false CacheService.create) in
  fst first
  = CalendarService.validateAndEnhanceSources ext
      (CalendarService.orNone (JS.Ok [Samples.teamCalendar])
       ++ CalendarService.orNone (JS.Ok [Samples.mailboxCalendar]))
  /\ fst (CalendarService.getCalendarSources ext (JS.Throw "offline") (JS.Throw "offline")
            2 3 true (snd first)) = fst first
  /\ fst (CalendarService.getCalendarSources ext (JS.Throw "offline") (JS.Throw "offline")
            2 3 false (snd first))
     = List.filter CalendarService.isSharePoint (fst first).
Proof.
  apply (getCalendarSources_cache_shared_between_modes
           (Samples.backend Samples.eventsBySource [])
           (JS.Ok [Samples.teamCalendar]) (JS.Ok [Samples.mailboxCalendar])
           (JS.Throw "offline") (JS.Throw "offline") 0 1 2 3 true
           (CalendarService.mkSourcesState false CacheService.create)).
  - reflexivity.
  - vm_compute. split; discriminate.
Defined.

(** *** Filters on event lists *)

Section Filters.
Import JS CalendarService Aggregation.

Lemma whenListed_filter criterion keep :
  exists p, forall events, whenListed criterion keep events = List.filter p events.
Proof.
  destruct criterion as [[| x xs] |];
    [exists (fun _ => true) | exists (keep (x :: xs)) | exists (fun _ => true)];
    intros events; cbn [whenListed]; try reflexivity; symmetry; apply filter_all.
Qed.

Lemma whenDefined_filter criterion keep :
  exists p, forall events, whenDefined criterion keep events = List.filter p events.
Proof.
  destruct criterion as [b |]; [exists (keep b) | exists (fun _ => true)];
    intros events; cbn [whenDefined]; try reflexivity; symmetry; apply filter_all.
Qed.

Lemma applyAdvancedFilters_filter criteria :
  exists p, forall events, applyAdvancedFilters events criteria = List.filter p events.
Proof.
  unfold applyAdvancedFilters. cbv zeta.
  refine (compose_filters _ (whenListed _ _) _ (whenListed_filter _ _)).
  refine (compose_filters _ (whenDefined _ _) _ (whenDefined_filter _ _)).
  refine (compose_filters _ (whenDefined _ _) _ (whenDefined_filter _ _)).
  refine (compose_filters _ (whenDefined _ _) _ (whenDefined_filter _ _)).
  refine (compose_filters _ (whenListed _ _) _ (whenListed_filter _ _)).
  refine (compose_filters _ (whenListed _ _) _ (whenListed_filter _ _)).
  refine (compose_filters _ (whenListed _ _) _ (whenListed_filter _ _)).
  refine (compose_filters _ (whenListed _ _) _ (whenListed_filter _ _)).
  apply whenListed_filter.
Qed.

Lemma In_whenListed criterion keep e l :
  In e (whenListed criterion keep l) -> In e l.
Proof.
  destruct criterion as [[| x xs] |]; cbn [whenListed]; auto.
  intros H. apply filter_In in H. tauto.
Qed.

Lemma In_whenDefined criterion keep e l :
  In e (whenDefined criterion keep l) -> In e l.
Proof.
  destruct criterion as [b |]; cbn [whenDefined]; auto.
  intros H. apply filter_In in H. tauto.
Qed.

(** X16.  [applyAdvancedFilters] only removes events: its result is a
    sublist of its input, in the input's order; applying it again with the
    same criteria changes nothing; criteria whose lists are absent or empty
    and whose flags are absent remove nothing; and with a non-empty list of
    categories every event kept has a non-empty category of that list. *)
Theorem applyAdvancedFilters_narrows (events : list ICalendarEvent.t)
    (criteria : IEventSearchCriteria.t) :
  sublist (applyAdvancedFilters events criteria) events
  /\ applyAdvancedFilters (applyAdvancedFilters events criteria) criteria
     = applyAdvancedFilters events criteria
  /\ (unsetList (IEventSearchCriteria.categories criteria) ->
      unsetList (IEventSearchCriteria.organizers criteria) ->
      unsetList (IEventSearchCriteria.attendees criteria) ->
      unsetList (IEventSearchCriteria.importance criteria) ->
      unsetList (IEventSearchCriteria.sensitivity criteria) ->
      unsetList (IEventSearchCriteria.tags criteria) ->
      IEventSearchCriteria.hasAttachments criteria = None ->
      IEventSearchCriteria.isRecurring criteria = None ->
      IEventSearchCriteria.isAllDay criteria = None ->
      applyAdvancedFilters events criteria = events)
  /\ (forall (categories : list string) (e : ICalendarEvent.t),
        IEventSearchCriteria.categories criteria = Some categories ->
        categories <> [] ->
        In e (applyAdvancedFilters events criteria) ->
        exists category, ICalendarEvent.category e = Some category
                         /\ category <> "" /\ In category categories).
Proof.
  destruct (applyAdvancedFilters_filter criteria) as [p Hp].
  split; [| split; [| split]].
  - rewrite Hp. apply filter_sublist.
  - rewrite !Hp, filter_twice. apply List.filter_ext. intros x. destruct (p x); reflexivity.
  - unfold applyAdvancedFilters, unsetList.
    intros [-> | ->] [-> | ->] [-> | ->] [-> | ->] [-> | ->] [-> | ->] -> -> ->;
      reflexivity.
  - intros categories e Hc Hne Hin. unfold applyAdvancedFilters in Hin. cbv zeta in Hin.
    apply In_whenListed, In_whenDefined, In_whenDefined, In_whenDefined,
      In_whenListed, In_whenListed, In_whenListed, In_whenListed in Hin.
    rewrite Hc in Hin.
    destruct categories as [| x xs]; [congruence |]. cbn [whenListed] in Hin.
    apply filter_In in Hin. destruct Hin as [_ Hin]. unfold optionIncluded in Hin.
    destruct (ICalendarEvent.category e) as [category |]; [| discriminate].
    apply andb_true_iff in Hin. destruct Hin as [Ht Hi].
    exists category. repeat split.
    + intros ->. discriminate.
    + unfold includesString in Hi. apply existsb_exists in Hi.
      destruct Hi as [y [Hy Heq]]. apply String.eqb_eq in Heq. subst. exact Hy.
Qed.

Lemma splitOn_nonempty sep s : splitOn sep s <> [].
Proof.
  destruct s as [| c s]; cbn [splitOn]; [discriminate |].
  destruct (Ascii.eqb c sep); [discriminate |].
  destruct (splitOn sep s); discriminate.
Qed.

Lemma splitOn_app sep a b :
  splitOn sep (a +:+ String sep b) = splitOn sep a ++ splitOn sep b.
Proof.
  induction a as [| c a IH].
  - change ("" +:+ String sep b) with (String sep b). cbn [splitOn].
    rewrite Ascii.eqb_refl. reflexivity.
  - change (String c a +:+ String sep b) with (String c (a +:+ String sep b)).
    cbn [splitOn]. rewrite IH.
    destruct (Ascii.eqb c sep); [reflexivity |].
    pose proof (splitOn_nonempty sep a).
    destruct (splitOn sep a) as [| piece rest]; [congruence | reflexivity].
Qed.

Lemma searchTerms_app q1 q2 :
  searchTerms (q1 +:+ " " +:+ q2) = searchTerms q1 ++ searchTerms q2.
Proof.
  unfold searchTerms. rewrite StringFacts.toLowerCase_app.
  change (toLowerCase (" " +:+ q2)) with (String space (toLowerCase q2)).
  rewrite splitOn_app, List.filter_app. reflexivity.
Qed.

Lemma searchTerms_spaces n : searchTerms (spaces n) = [].
Proof.
  unfold searchTerms. induction n as [| n IH]; [reflexivity |].
  cbn [spaces toLowerCase]. change (lowerChar space) with space.
  cbn [splitOn]. rewrite Ascii.eqb_refl. cbn [List.filter String.length Nat.ltb Nat.leb].
  exact IH.
Qed.

(** X17.  [filterEventsByQuery] treats the query as a conjunction of its
    space-separated terms: the result is a sublist of the input, a query of
    spaces only keeps every event, the query [q1 q2] filters as [q1]
    followed by [q2], and the order of the two parts does not matter. *)
Theorem filterEventsByQuery_terms_narrow (events : list ICalendarEvent.t) :
  (forall query, sublist (filterEventsByQuery events query) events)
  /\ (forall n, filterEventsByQuery events (spaces n) = events)
  /\ (forall q1 q2,
        filterEventsByQuery events (q1 +:+ " " +:+ q2)
        = filterEventsByQuery (filterEventsByQuery events q1) q2)
  /\ (forall q1 q2,
        filterEventsByQuery events (q1 +:+ " " +:+ q2)
        = filterEventsByQuery events (q2 +:+ " " +:+ q1)).
Proof.
  split; [| split; [| split]].
  - intros query. apply filter_sublist.
  - intros n. unfold filterEventsByQuery. rewrite searchTerms_spaces.
    cbn [forallb]. apply filter_all.
  - intros q1 q2. unfold filterEventsByQuery. rewrite searchTerms_app, filter_twice.
    apply List.filter_ext. intros e. apply forallb_app.
  - intros q1 q2. unfold filterEventsByQuery. rewrite !searchTerms_app.
    apply List.filter_ext. intros e. rewrite !forallb_app. apply andb_comm.
Qed.

End Filters.

(** *** Colours and enhanced events *)

Section Colours.
Import JS ColorUtils CalendarService.

Lemma toInt32_range x : -2147483648 <= toInt32 x < 2147483648.
Proof. unfold toInt32. pose proof (Z.mod_pos_bound (x + 2147483648) 4294967296). lia. Qed.

Lemma hashFrom_range str : forall hash,
  -2147483648 <= hash < 2147483648 -> -2147483648 <= hashFrom hash str < 2147483648.
Proof.
  induction str as [| c str IH]; intros hash Hh; cbn [hashFrom]; [exact Hh |].
  apply IH. unfold hashStep. apply toInt32_range.
Qed.

Lemma at_palette index :
  0 <= index < 20 -> exists color, at_ DEFAULT_COLORS index = Some color
                                   /\ In color DEFAULT_COLORS.
Proof.
  intros Hi. unfold at_. destruct (Z.ltb_spec index 0); [lia |].
  destruct (DEFAULT_COLORS !! Z.to_nat index) as [color |] eqn:Hl.
  - exists color. split; [reflexivity |].
    apply list_elem_of_In, list_elem_of_lookup. eauto.
  - apply lookup_ge_None in Hl. cbn in Hl. lia.
Qed.

Lemma generateColorFromString_palette (str : string) :
  exists color, ColorUtils.generateColorFromString str = Some color
                /\ In color DEFAULT_COLORS.
Proof.
  unfold ColorUtils.generateColorFromString.
  apply at_palette. change (Z.of_nat (length DEFAULT_COLORS)) with 20.
  pose proof (hashFrom_range str 0 ltac:(lia)).
  pose proof (Z.rem_bound_pos (Z.abs (hashFrom 0 str)) 20 ltac:(lia) ltac:(lia)). lia.
Qed.

(** X19.  Colours come from the palette.  [generateColorFromString] returns
    a colour of [DEFAULT_COLORS] for every string, the empty one included.
    [getColorByIndex] returns a palette colour for every index that is not
    negative and wraps around after the 20 colours, but for a negative
    index that is no multiple of 20 it returns nothing ([undefined]). *)
Theorem generated_colour_is_from_palette :
  (forall str : string,
      exists color, ColorUtils.generateColorFromString str = Some color
                    /\ In color DEFAULT_COLORS)
  /\ (forall index : Z,
        0 <= index ->
        exists color, getColorByIndex index = Some color /\ In color DEFAULT_COLORS
                      /\ getColorByIndex (index + 20) = Some color)
  /\ (forall index : Z, index < 0 -> Z.rem index 20 <> 0 -> getColorByIndex index = None).
Proof.
  split; [| split].
  - apply generateColorFromString_palette.
  - intros index Hi. unfold getColorByIndex.
    change (Z.of_nat (length DEFAULT_COLORS)) with 20.
    assert (Hrem : Z.rem (index + 20) 20 = Z.rem index 20).
    { rewrite !Z.rem_mod_nonneg by lia.
      replace (index + 20) with (index + 1 * 20) by lia. apply Z.mod_add. lia. }
    rewrite Hrem.
    destruct (at_palette (Z.rem index 20)) as [color [Hc Hin]].
    { apply Z.rem_bound_pos; lia. }
    exists color. auto.
  - intros index Hneg Hrem. unfold getColorByIndex, at_.
    change (Z.of_nat (length DEFAULT_COLORS)) with 20.
    pose proof (Z.rem_bound_pos_neg index 20 ltac:(lia) ltac:(lia)).
    destruct (Z.ltb_spec (Z.rem index 20) 0); [reflexivity | lia].
Qed.

Lemma palette_truthy color : In color DEFAULT_COLORS -> truthyStr color = true.
Proof.
  intros Hin. apply list_elem_of_In in Hin. unfold DEFAULT_COLORS in Hin.
  repeat (apply elem_of_cons in Hin; destruct Hin as [-> | Hin]; [reflexivity |]).
  apply elem_of_nil in Hin. destruct Hin.
Qed.

(** X18.  What [validateAndEnhanceEvents] returns, when the colour generator
    is the one of [ColorUtils]: every event carries the title and the type
    of the source and a non-empty colour; every event is one of the given
    events that passed validation, with its id, title, start and end
    unchanged; and no event is added. *)
Theorem validateAndEnhanceEvents_labels_and_colours (ext : Collaborators)
    (events : list ICalendarEvent.t) (source : ICalendarSource.t) :
  (forall str, Some (generateColorFromString ext str) = ColorUtils.generateColorFromString str) ->
  Forall (fun e => ICalendarEvent.calendarTitle e = ICalendarSource.title source
                   /\ ICalendarEvent.calendarType e = ICalendarSource.type source
                   /\ truthyStr (ICalendarEvent.color e) = true)
    (validateAndEnhanceEvents ext events source)
  /\ Forall (fun e => exists original, In original events
                        /\ validateCalendarEvent ext original = true
                        /\ ICalendarEvent.id e = ICalendarEvent.id original
                        /\ ICalendarEvent.title e = ICalendarEvent.title original
                        /\ ICalendarEvent.start e = ICalendarEvent.start original
                        /\ ICalendarEvent.end_ e = ICalendarEvent.end_ original)
       (validateAndEnhanceEvents ext events source)
  /\ (length (validateAndEnhanceEvents ext events source) <= length events)%nat.
Proof.
  intros Hcolour.
  induction events as [| x events IH]; cbn [validateAndEnhanceEvents];
    [repeat split; constructor |].
  destruct IH as (IH1 & IH2 & IH3).
  assert (IH2' : Forall (fun e => exists original, In original (x :: events)
                        /\ validateCalendarEvent ext original = true
                        /\ ICalendarEvent.id e = ICalendarEvent.id original
                        /\ ICalendarEvent.title e = ICalendarEvent.title original
                        /\ ICalendarEvent.start e = ICalendarEvent.start original
                        /\ ICalendarEvent.end_ e = ICalendarEvent.end_ original)
       (validateAndEnhanceEvents ext events source)).
  { eapply List.Forall_impl; [| exact IH2].
    intros e (o & Hin & Hrest). exists o. split; [right; exact Hin | exact Hrest]. }
  destruct (validateCalendarEvent ext x) eqn:Hx;
    [| repeat split; [exact IH1 | exact IH2' | cbn [length]; lia]].
  repeat split; [| | cbn [length]; lia].
  - constructor; [| exact IH1]. cbn [enhanceEvent ICalendarEvent.calendarTitle
      ICalendarEvent.calendarType ICalendarEvent.color].
    repeat split.
    destruct (truthyStr (ICalendarEvent.color x)) eqn:Hc; [exact Hc |].
    destruct (truthyStr (ICalendarSource.color source)) eqn:Hs; [exact Hs |].
    destruct (generateColorFromString_palette (ICalendarSource.title source))
      as [color [Hgen Hin]].
    rewrite <- Hcolour in Hgen. injection Hgen as ->.
    apply palette_truthy, Hin.
  - constructor; [| exact IH2'].
    exists x. repeat split; [left; reflexivity | exact Hx].
Qed.
End Colours.

(** Instance of X18: two events of the team calendar, coloured by the
    generator of [ColorUtils]. *)
Lemma validateAndEnhanceEvents_labels_and_colours_witness :
  let ext :=
    {| CalendarService.validateCalendarSource := fun _ => [];
       CalendarService.validateCalendarEvent := fun _ => true;
       CalendarService.generateColorFromString :=
         fun str => match ColorUtils.generateColorFromString str with
                    | Some color => color
                    | None => "undefined"
                    end;
       CalendarService.sharePoint_getEventsFromCalendar := fun _ _ => JS.Ok [];
       CalendarService.exchange_getEventsFromCalendar := fun _ _ => JS.Ok [];
       CalendarService.sharePoint_searchEvents := fun _ _ _ => JS.Ok [];
       CalendarService.exchange_searchEvents := fun _ _ _ => JS.Ok [] |} in
  let events := [Samples.event "1" "Sync" 2000; Samples.event "2" "Review" 1000] in
  Forall (fun e => ICalendarEvent.calendarTitle e
                   = ICalendarSource.title Samples.teamCalendar
                   /\ ICalendarEvent.calendarType e
                      = ICalendarSource.type Samples.teamCalendar
                   /\ JS.truthyStr (ICalendarEvent.color e) = true)
    (CalendarService.validateAndEnhanceEvents ext events Samples.teamCalendar)
  /\ Forall (fun e => exists original, In original events
                        /\ CalendarService.validateCalendarEvent ext original = true
                        /\ ICalendarEvent.id e = ICalendarEvent.id original
                        /\ ICalendarEvent.title e = ICalendarEvent.title original
                        /\ ICalendarEvent.start e = ICalendarEvent.start original
                        /\ ICalendarEvent.end_ e = ICalendarEvent.end_ original)
       (CalendarService.validateAndEnhanceEvents ext events Samples.teamCalendar)
  /\ (length (CalendarService.validateAndEnhanceEvents ext events Samples.teamCalendar)
      <= length events)%nat.
Proof.
  intros ext events.
  apply (validateAndEnhanceEvents_labels_and_colours ext events Samples.teamCalendar).
  intros str. subst ext. cbn [CalendarService.generateColorFromString].
  destruct (generateColorFromString_palette str) as [color [-> _]]. reflexivity.
Defined.

(** *** Recurrence: validators and single steps *)

Section Validators.
Import JS JSDate Moment RecurrenceUtils Expansion NextOccurrence ExpansionFacts.

Lemma validators_report_equally_many_errors (pattern : IRecurrencePattern.t) :
  length (ValidationUtils.errors
            (ValidationUtils.validateRecurrencePattern (PatternObject.ofPattern pattern)))
  = length (validateRecurrencePattern pattern).
Proof.
  unfold ValidationUtils.validateRecurrencePattern, validateRecurrencePattern,
    ValidationUtils.resultOf, PatternObject.ofPattern.
  cbn [ValidationUtils.errors PatternObject.type PatternObject.interval
       PatternObject.daysOfWeek PatternObject.dayOfMonth PatternObject.weekOfMonth
       PatternObject.monthOfYear PatternObject.endDate PatternObject.occurrences].
  cbv zeta.
  rewrite !length_app. unfold truthy.
  f_equal; [destruct (IRecurrencePattern.interval pattern =? 0); cbn [negb orb];
            [reflexivity | destruct (IRecurrencePattern.interval pattern <? 1); reflexivity] |].
  f_equal; [destruct (Z.eqb_spec (IRecurrencePattern.interval pattern) 0) as [-> | ?];
            cbn [negb andb]; [reflexivity |
              destruct (999 <? IRecurrencePattern.interval pattern); reflexivity] |].
  f_equal.
  - destruct (IRecurrencePattern.type pattern); try reflexivity.
    + destruct (IRecurrencePattern.daysOfWeek pattern) as [days |]; [| reflexivity].
      rewrite length_app.
      destruct days as [| d days]; [reflexivity |]. cbn [length Nat.eqb].
      destruct (Nat.ltb 0 _); reflexivity.
    + rewrite !length_app. f_equal.
      * destruct (IRecurrencePattern.dayOfMonth pattern) as [d |]; [| reflexivity].
        destruct (_ && _); reflexivity.
      * destruct (IRecurrencePattern.weekOfMonth pattern) as [w |]; [| reflexivity].
        destruct (_ && _); reflexivity.
    + rewrite !length_app. f_equal.
      * destruct (IRecurrencePattern.monthOfYear pattern) as [m |]; [| reflexivity].
        destruct (_ && _); reflexivity.
      * destruct (IRecurrencePattern.dayOfMonth pattern) as [d |]; [| reflexivity].
        destruct (_ && _); reflexivity.
  - f_equal.
    + destruct (IRecurrencePattern.endDate pattern); [| reflexivity].
      cbn [option_map].
      destruct (match IRecurrencePattern.occurrences pattern with
                | Some n => negb (n =? 0) | None => false end); reflexivity.
    + replace (length match option_map PatternObject.DateAt
                              (IRecurrencePattern.endDate pattern) with
                      | Some date =>
                          if PatternObject.isNaNTime date
                          then [ValidationUtils.mkError "endDate" "Invalid end date format"
                                  "INVALID_END_DATE"]
                          else []
                      | None => []
                      end) with 0%nat
        by (destruct (IRecurrencePattern.endDate pattern); reflexivity).
      cbn [Nat.add].
      destruct (IRecurrencePattern.occurrences pattern) as [n |]; [| reflexivity].
      rewrite !length_app. f_equal; destruct (_ && _); reflexivity.
Qed.

(** X20.  The two validators of recurrence patterns agree on every pattern
    whose end date, if it has one, is a valid date:
    [ValidationUtils.validateRecurrencePattern] declares it valid exactly
    when [RecurrenceUtils.isValidPattern] does, and reports as many errors
    as [RecurrenceUtils.validateRecurrencePattern] returns messages.  The
    former alone looks at the end date itself: whatever else an object
    holds, an end date that is an invalid [Date] makes it invalid, with the
    error [INVALID_END_DATE]. *)
Theorem recurrence_validators_agree_on_valid_end_dates :
  (forall pattern : IRecurrencePattern.t,
      ValidationUtils.isValid
        (ValidationUtils.validateRecurrencePattern (PatternObject.ofPattern pattern))
      = isValidPattern pattern
      /\ length (ValidationUtils.errors
                   (ValidationUtils.validateRecurrencePattern
                      (PatternObject.ofPattern pattern)))
         = length (validateRecurrencePattern pattern))
  /\ (forall object : PatternObject.t,
        PatternObject.endDate object = Some PatternObject.InvalidDate ->
        ValidationUtils.isValid (ValidationUtils.validateRecurrencePattern object) = false
        /\ In (ValidationUtils.mkError "endDate" "Invalid end date format"
                 "INVALID_END_DATE")
              (ValidationUtils.errors (ValidationUtils.validateRecurrencePattern object))).
Proof.
  split.
  - intros pattern. split; [| apply validators_report_equally_many_errors].
    unfold isValidPattern. rewrite <- validators_report_equally_many_errors. reflexivity.
  - intros object Hend.
    assert (Hin : In (ValidationUtils.mkError "endDate" "Invalid end date format"
                        "INVALID_END_DATE")
                     (ValidationUtils.errors
                        (ValidationUtils.validateRecurrencePattern object))).
    { unfold ValidationUtils.validateRecurrencePattern, ValidationUtils.resultOf.
      cbn [ValidationUtils.errors]. cbv zeta. rewrite Hend.
      cbn [PatternObject.isNaNTime].
      do 4 (apply in_or_app; right). apply in_or_app. left. left. reflexivity. }
    split; [| exact Hin].
    unfold ValidationUtils.validateRecurrencePattern, ValidationUtils.resultOf in *.
    cbn [ValidationUtils.isValid ValidationUtils.errors] in *.
    destruct (_ ++ _) as [| e errors]; [destruct Hin | reflexivity].
Qed.

(** X21.  When a pattern built by [createSimplePattern] is valid.  The type
    never matters (no list of week days and no day of the month is set, so
    a weekly pattern is accepted without days); an interval that is given
    must lie in 1..999, since 0 and negative values are passed on and not
    replaced by the default 1; and an occurrence count that is given must
    be 0, or lie in 1..999 with no end date beside it. *)
Theorem createSimplePattern_valid_iff (type : RecurrenceType) (interval : option Z)
    (endDate occurrences : option Z) :
  isValidPattern (createSimplePattern type interval endDate occurrences) = true
  <-> (match interval with Some n => 1 <= n <= 999 | None => True end)
      /\ (match occurrences with
          | Some count => count = 0 \/ (1 <= count <= 999 /\ endDate = None)
          | None => True
          end).
Proof.
  unfold isValidPattern. rewrite Nat.eqb_eq, length_zero_iff_nil.
  unfold validateRecurrencePattern, createSimplePattern, truthy.
  cbn [IRecurrencePattern.type IRecurrencePattern.interval IRecurrencePattern.daysOfWeek
       IRecurrencePattern.dayOfMonth IRecurrencePattern.weekOfMonth
       IRecurrencePattern.monthOfYear IRecurrencePattern.endDate
       IRecurrencePattern.occurrences].
  match goal with
  | |- context [match type with daily => ?a | weekly => ?b | monthly => ?c
                | yearly => ?d | weekdays => ?e | custom => ?f end] =>
      replace (match type with daily => a | weekly => b | monthly => c
               | yearly => d | weekdays => e | custom => f end)
        with (@nil string) by (destruct type; reflexivity)
  end.
  destruct interval as [n |], endDate as [e |], occurrences as [count |];
    try (destruct (Z.eqb_spec count 0) as [-> | Hcount]);
    cbn [negb andb orb app Z.eqb Z.ltb Z.compare Pos.compare Pos.compare_cont];
    repeat match goal with
    | |- context [Z.eqb ?a ?b] => destruct (Z.eqb_spec a b)
    | |- context [Z.ltb ?a ?b] => destruct (Z.ltb_spec a b)
    end;
    cbn [negb andb orb app];
    (split; [intros Hnil; try discriminate Hnil | intros [Hi Ho]]);
    try (exfalso; lia);
    try (destruct Ho as [Ho | [Ho He]]; try discriminate He; exfalso; lia);
    try reflexivity;
    try (split; [try exact I; lia | try exact I; first [left; lia | right; split; [lia | reflexivity]]]).
Qed.

(** X22.  For a valid pattern [getNextOccurrenceDate] returns a date, and
    that date is strictly later than the start of the event. *)
Theorem getNextOccurrenceDate_is_later (event : ICalendarEvent.t)
    (pattern : IRecurrencePattern.t) :
  isValidPattern pattern = true ->
  exists next,
    getNextOccurrenceDate event (Some pattern) = Some next
    /\ ICalendarEvent.start event < next.
Proof.
  intros Hv. eexists. split; [reflexivity |].
  apply getNextOccurrence_later, isValidPattern_fieldsInRange, Hv.
Qed.

End Validators.

(** Instance of X22: the weekly Monday-Wednesday-Friday pattern. *)
Lemma getNextOccurrenceDate_is_later_witness :
  exists next,
    RecurrenceUtils.getNextOccurrenceDate (Samples.event "1" "Sync" 2000)
      (Some Samples.weeklyMonWedFri) = Some next
    /\ ICalendarEvent.start (Samples.event "1" "Sync" 2000) < next.
Proof.
  apply (getNextOccurrenceDate_is_later (Samples.event "1" "Sync" 2000)
           Samples.weeklyMonWedFri).
  vm_compute. reflexivity.
Defined.

Section Steps.
Import JS JSDate JSDateFacts Months MonthsFacts Moment MomentFacts MomentMonths
  RecurrenceUtils Expansion NextOccurrence.

Lemma doWhile_unfold {S : Type} (body : S -> S) (cond : S -> bool) (left : S -> nat)
    (H : forall s, cond (body s) = true -> (left (body (body s)) < left (body s))%nat)
    (s : S) :
  doWhile body cond left H s
  = if cond (body s) then doWhile body cond left H (body s) else body s.
Proof.
  funelim (doWhile body cond left H s).
  - match goal with E : cond (body s) = true |- _ => rewrite E end. reflexivity.
  - match goal with E : cond (body s) = false |- _ => rewrite E end. reflexivity.
Qed.

Lemma skipWeekend_unfold t :
  skipWeekend t = if isWeekend (addDays 1 t) then skipWeekend (addDays 1 t)
                  else addDays 1 t.
Proof. unfold skipWeekend. apply doWhile_unfold. Qed.

Lemma day_plus_days t k : day (t + k * msPerDay) = (day t + k) mod 7.
Proof. unfold day. apply WeekDay_shift. Qed.

Lemma skipWeekend_exact t :
  skipWeekend t
  = t + (if day t =? 5 then 3 else if day t =? 6 then 2 else 1) * msPerDay.
Proof.
  pose proof (WeekDay_range t) as Hr. fold (day t) in Hr.
  assert (H1 : addDays 1 t = t + 1 * msPerDay) by apply addDays_shift.
  assert (H2 : addDays 1 (t + 1 * msPerDay) = t + 2 * msPerDay)
    by (rewrite addDays_shift; lia).
  assert (H3 : addDays 1 (t + 2 * msPerDay) = t + 3 * msPerDay)
    by (rewrite addDays_shift; lia).
  assert (D1 := day_plus_days t 1).
  assert (D2 := day_plus_days t 2).
  assert (D3 := day_plus_days t 3).
  destruct (Z.eqb_spec (day t) 5) as [E5 | N5].
  - rewrite E5 in D1, D2, D3. change ((5 + 1) mod 7) with 6 in D1.
    change ((5 + 2) mod 7) with 0 in D2. change ((5 + 3) mod 7) with 1 in D3.
    rewrite skipWeekend_unfold, H1. unfold isWeekend at 1. rewrite D1. cbn [Z.eqb orb].
    rewrite skipWeekend_unfold, H2. unfold isWeekend at 1. rewrite D2. cbn [Z.eqb orb].
    rewrite skipWeekend_unfold, H3. unfold isWeekend at 1. rewrite D3. reflexivity.
  - destruct (Z.eqb_spec (day t) 6) as [E6 | N6].
    + rewrite E6 in D1, D2. change ((6 + 1) mod 7) with 0 in D1.
      change ((6 + 2) mod 7) with 1 in D2.
      rewrite skipWeekend_unfold, H1. unfold isWeekend at 1. rewrite D1. cbn [Z.eqb orb].
      rewrite skipWeekend_unfold, H2. unfold isWeekend at 1. rewrite D2. reflexivity.
    + rewrite skipWeekend_unfold, H1. unfold isWeekend. rewrite D1.
      assert (Hd : 1 <= (day t + 1) mod 7 <= 5) by (Z.div_mod_to_equations; lia).
      destruct (Z.eqb_spec ((day t + 1) mod 7) 0); [lia |].
      destruct (Z.eqb_spec ((day t + 1) mod 7) 6); [lia |]. reflexivity.
Qed.

(** X23.  One step of a [weekdays] pattern moves to the next day that is
    neither Saturday nor Sunday: three days on from a Friday, two from a
    Saturday, one day on otherwise, at the same time of day.  The interval
    of the pattern is not used. *)
Theorem weekdays_step_lands_on_next_working_day (t : Z) (baseDate : option Z)
    (pattern : IRecurrencePattern.t) :
  IRecurrencePattern.type pattern = weekdays ->
  let next := getNextOccurrence t pattern baseDate in
  next = t + (if day t =? 5 then 3 else if day t =? 6 then 2 else 1) * msPerDay
  /\ 1 <= day next <= 5
  /\ TimeWithinDay next = TimeWithinDay t.
Proof.
  intros Hty. cbv zeta. unfold getNextOccurrence. rewrite Hty.
  rewrite skipWeekend_exact. pose proof (WeekDay_range t) as Hr. fold (day t) in Hr.
  split; [reflexivity |]. split.
  - rewrite day_plus_days.
    destruct (Z.eqb_spec (day t) 5) as [-> | N5];
      [change ((5 + 3) mod 7) with 1; lia |].
    destruct (Z.eqb_spec (day t) 6) as [-> | N6];
      [change ((6 + 2) mod 7) with 1; lia |].
    Z.div_mod_to_equations; lia.
  - apply TimeWithinDay_shift.
Qed.

Lemma sortDays_sorted (days : list Z) : StronglySorted Z.le (sortDays days).
Proof.
  unfold sortDays.
  apply (StronglySorted_weaken (Aggregation.before (fun a b => a - b)));
    [unfold Aggregation.before; intros; lia |].
  apply (sortBy_sorted (fun a b : Z => a - b)); unfold Aggregation.before; intros; lia.
Qed.

Lemma In_sortDays (days : list Z) d : In d (sortDays days) <-> In d days.
Proof.
  unfold sortDays. split; intros H;
    (eapply Permutation_in; [| exact H]);
    [apply sortBy_Permutation | apply Permutation_sym, sortBy_Permutation].
Qed.

Lemma find_after_sorted (a : Z) (l : list Z) :
  StronglySorted Z.le l ->
  match List.find (fun x => a <? x) l with
  | Some d => In d l /\ a < d /\ (forall x, In x l -> a < x -> d <= x)
  | None => forall x, In x l -> x <= a
  end.
Proof.
  induction 1 as [| y l Hs IH Hall]; cbn [List.find]; [intros x [] |].
  destruct (Z.ltb_spec a y) as [Hlt | Hge].
  - split; [left; reflexivity |]. split; [exact Hlt |].
    intros x [<- | Hx] _; [lia |]. rewrite List.Forall_forall in Hall. apply Hall, Hx.
  - destruct (List.find (fun x => a <? x) l) as [d |].
    + destruct IH as (Hin & Hd & Hmin). split; [right; exact Hin |]. split; [exact Hd |].
      intros x [<- | Hx] Hax; [lia | apply Hmin; assumption].
    + intros x [<- | Hx]; [lia | apply IH, Hx].
Qed.

Lemma hd_sorted_least (d : Z) (l : list Z) :
  StronglySorted Z.le l -> l <> [] ->
  In (List.hd d l) l /\ forall x, In x l -> List.hd d l <= x.
Proof.
  intros Hs Hne. destruct Hs as [| y l Hs Hall]; [congruence |]. cbn [List.hd].
  split; [left; reflexivity |]. intros x [<- | Hx]; [lia |].
  rewrite List.Forall_forall in Hall. apply Hall, Hx.
Qed.

Lemma set_day_exact v t :
  0 <= v <= 6 ->
  set_day v t = t + (v - day t) * msPerDay
  /\ day (set_day v t) = v
  /\ TimeWithinDay (set_day v t) = TimeWithinDay t.
Proof.
  intros Hv. unfold set_day. rewrite addDays_shift. split; [reflexivity |]. split.
  - rewrite day_plus_days. replace (day t + (v - day t)) with v by lia.
    apply Z.mod_small. lia.
  - apply TimeWithinDay_shift.
Qed.

(** X24.  One step of a weekly pattern with a non-empty list of week days
    in 0..6 lands on a listed day at the same time of day.  When a listed
    day lies later in the week of the cursor, it is the nearest such day of
    that week; otherwise it is the least listed day of the week that lies
    [interval] weeks ahead. *)
Theorem weekly_step_lands_on_next_listed_day (t : Z) (baseDate : option Z)
    (pattern : IRecurrencePattern.t) (days : list Z) :
  IRecurrencePattern.type pattern = weekly ->
  IRecurrencePattern.daysOfWeek pattern = Some days ->
  days <> [] ->
  Forall (fun d => 0 <= d <= 6) days ->
  let next := getNextOccurrence t pattern baseDate in
  In (day next) days
  /\ TimeWithinDay next = TimeWithinDay t
  /\ (forall d, In d days -> day t < d ->
        day t < day next <= d
        /\ next = t + (day next - day t) * msPerDay)
  /\ ((forall d, In d days -> d <= day t) ->
        (forall d, In d days -> day next <= d)
        /\ next = t + (7 * IRecurrencePattern.interval pattern + day next - day t)
                      * msPerDay).
Proof.
  intros Hty Hdays Hne Hrange. cbv zeta. unfold getNextOccurrence.
  rewrite Hty, Hdays. destruct days as [| d0 ds]; [congruence |].
  set (days := d0 :: ds) in *.
  rewrite List.Forall_forall in Hrange.
  pose proof (find_after_sorted (day t) (sortDays days) (sortDays_sorted days)) as Hfind.
  destruct (List.find (fun dd => day t <? dd) (sortDays days)) as [nextDay |].
  - destruct Hfind as (Hin & Hgt & Hmin). apply (proj1 (In_sortDays _ _)) in Hin.
    destruct (set_day_exact nextDay t (Hrange _ Hin)) as (Hval & Hday & Htime).
    rewrite Hday. split; [exact Hin |]. split; [exact Htime |]. split.
    + intros d Hd Hlt. split; [| exact Hval]. split; [exact Hgt |].
      apply Hmin; [apply In_sortDays |]; assumption.
    + intros Hall. specialize (Hall nextDay Hin). lia.
  - assert (Hnil : sortDays days <> []).
    { intros Hnil. assert (Hd : In d0 (sortDays days)) by (apply In_sortDays; left; reflexivity).
      rewrite Hnil in Hd. destruct Hd. }
    destruct (hd_sorted_least d0 (sortDays days) (sortDays_sorted days) Hnil)
      as [Hin Hleast].
    apply (proj1 (In_sortDays _ _)) in Hin.
    set (first := List.hd d0 (sortDays days)) in *.
    destruct (set_day_exact first (addWeeks (IRecurrencePattern.interval pattern) t)
                (Hrange _ Hin)) as (Hval & Hday & Htime).
    assert (Hweeks : addWeeks (IRecurrencePattern.interval pattern) t
                     = t + (IRecurrencePattern.interval pattern * 7) * msPerDay)
      by (unfold addWeeks; apply addDays_shift).
    assert (Hsame : day (addWeeks (IRecurrencePattern.interval pattern) t) = day t).
    { rewrite Hweeks, day_plus_days.
      pose proof (WeekDay_range t) as Hr. fold (day t) in Hr.
      rewrite Z.mod_add by lia. apply Z.mod_small. exact Hr. }
    rewrite Hday. split; [exact Hin |]. split; [| split].
    + rewrite Htime, Hweeks. apply TimeWithinDay_shift.
    + intros d Hd Hlt. specialize (Hfind d (proj2 (In_sortDays days d) Hd)). lia.
    + intros _. split.
      * intros d Hd. apply Hleast, In_sortDays, Hd.
      * rewrite Hval, Hsame, Hweeks. lia.
Qed.

Lemma daysInMonth_split q r :
  0 <= r < 12 ->
  (if r =? 1 then (if isLeapYear q then 29 else 28) else 31 - ((r mod 7) mod 2))
  = monthStart (12 * q + r + 1) - monthStart (12 * q + r).
Proof.
  intros Hr. rewrite monthStart_succ_split by exact Hr.
  rewrite isLeapYear_DaysInYear.
  assert (Hcases : r = 0 \/ r = 1 \/ r = 2 \/ r = 3 \/ r = 4 \/ r = 5 \/ r = 6
                   \/ r = 7 \/ r = 8 \/ r = 9 \/ r = 10 \/ r = 11) by lia.
  destruct (isLeapYear q);
    repeat (destruct Hcases as [-> | Hcases]; [vm_compute; reflexivity |]);
    subst r; vm_compute; reflexivity.
Qed.

Lemma daysInMonth_length y m :
  daysInMonth y m = monthStart (12 * y + m + 1) - monthStart (12 * y + m).
Proof.
  unfold daysInMonth. cbv zeta.
  pose proof (Z.mod_pos_bound m 12 ltac:(lia)) as Hr.
  rewrite (daysInMonth_split (y + (m - m mod 12) / 12) (m mod 12) Hr).
  replace (12 * (y + (m - m mod 12) / 12) + m mod 12) with (12 * y + m)
    by (Z.div_mod_to_equations; lia).
  reflexivity.
Qed.

Lemma in_month A t d :
  Day t = monthStart A + d - 1 ->
  1 <= d <= monthStart (A + 1) - monthStart A ->
  absMonthOf t = A /\ date t = d.
Proof.
  intros Ht Hd.
  assert (Hu : absMonth (Day t) = A) by (apply absMonth_unique; lia).
  destruct (absMonth_bracket (Day t)) as [_ Hdate]. rewrite Hu in Hdate.
  unfold absMonthOf, date, DateFromTime. split; [exact Hu | lia].
Qed.

Lemma setMonth_fields t v :
  absMonthOf (setMonth t v) = 12 * year t + v
  /\ date (setMonth t v) = Z.min (date t) (daysInMonth (year t) v)
  /\ TimeWithinDay (setMonth t v) = TimeWithinDay t.
Proof.
  pose proof (date_range t) as Hd.
  pose proof (daysInMonth_range (year t) v) as Hl.
  pose proof (daysInMonth_length (year t) v) as Hlen.
  assert (HD : Day (setMonth t v)
               = monthStart (12 * year t + v)
                 + Z.min (date t) (daysInMonth (year t) v) - 1)
    by (unfold setMonth; apply Day_JSsetMonth).
  destruct (in_month (12 * year t + v) (setMonth t v)
              (Z.min (date t) (daysInMonth (year t) v)) HD ltac:(lia)) as [HA Hdt].
  split; [exact HA |]. split; [exact Hdt | apply time_setMonth].
Qed.

Lemma addMonths_fields n t :
  absMonthOf (addMonths n t) = absMonthOf t + n
  /\ TimeWithinDay (addMonths n t) = TimeWithinDay t.
Proof.
  split; [| apply time_addMonths].
  unfold addMonths. destruct (Z.eqb_spec n 0) as [-> | Hn]; [lia |].
  destruct (setMonth_fields t (month t + n)) as [HA _].
  rewrite HA, absMonthOf_fields. lia.
Qed.

Lemma monthly_step_fields n dom t :
  1 <= dom <= 31 ->
  let next1 := set_date dom (addMonths n t) in
  let next := if negb (date next1 =? dom) then set_date 0 next1 else next1 in
  absMonthOf next = absMonthOf t + n
  /\ date next = Z.min dom (monthStart (absMonthOf t + n + 1)
                            - monthStart (absMonthOf t + n))
  /\ TimeWithinDay next = TimeWithinDay t.
Proof.
  intros Hdom. cbv zeta.
  destruct (addMonths_fields n t) as [HA HT].
  pose proof (monthStart_succ (absMonthOf t + n)) as HL.
  pose proof (monthStart_succ (absMonthOf t + n + 1)) as HL'.
  assert (HD1 : Day (set_date dom (addMonths n t))
                = monthStart (absMonthOf t + n) + dom - 1)
    by (unfold set_date; rewrite Day_setDate, HA; reflexivity).
  assert (HT1 : TimeWithinDay (set_date dom (addMonths n t)) = TimeWithinDay t)
    by (unfold set_date; rewrite time_setDate; exact HT).
  remember (set_date dom (addMonths n t)) as next1 eqn:E. clear E.
  destruct (Z_le_gt_dec dom (monthStart (absMonthOf t + n + 1)
                             - monthStart (absMonthOf t + n))) as [Hfit | Hover].
  - destruct (in_month (absMonthOf t + n) next1 dom HD1 ltac:(lia)) as [HA1 Hd1].
    rewrite Hd1, Z.eqb_refl. cbn [negb].
    split; [exact HA1 |]. split; [lia | exact HT1].
  - assert (HD1' : Day next1
                   = monthStart (absMonthOf t + n + 1)
                     + (dom - (monthStart (absMonthOf t + n + 1)
                               - monthStart (absMonthOf t + n))) - 1) by lia.
    replace (absMonthOf t + n + 1 + 1) with (absMonthOf t + n + 2) in HL' by lia.
    destruct (in_month (absMonthOf t + n + 1) next1 _ HD1'
                ltac:(replace (absMonthOf t + n + 1 + 1) with (absMonthOf t + n + 2) by lia;
                      lia)) as [HA1 Hd1].
    destruct (Z.eqb_spec (date next1) dom) as [Heq | Hne]; [lia |]. cbn [negb].
    destruct (set_date_zero next1) as [HT0 HD0]. rewrite HA1 in HD0.
    destruct (in_month (absMonthOf t + n) (set_date 0 next1)
                (monthStart (absMonthOf t + n + 1) - monthStart (absMonthOf t + n))
                ltac:(lia) ltac:(lia)) as [HA0 Hd0].
    split; [exact HA0 |]. split; [lia | congruence].
Qed.

(** X25.  One step of a monthly pattern with a day of the month in 1..31
    lands exactly [interval] months on, at the same time of day, on that
    day of the month or, where the month is shorter, on its last day. *)
Theorem monthly_step_lands_on_day_or_month_end (t : Z) (baseDate : option Z)
    (pattern : IRecurrencePattern.t) (dom : Z) :
  IRecurrencePattern.type pattern = monthly ->
  IRecurrencePattern.dayOfMonth pattern = Some dom ->
  1 <= dom <= 31 ->
  let next := getNextOccurrence t pattern baseDate in
  12 * year next + month next
  = 12 * year t + month t + IRecurrencePattern.interval pattern
  /\ date next = Z.min dom (daysInMonth (year next) (month next))
  /\ TimeWithinDay next = TimeWithinDay t.
Proof.
  intros Hty Hd Hdom. cbv zeta. unfold getNextOccurrence. rewrite Hty, Hd.
  replace (truthy (Some dom)) with true
    by (unfold truthy; destruct (Z.eqb_spec dom 0); [lia | reflexivity]).
  destruct (monthly_step_fields (IRecurrencePattern.interval pattern) dom t Hdom)
    as (HA & Hdate & HT).
  cbv zeta in HA, Hdate, HT.
  remember (if negb (date (set_date dom (addMonths (IRecurrencePattern.interval pattern) t)) =? dom)
            then set_date 0 (set_date dom (addMonths (IRecurrencePattern.interval pattern) t))
            else set_date dom (addMonths (IRecurrencePattern.interval pattern) t))
    as next eqn:E. clear E.
  rewrite !absMonthOf_fields in HA.
  split; [exact HA |]. split; [| exact HT].
  rewrite daysInMonth_length, Hdate.
  rewrite absMonthOf_fields. rewrite HA. reflexivity.
Qed.

End Steps.

(** Instance of X23: from Thursday 1 January 1970. *)
Lemma weekdays_step_lands_on_next_working_day_witness :
  let next :=
    RecurrenceUtils.getNextOccurrence 0 (Samples.pattern weekdays 1 None None) None in
  next = 0 + (if Moment.day 0 =? 5 then 3 else if Moment.day 0 =? 6 then 2 else 1)
             * JSDate.msPerDay
  /\ 1 <= Moment.day next <= 5
  /\ JSDate.TimeWithinDay next = JSDate.TimeWithinDay 0.
Proof.
  apply (weekdays_step_lands_on_next_working_day 0 None
           (Samples.pattern weekdays 1 None None)).
  reflexivity.
Defined.

(** Instance of X24: Monday, Wednesday and Friday, from Thursday
    1 January 1970. *)
Lemma weekly_step_lands_on_next_listed_day_witness :
  let next := RecurrenceUtils.getNextOccurrence 0 Samples.weeklyMonWedFri None in
  In (Moment.day next) [1; 3; 5]
  /\ JSDate.TimeWithinDay next = JSDate.TimeWithinDay 0
  /\ (forall d, In d [1; 3; 5] -> Moment.day 0 < d ->
        Moment.day 0 < Moment.day next <= d
        /\ next = 0 + (Moment.day next - Moment.day 0) * JSDate.msPerDay)
  /\ ((forall d, In d [1; 3; 5] -> d <= Moment.day 0) ->
        (forall d, In d [1; 3; 5] -> Moment.day next <= d)
        /\ next = 0 + (7 * IRecurrencePattern.interval Samples.weeklyMonWedFri
                       + Moment.day next - Moment.day 0) * JSDate.msPerDay).
Proof.
  apply (weekly_step_lands_on_next_listed_day 0 None Samples.weeklyMonWedFri [1; 3; 5]).
  - reflexivity.
  - reflexivity.
  - discriminate.
  - repeat constructor; lia.
Defined.

(** Instance of X25: the 31st of every month, from 31 January 1970. *)
Lemma monthly_step_lands_on_day_or_month_end_witness :
  let next := RecurrenceUtils.getNextOccurrence 2592000000 Samples.monthlyOn31 None in
  12 * Moment.year next + Moment.month next
  = 12 * Moment.year 2592000000 + Moment.month 2592000000
    + IRecurrencePattern.interval Samples.monthlyOn31
  /\ Moment.date next
     = Z.min 31 (Moment.daysInMonth (Moment.year next) (Moment.month next))
  /\ JSDate.TimeWithinDay next = JSDate.TimeWithinDay 2592000000.
Proof.
  apply (monthly_step_lands_on_day_or_month_end 2592000000 None Samples.monthlyOn31 31).
  - reflexivity.
  - reflexivity.
  - lia.
Defined.

(** *** Weekly on Monday, Wednesday and Friday *)

Section WeeklyScenario.
Import JS JSDate JSDateFacts Moment MomentFacts RecurrenceUtils NextOccurrence
  Expansion ExpansionFacts.

Variables (pattern : IRecurrencePattern.t) (days : list Z).

Hypothesis pattern_weekly : IRecurrencePattern.type pattern = weekly.
Hypothesis pattern_interval : IRecurrencePattern.interval pattern = 1.
Hypothesis pattern_days : IRecurrencePattern.daysOfWeek pattern = Some days.
Hypothesis days_MonWedFri : forall d, In d days <-> d = 1 \/ d = 3 \/ d = 5.

(** One step from a Monday or a Wednesday goes two days on, one step from a
    Friday three days on, in whatever order the pattern lists the days. *)
Lemma next_MonWedFri t b :
  (day t = 1 \/ day t = 3 -> getNextOccurrence t pattern b = t + 2 * msPerDay)
  /\ (day t = 5 -> getNextOccurrence t pattern b = t + 3 * msPerDay).
Proof.
  unfold getNextOccurrence. cbv zeta.
  rewrite pattern_weekly, pattern_days, pattern_interval.
  assert (Hin : forall d, In d (sortDays days) <-> d = 1 \/ d = 3 \/ d = 5)
    by (intros d; rewrite In_sortDays; apply days_MonWedFri).
  assert (H1 : In 1 (sortDays days)) by (apply Hin; auto).
  assert (H3 : In 3 (sortDays days)) by (apply Hin; auto).
  assert (H5 : In 5 (sortDays days)) by (apply Hin; auto).
  pose proof (find_after_sorted (day t) (sortDays days) (sortDays_sorted days)) as Hfind.
  destruct days as [| d0 ds] eqn:Edays;
    [destruct (proj2 (days_MonWedFri 1)); auto |].
  rewrite <- Edays in *. clear Edays.
  split.
  - intros Hd.
    destruct (List.find (fun dd => day t <? dd) (sortDays days)) as [nextDay |].
    + destruct Hfind as (Hi & Hgt & Hmin). apply Hin in Hi.
      pose proof (Hmin 3 H3) as M3. pose proof (Hmin 5 H5) as M5.
      assert (Hnext : nextDay - day t = 2) by lia.
      destruct (set_day_exact nextDay t ltac:(lia)) as (Hval & _).
      rewrite Hval, Hnext. reflexivity.
    + specialize (Hfind 5 H5). lia.
  - intros Hd.
    destruct (List.find (fun dd => day t <? dd) (sortDays days)) as [nextDay |].
    + destruct Hfind as (Hi & Hgt & _). apply Hin in Hi. lia.
    + assert (Hnil : sortDays days <> []) by (intros Hnil; rewrite Hnil in H1; destruct H1).
      destruct (hd_sorted_least d0 (sortDays days) (sortDays_sorted days) Hnil)
        as [Hhd Hleast].
      apply Hin in Hhd. specialize (Hleast 1 H1).
      assert (Hfirst : List.hd d0 (sortDays days) = 1) by lia.
      rewrite Hfirst.
      assert (Hweek : addWeeks 1 t = t + 7 * msPerDay)
        by (unfold addWeeks; rewrite addDays_shift; reflexivity).
      destruct (set_day_exact 1 (addWeeks 1 t) ltac:(lia)) as (Hval & _).
      rewrite Hval, Hweek, day_plus_days, Hd.
      change ((5 + 7) mod 7) with 5. lia.
Qed.

(** The cursor of the pattern over two weeks, from a Monday [s]. *)
Lemma cursor_MonWedFri s :
  day s = 1 ->
  cursorAt pattern 0 s = s
  /\ cursorAt pattern 1 s = s + 2 * msPerDay
  /\ cursorAt pattern 2 s = s + 4 * msPerDay
  /\ cursorAt pattern 3 s = s + 7 * msPerDay
  /\ cursorAt pattern 4 s = s + 9 * msPerDay
  /\ cursorAt pattern 5 s = s + 11 * msPerDay
  /\ cursorAt pattern 6 s = s + 14 * msPerDay.
Proof.
  intros Hs.
  assert (Hday : forall k, day (s + k * msPerDay) = (1 + k) mod 7)
    by (intros k; rewrite day_plus_days, Hs; reflexivity).
  assert (Hshort : forall k, (1 + k) mod 7 = 1 \/ (1 + k) mod 7 = 3 ->
            getNextOccurrence (s + k * msPerDay) pattern None
            = s + (k + 2) * msPerDay).
  { intros k Hk. destruct (next_MonWedFri (s + k * msPerDay) None) as [Hn _].
    rewrite Hn by (rewrite Hday; exact Hk). lia. }
  assert (Hlong : forall k, (1 + k) mod 7 = 5 ->
            getNextOccurrence (s + k * msPerDay) pattern None
            = s + (k + 3) * msPerDay).
  { intros k Hk. destruct (next_MonWedFri (s + k * msPerDay) None) as [_ Hn].
    rewrite Hn by (rewrite Hday; exact Hk). lia. }
  assert (Hstep : forall i, cursorAt pattern (S i) s
                  = getNextOccurrence (cursorAt pattern i s) pattern None)
    by reflexivity.
  assert (C0 : cursorAt pattern 0 s = s + 0 * msPerDay) by (cbn; lia).
  assert (C1 : cursorAt pattern 1 s = s + 2 * msPerDay)
    by (rewrite Hstep, C0; apply (Hshort 0); left; reflexivity).
  assert (C2 : cursorAt pattern 2 s = s + 4 * msPerDay)
    by (rewrite Hstep, C1; apply (Hshort 2); right; reflexivity).
  assert (C3 : cursorAt pattern 3 s = s + 7 * msPerDay)
    by (rewrite Hstep, C2; apply (Hlong 4); reflexivity).
  assert (C4 : cursorAt pattern 4 s = s + 9 * msPerDay)
    by (rewrite Hstep, C3; apply (Hshort 7); left; reflexivity).
  assert (C5 : cursorAt pattern 5 s = s + 11 * msPerDay)
    by (rewrite Hstep, C4; apply (Hshort 9); right; reflexivity).
  assert (C6 : cursorAt pattern 6 s = s + 14 * msPerDay)
    by (rewrite Hstep, C5; apply (Hlong 11); reflexivity).
  split; [reflexivity |]. repeat split; assumption.
Qed.

End WeeklyScenario.

Section WeeklyClaim.
Import JS JSDate JSDateFacts Moment MomentFacts RecurrenceUtils NextOccurrence
  Expansion ExpansionFacts.

(** C8.  A weekly pattern with interval 1 whose list of week days names
    Monday, Wednesday and Friday (in any order, repeated or not) and which
    has no end date and no count, on a base event that starts on a Monday,
    expanded from the start of the base event over two weeks with a cap of
    at least six, gives exactly six occurrences: at the time of day of the
    base event on the Monday, Wednesday and Friday of both weeks.  The
    window may also end earlier, as long as it ends after the occurrence of
    the second Friday. *)
Theorem C8_weekly_mon_wed_fri_two_weeks
    (fuel : nat) (baseEvent : ICalendarEvent.t) (pattern : IRecurrencePattern.t)
    (days : list Z) (endDate maxOccurrences : Z) :
  IRecurrencePattern.type pattern = weekly ->
  IRecurrencePattern.interval pattern = 1 ->
  IRecurrencePattern.daysOfWeek pattern = Some days ->
  (forall d, In d days <-> d = 1 \/ d = 3 \/ d = 5) ->
  IRecurrencePattern.endDate pattern = None ->
  IRecurrencePattern.occurrences pattern = None ->
  day (ICalendarEvent.start baseEvent) = 1 ->
  addDays 11 (ICalendarEvent.start baseEvent) < endDate
    <= addWeeks 2 (ICalendarEvent.start baseEvent) ->
  6 <= maxOccurrences ->
  (Z.to_nat maxOccurrences <= fuel)%nat ->
  exists events,
    generateRecurringEvents fuel baseEvent pattern (ICalendarEvent.start baseEvent)
      endDate maxOccurrences = Some events
    /\ length events = 6%nat
    /\ List.map ICalendarEvent.start events
       = List.map (fun k => addDays k (ICalendarEvent.start baseEvent))
           [0; 2; 4; 7; 9; 11]
    /\ Forall (fun ev => day (ICalendarEvent.start ev) = 1
                         \/ day (ICalendarEvent.start ev) = 3
                         \/ day (ICalendarEvent.start ev) = 5) events.
Proof.
  intros Hty Hint Hdays Hset Hnoend Hnocount Hmon Hwindow Hcap Hfuel.
  set (s := ICalendarEvent.start baseEvent) in *.
  assert (Hfrom : addDays 11 s = s + 11 * msPerDay) by apply addDays_shift.
  assert (Hto : addWeeks 2 s = s + 14 * msPerDay)
    by (unfold addWeeks; rewrite addDays_shift; reflexivity).
  rewrite Hfrom, Hto in Hwindow.
  destruct (generateRecurringEvents_returns fuel baseEvent pattern s endDate
              maxOccurrences Hfuel)
    as (n & Hrun & _ & Hguards & Hstop).
  cbv zeta in Hrun, Hguards, Hstop.
  assert (Hfirst : initialDate baseEvent pattern s = s).
  { unfold initialDate, isBefore. fold s. rewrite Z.ltb_irrefl. reflexivity. }
  rewrite Hfirst in Hrun, Hguards, Hstop.
  destruct (cursor_MonWedFri pattern days Hty Hint Hdays Hset s Hmon)
    as (C0 & C1 & C2 & C3 & C4 & C5 & C6).
  assert (Hguard : forall c k,
            loopGuard pattern endDate maxOccurrences c k
            = (c <? endDate) && (k <? maxOccurrences))
    by (intros; apply loopGuard_unbounded; assumption).
  assert (Hn : n = 6%nat).
  { apply Nat.le_antisymm.
    - destruct (Nat.le_gt_cases n 6) as [Hle | Hgt]; [exact Hle |].
      specialize (Hguards 6%nat Hgt). rewrite Hguard, C6 in Hguards.
      apply andb_true_iff in Hguards. destruct Hguards as [Hguards _].
      apply Z.ltb_lt in Hguards. lia.
    - apply (iterations_determined pattern endDate maxOccurrences s n 6 Hguards Hstop).
      intros i Hi. rewrite Hguard.
      assert (Hi6 : (i = 0 \/ i = 1 \/ i = 2 \/ i = 3 \/ i = 4 \/ i = 5)%nat) by lia.
      apply andb_true_iff.
      destruct Hi6 as [-> | [-> | [-> | [-> | [-> | ->]]]]];
        rewrite ?C0, ?C1, ?C2, ?C3, ?C4, ?C5;
        split; apply Z.ltb_lt; unfold msPerDay in *; lia. }
  subst n. eexists. split; [exact Hrun |].
  split; [apply length_occurrencesFrom |].
  unfold Expansion.occurrencesFrom. rewrite List.map_map.
  cbn [seq List.map recurringEvent ICalendarEvent.start].
  rewrite C0, C1, C2, C3, C4, C5, !addDays_shift.
  split; [repeat f_equal; lia |].
  assert (Hday : forall k, day (s + k * msPerDay) = (1 + k) mod 7)
    by (intros k; rewrite day_plus_days, Hmon; reflexivity).
  repeat (apply List.Forall_cons;
          [cbn [ICalendarEvent.start]; rewrite ?Hday, ?Hmon; cbn; auto |]).
  apply List.Forall_nil.
Qed.

(** Instance of C8: Monday 8 January 2024, 10:00, with the days listed as
    Friday, Monday, Wednesday, a window of two weeks and the default cap. *)
Lemma C8_weekly_mon_wed_fri_two_weeks_witness :
  exists events,
    generateRecurringEvents 100
      (Samples.event "evt" "Sync" (UTC 2024 0 8 36000000))
      (Samples.pattern weekly 1 (Some [5; 1; 3]) None)
      (ICalendarEvent.start (Samples.event "evt" "Sync" (UTC 2024 0 8 36000000)))
      (addWeeks 2
         (ICalendarEvent.start (Samples.event "evt" "Sync" (UTC 2024 0 8 36000000))))
      100
    = Some events
    /\ length events = 6%nat
    /\ List.map ICalendarEvent.start events
       = List.map
           (fun k =>
              addDays k
                (ICalendarEvent.start (Samples.event "evt" "Sync" (UTC 2024 0 8 36000000))))
           [0; 2; 4; 7; 9; 11]
    /\ Forall (fun ev => day (ICalendarEvent.start ev) = 1
                         \/ day (ICalendarEvent.start ev) = 3
                         \/ day (ICalendarEvent.start ev) = 5) events.
Proof.
  apply (C8_weekly_mon_wed_fri_two_weeks 100
           (Samples.event "evt" "Sync" (UTC 2024 0 8 36000000))
           (Samples.pattern weekly 1 (Some [5; 1; 3]) None) [5; 1; 3]
           (addWeeks 2
              (ICalendarEvent.start (Samples.event "evt" "Sync" (UTC 2024 0 8 36000000))))
           100).
  - reflexivity.
  - reflexivity.
  - reflexivity.
  - intros d. cbn [In]. split; intros H; lia.
  - reflexivity.
  - reflexivity.
  - vm_compute. reflexivity.
  - vm_compute. split; [reflexivity | discriminate].
  - lia.
  - apply Nat.leb_le. vm_compute. reflexivity.
Defined.

End WeeklyClaim.

(** *** Recurrence: the generated list *)

Section Occurrences.
Import JS JSDate JSDateFacts Months MonthsFacts Moment MomentFacts MomentMonths
  RecurrenceUtils Expansion NextOccurrence ExpansionFacts.

Lemma cursorAt_increasing pattern first (i j : nat) :
  fieldsInRange pattern = true -> (i < j)%nat ->
  cursorAt pattern i first < cursorAt pattern j first.
Proof.
  intros Hv Hij. induction j as [| j IH]; [lia |].
  change (cursorAt pattern (S j) first)
    with (getNextOccurrence (cursorAt pattern j first) pattern None).
  pose proof (getNextOccurrence_later pattern (cursorAt pattern j first) None Hv).
  destruct (Nat.eq_dec i j) as [-> | Hne]; [lia |].
  specialize (IH ltac:(lia)). lia.
Qed.

(** X26.  Whatever the pattern, [generateRecurringEvents] returns
    occurrences with pairwise distinct ids; for a valid pattern their start
    times increase strictly along the list. *)
Theorem occurrences_increase_and_have_distinct_ids
    (fuel : nat) (baseEvent : ICalendarEvent.t) (pattern : IRecurrencePattern.t)
    (startDate endDate maxOccurrences : Z) :
  (Z.to_nat maxOccurrences <= fuel)%nat ->
  exists events,
    generateRecurringEvents fuel baseEvent pattern startDate endDate maxOccurrences
    = Some events
    /\ NoDup (List.map ICalendarEvent.id events)
    /\ (isValidPattern pattern = true ->
        forall (i j : nat) (a b : ICalendarEvent.t),
          (i < j)%nat -> events !! i = Some a -> events !! j = Some b ->
          ICalendarEvent.start a < ICalendarEvent.start b).
Proof.
  intros Hfuel.
  destruct (generateRecurringEvents_returns fuel baseEvent pattern startDate endDate
              maxOccurrences Hfuel) as (n & Hrun & _).
  eexists. split; [exact Hrun |]. split.
  - apply NoDup_alt. intros i j x Hi Hj.
    change (List.map ?f ?l) with (f <$> l) in Hi, Hj.
    rewrite list_lookup_fmap in Hi, Hj.
    destruct (_ !! i) as [a |] eqn:Ha; [| discriminate].
    destruct (_ !! j) as [b |] eqn:Hb; [| discriminate].
    apply lookup_occurrencesFrom in Ha, Hb.
    destruct Ha as [_ ->]. destruct Hb as [_ ->].
    cbn in Hi, Hj. injection Hi as Hi. injection Hj as Hj. rewrite <- Hj in Hi.
    apply String.app_inj, String.app_inj, StringFacts.numberToString_inj in Hi. lia.
  - intros Hvalid i j a b Hij Ha Hb.
    apply lookup_occurrencesFrom in Ha, Hb.
    destruct Ha as [_ ->]. destruct Hb as [_ ->].
    cbn [recurringEvent ICalendarEvent.start].
    apply cursorAt_increasing; [apply isValidPattern_fieldsInRange, Hvalid | exact Hij].
Qed.

Lemma expandLoop_occurrences_zero fuel baseEvent pattern endDate maxOccurrences
    eventDuration : forall cur count events,
  expandLoop fuel baseEvent (withOccurrences pattern (Some 0)) endDate maxOccurrences
    eventDuration cur count events
  = expandLoop fuel baseEvent (withOccurrences pattern None) endDate maxOccurrences
      eventDuration cur count events.
Proof.
  induction fuel as [| fuel IH]; intros cur count events; cbn [expandLoop].
  - reflexivity.
  - rewrite IH. reflexivity.
Qed.

(** X27.  The end conditions of the pattern itself.  Every occurrence
    starts strictly before the end date of the pattern, when it has one; a
    non-zero occurrence count bounds the number of occurrences returned;
    and a count of 0 is read as no count at all. *)
Theorem pattern_end_conditions_are_honoured
    (fuel : nat) (baseEvent : ICalendarEvent.t) (pattern : IRecurrencePattern.t)
    (startDate endDate maxOccurrences : Z) :
  (Z.to_nat maxOccurrences <= fuel)%nat ->
  exists events,
    generateRecurringEvents fuel baseEvent pattern startDate endDate maxOccurrences
    = Some events
    /\ (forall patternEnd, IRecurrencePattern.endDate pattern = Some patternEnd ->
          Forall (fun ev => ICalendarEvent.start ev < patternEnd) events)
    /\ (forall count, IRecurrencePattern.occurrences pattern = Some count ->
          count <> 0 -> Z.of_nat (length events) <= Z.max 0 count)
    /\ generateRecurringEvents fuel baseEvent (withOccurrences pattern (Some 0))
         startDate endDate maxOccurrences
       = generateRecurringEvents fuel baseEvent (withOccurrences pattern None)
           startDate endDate maxOccurrences.
Proof.
  intros Hfuel.
  destruct (generateRecurringEvents_returns fuel baseEvent pattern startDate endDate
              maxOccurrences Hfuel) as (n & Hrun & Hn & Hguards & Hstop).
  eexists. split; [exact Hrun |]. split; [| split].
  - intros patternEnd Hend. apply Forall_lookup. intros i ev Hev.
    apply lookup_occurrencesFrom in Hev. destruct Hev as [Hi ->].
    cbn [recurringEvent ICalendarEvent.start].
    specialize (Hguards i Hi). unfold loopGuard in Hguards. rewrite Hend in Hguards.
    apply andb_true_iff in Hguards. destruct Hguards as [Hguards _].
    apply andb_true_iff in Hguards. destruct Hguards as [_ Hguards].
    unfold isBefore in Hguards. apply Z.ltb_lt in Hguards. exact Hguards.
  - intros count Hocc Hnz. rewrite length_occurrencesFrom.
    destruct n as [| n]; [lia |].
    specialize (Hguards n ltac:(lia)). unfold loopGuard in Hguards.
    rewrite Hocc in Hguards.
    apply andb_true_iff in Hguards. destruct Hguards as [_ Hguards].
    unfold truthy in Hguards. destruct (Z.eqb_spec count 0); [lia |].
    cbn [negb orb] in Hguards. apply Z.ltb_lt in Hguards. lia.
  - unfold generateRecurringEvents.
    rewrite expandLoop_occurrences_zero. reflexivity.
Qed.

Lemma cursorAt_daily pattern first (i : nat) :
  IRecurrencePattern.type pattern = daily ->
  cursorAt pattern i first
  = first + Z.of_nat i * IRecurrencePattern.interval pattern * msPerDay.
Proof.
  intros Hty. induction i as [| i IH]; [cbn; lia |].
  change (cursorAt pattern (S i) first)
    with (getNextOccurrence (cursorAt pattern i first) pattern None).
  rewrite IH. unfold getNextOccurrence. rewrite Hty, addDays_shift. lia.
Qed.

Lemma initialDate_in_window baseEvent pattern startDate :
  startDate <= ICalendarEvent.start baseEvent ->
  initialDate baseEvent pattern startDate = ICalendarEvent.start baseEvent.
Proof.
  intros H. unfold initialDate, isBefore.
  destruct (Z.ltb_spec (ICalendarEvent.start baseEvent) startDate); [lia | reflexivity].
Qed.

(** X28.  A daily pattern with an interval of at least 1, expanded from a
    base event that starts inside the window: occurrence [i] starts
    [i * interval] days after the base event and is accepted by
    [dateMatchesPattern]; without an end date and a count in the pattern,
    the number of occurrences is the number of such starts before
    [endDate], capped by [maxOccurrences]. *)
Theorem daily_expansion_is_evenly_spaced
    (diffMonths diffYears : Z -> Z -> Z)
    (fuel : nat) (baseEvent : ICalendarEvent.t) (pattern : IRecurrencePattern.t)
    (startDate endDate maxOccurrences : Z) :
  IRecurrencePattern.type pattern = daily ->
  1 <= IRecurrencePattern.interval pattern ->
  startDate <= ICalendarEvent.start baseEvent ->
  (Z.to_nat maxOccurrences <= fuel)%nat ->
  exists events,
    generateRecurringEvents fuel baseEvent pattern startDate endDate maxOccurrences
    = Some events
    /\ (forall (i : nat) (ev : ICalendarEvent.t),
          events !! i = Some ev ->
          ICalendarEvent.start ev
          = ICalendarEvent.start baseEvent
            + Z.of_nat i * IRecurrencePattern.interval pattern * msPerDay
          /\ dateMatchesPattern diffMonths diffYears (ICalendarEvent.start ev) pattern
               (ICalendarEvent.start baseEvent) = true)
    /\ (IRecurrencePattern.endDate pattern = None ->
        IRecurrencePattern.occurrences pattern = None ->
        Z.of_nat (length events)
        = Z.max 0
            (Z.min maxOccurrences
               (ceilDiv (endDate - ICalendarEvent.start baseEvent)
                  (IRecurrencePattern.interval pattern * msPerDay)))).
Proof.
  intros Hty Hint Hwin Hfuel.
  destruct (generateRecurringEvents_returns fuel baseEvent pattern startDate endDate
              maxOccurrences Hfuel) as (n & Hrun & Hn & Hguards & Hstop).
  cbv zeta in Hrun, Hguards, Hstop.
  rewrite (initialDate_in_window baseEvent pattern startDate Hwin) in Hrun, Hguards, Hstop.
  eexists. split; [exact Hrun |]. split.
  - intros i ev Hev. apply lookup_occurrencesFrom in Hev. destruct Hev as [Hi ->].
    cbn [recurringEvent ICalendarEvent.start]. rewrite (cursorAt_daily _ _ _ Hty).
    split; [reflexivity |].
    unfold dateMatchesPattern. rewrite Hty. unfold diffDays, remIsZero.
    replace (ICalendarEvent.start baseEvent
             + Z.of_nat i * IRecurrencePattern.interval pattern * msPerDay
             - ICalendarEvent.start baseEvent)
      with (Z.of_nat i * IRecurrencePattern.interval pattern * msPerDay) by lia.
    rewrite Z.quot_mul by (unfold msPerDay; lia).
    rewrite Z.rem_mul by lia.
    destruct (Z.leb_spec 0 (Z.of_nat i * IRecurrencePattern.interval pattern)); [| nia].
    destruct (Z.eqb_spec (IRecurrencePattern.interval pattern) 0); [lia | reflexivity].
  - intros Hend Hocc. rewrite length_occurrencesFrom.
    set (step := IRecurrencePattern.interval pattern * msPerDay).
    set (span := endDate - ICalendarEvent.start baseEvent).
    assert (Hstep : 0 < step) by (unfold step, msPerDay; lia).
    assert (Hguard : forall k : nat,
              loopGuard pattern endDate maxOccurrences
                (cursorAt pattern k (ICalendarEvent.start baseEvent)) (Z.of_nat k)
              = (Z.of_nat k * step <? span) && (Z.of_nat k <? maxOccurrences)).
    { intros k. unfold loopGuard, isBefore. rewrite Hend, Hocc.
      cbn [truthy negb orb]. rewrite !andb_true_r.
      rewrite (cursorAt_daily _ _ _ Hty). f_equal.
      unfold step, span.
      destruct (Z.ltb_spec (ICalendarEvent.start baseEvent
                            + Z.of_nat k * IRecurrencePattern.interval pattern * msPerDay)
                  endDate);
        destruct (Z.ltb_spec (Z.of_nat k * (IRecurrencePattern.interval pattern * msPerDay))
                    (endDate - ICalendarEvent.start baseEvent)); try reflexivity; lia. }
    rewrite Hguard in Hstop.
    assert (Hbefore : forall k : nat, (k < n)%nat ->
              Z.of_nat k * step < span /\ Z.of_nat k < maxOccurrences).
    { intros k Hk. specialize (Hguards k Hk). rewrite Hguard in Hguards.
      apply andb_true_iff in Hguards. destruct Hguards as [H1 H2].
      apply Z.ltb_lt in H1, H2. auto. }
    assert (Hceil : forall x, x * step < span <-> x < ceilDiv span step).
    { intros x. unfold ceilDiv. split; intros H; Z.div_mod_to_equations; nia. }
    apply andb_false_iff in Hstop.
    destruct n as [| n'].
    + destruct Hstop as [Hs | Hs]; apply Z.ltb_ge in Hs.
      * assert (~ 0 < ceilDiv span step) by (rewrite <- Hceil; lia). lia.
      * lia.
    + destruct (Hbefore n' ltac:(lia)) as [H1 H2]. apply Hceil in H1.
      destruct Hstop as [Hs | Hs]; apply Z.ltb_ge in Hs.
      * assert (~ Z.of_nat (S n') < ceilDiv span step) by (rewrite <- Hceil; lia). lia.
      * lia.
Qed.

(** X29.  When the base event starts inside the window, the list returned
    is empty if the loop guard fails at the start of the base event, and
    otherwise its first element is the occurrence numbered 0 at the start
    of the base event, with the duration of the base event. *)
Theorem first_occurrence_is_the_base_event
    (fuel : nat) (baseEvent : ICalendarEvent.t) (pattern : IRecurrencePattern.t)
    (startDate endDate maxOccurrences : Z) :
  startDate <= ICalendarEvent.start baseEvent ->
  (Z.to_nat maxOccurrences <= fuel)%nat ->
  exists events,
    generateRecurringEvents fuel baseEvent pattern startDate endDate maxOccurrences
    = Some events
    /\ (loopGuard pattern endDate maxOccurrences (ICalendarEvent.start baseEvent) 0 = false ->
        events = [])
    /\ (loopGuard pattern endDate maxOccurrences (ICalendarEvent.start baseEvent) 0 = true ->
        exists rest,
          events = recurringEvent baseEvent 0 (ICalendarEvent.start baseEvent)
                     (ICalendarEvent.end_ baseEvent - ICalendarEvent.start baseEvent)
                   :: rest).
Proof.
  intros Hwin Hfuel.
  destruct (generateRecurringEvents_returns fuel baseEvent pattern startDate endDate
              maxOccurrences Hfuel) as (n & Hrun & Hn & Hguards & Hstop).
  cbv zeta in Hrun, Hguards, Hstop.
  rewrite (initialDate_in_window baseEvent pattern startDate Hwin) in Hrun, Hguards, Hstop.
  eexists. split; [exact Hrun |]. split.
  - intros Hg. destruct n as [| n]; [reflexivity |].
    pose proof (Hguards 0%nat ltac:(lia)) as H0.
    change (loopGuard pattern endDate maxOccurrences (ICalendarEvent.start baseEvent) 0
            = true) in H0.
    congruence.
  - intros Hg. destruct n as [| n].
    { change (loopGuard pattern endDate maxOccurrences (ICalendarEvent.start baseEvent) 0
              = false) in Hstop.
      congruence. }
    rewrite occurrencesFrom_succ. eexists. reflexivity.
Qed.

Lemma recur_id_differs (id : string) (n : Z) :
  String.eqb (id +:+ "_recur_" +:+ numberToString n) id = false.
Proof.
  apply String.eqb_neq. intros H. apply (f_equal String.length) in H.
  rewrite !StringFacts.length_append in H. cbn [String.length] in H. lia.
Qed.

(** X30.  The occurrences generated from a base event are not linked to it
    by the series look-ups: unless the base event names itself as its
    master, [findSeriesInstances] finds none of them under the id of the
    base event and [findMasterEvent] finds no master among them, and each
    of them answers [isRecurringEvent] and [isRecurringException] as the
    base event does. *)
Theorem generated_occurrences_are_not_linked_to_the_series
    (fuel : nat) (baseEvent : ICalendarEvent.t) (pattern : IRecurrencePattern.t)
    (startDate endDate maxOccurrences : Z) :
  (Z.to_nat maxOccurrences <= fuel)%nat ->
  ICalendarEvent.masterSeriesId baseEvent <> Some (ICalendarEvent.id baseEvent) ->
  exists events,
    generateRecurringEvents fuel baseEvent pattern startDate endDate maxOccurrences
    = Some events
    /\ findSeriesInstances events (ICalendarEvent.id baseEvent) = []
    /\ findMasterEvent events (ICalendarEvent.id baseEvent) = None
    /\ findSeriesInstances (baseEvent :: events) (ICalendarEvent.id baseEvent)
       = [baseEvent]
    /\ Forall (fun ev => isRecurringEvent ev = isRecurringEvent baseEvent
                         /\ isRecurringException ev = isRecurringException baseEvent)
         events.
Proof.
  intros Hfuel Hmaster.
  destruct (generateRecurringEvents_returns fuel baseEvent pattern startDate endDate
              maxOccurrences Hfuel) as (n & Hrun & _).
  cbv zeta in Hrun. eexists. split; [exact Hrun |].
  set (events := occurrencesFrom baseEvent pattern _ n _ 0).
  assert (Hmiss : Forall (fun ev =>
            String.eqb (ICalendarEvent.id ev) (ICalendarEvent.id baseEvent) = false
            /\ match ICalendarEvent.masterSeriesId ev with
               | Some master => String.eqb master (ICalendarEvent.id baseEvent)
               | None => false
               end = false
            /\ isRecurringEvent ev = isRecurringEvent baseEvent
            /\ isRecurringException ev = isRecurringException baseEvent) events).
  { apply Forall_lookup. intros i ev Hev.
    apply lookup_occurrencesFrom in Hev. destruct Hev as [_ ->].
    cbn [recurringEvent ICalendarEvent.id ICalendarEvent.masterSeriesId].
    split; [apply recur_id_differs |]. split; [| split; reflexivity].
    destruct (ICalendarEvent.masterSeriesId baseEvent) as [master |]; [| reflexivity].
    apply String.eqb_neq. congruence. }
  assert (Hnone : findSeriesInstances events (ICalendarEvent.id baseEvent) = []).
  { unfold findSeriesInstances. induction Hmiss as [| ev l (H1 & H2 & _) _ IH];
      [reflexivity |].
    cbn [List.filter]. rewrite H1, H2. exact IH. }
  split; [exact Hnone |]. split; [| split].
  - unfold findMasterEvent. induction Hmiss as [| ev l (H1 & _) _ IH]; [reflexivity |].
    cbn [List.find]. rewrite H1. cbn [andb]. apply IH.
    unfold findSeriesInstances in Hnone. cbn [List.filter] in Hnone. rewrite H1 in Hnone.
    destruct (match ICalendarEvent.masterSeriesId ev with
              | Some master => String.eqb master (ICalendarEvent.id baseEvent)
              | None => false end); [discriminate | exact Hnone].
  - unfold findSeriesInstances in *. cbn [List.filter].
    rewrite String.eqb_refl. cbn [orb]. rewrite Hnone. reflexivity.
  - eapply List.Forall_impl; [| exact Hmiss]. intros ev (_ & _ & H3 & H4). auto.
Qed.

End Occurrences.

Section OccurrencesExamples.
Import JS JSDate RecurrenceUtils Expansion.

(** Instance of X26: a daily series over five days. *)
Lemma occurrences_increase_and_have_distinct_ids_witness :
  exists events,
    generateRecurringEvents 10 (Samples.event "1" "Sync" 0) Samples.dailyEveryDay
      0 (5 * msPerDay) 10 = Some events
    /\ NoDup (List.map ICalendarEvent.id events)
    /\ (isValidPattern Samples.dailyEveryDay = true ->
        forall (i j : nat) (a b : ICalendarEvent.t),
          (i < j)%nat -> events !! i = Some a -> events !! j = Some b ->
          ICalendarEvent.start a < ICalendarEvent.start b).
Proof.
  apply (occurrences_increase_and_have_distinct_ids 10 (Samples.event "1" "Sync" 0)
           Samples.dailyEveryDay 0 (5 * msPerDay) 10).
  apply Nat.leb_le. vm_compute. reflexivity.
Defined.

(** Instance of X27: a daily series from 1 January 1970, 00:00, whose
    pattern ends at noon of 3 January and after three occurrences, expanded
    over ten days with a cap of ten.  Both end conditions apply: the three
    occurrences returned start before that noon. *)
Lemma pattern_end_conditions_are_honoured_witness :
  exists events,
    generateRecurringEvents 10 (Samples.event "1" "Sync" 0)
      Samples.dailyThreeTimesUntilNoon 0 (10 * msPerDay) 10 = Some events
    /\ length events = 3%nat
    /\ Forall (fun ev => ICalendarEvent.start ev < UTC 1970 0 3 43200000) events
    /\ Z.of_nat (length events) <= Z.max 0 3
    /\ generateRecurringEvents 10 (Samples.event "1" "Sync" 0)
         (withOccurrences Samples.dailyThreeTimesUntilNoon (Some 0)) 0 (10 * msPerDay) 10
       = generateRecurringEvents 10 (Samples.event "1" "Sync" 0)
           (withOccurrences Samples.dailyThreeTimesUntilNoon None) 0 (10 * msPerDay) 10.
Proof.
  destruct (pattern_end_conditions_are_honoured 10 (Samples.event "1" "Sync" 0)
              Samples.dailyThreeTimesUntilNoon 0 (10 * msPerDay) 10)
    as (events & Hrun & Hend & Hcount & Hzero).
  - apply Nat.leb_le. vm_compute. reflexivity.
  - exists events. split; [exact Hrun |]. split.
    + vm_compute in Hrun. injection Hrun as <-. reflexivity.
    + split; [apply (Hend (UTC 1970 0 3 43200000)); reflexivity |].
      split; [apply (Hcount 3); [reflexivity | discriminate] | exact Hzero].
Defined.

(** Instance of X28: the same series, with month and year differences that
    are not consulted for a daily pattern. *)
Lemma daily_expansion_is_evenly_spaced_witness :
  exists events,
    generateRecurringEvents 10 (Samples.event "1" "Sync" 0) Samples.dailyEveryDay
      0 (5 * msPerDay) 10 = Some events
    /\ (forall (i : nat) (ev : ICalendarEvent.t),
          events !! i = Some ev ->
          ICalendarEvent.start ev
          = ICalendarEvent.start (Samples.event "1" "Sync" 0)
            + Z.of_nat i * IRecurrencePattern.interval Samples.dailyEveryDay * msPerDay
          /\ dateMatchesPattern (fun _ _ => 0) (fun _ _ => 0) (ICalendarEvent.start ev)
               Samples.dailyEveryDay (ICalendarEvent.start (Samples.event "1" "Sync" 0))
             = true)
    /\ (IRecurrencePattern.endDate Samples.dailyEveryDay = None ->
        IRecurrencePattern.occurrences Samples.dailyEveryDay = None ->
        Z.of_nat (length events)
        = Z.max 0
            (Z.min 10
               (ceilDiv (5 * msPerDay - ICalendarEvent.start (Samples.event "1" "Sync" 0))
                  (IRecurrencePattern.interval Samples.dailyEveryDay * msPerDay)))).
Proof.
  apply (daily_expansion_is_evenly_spaced (fun _ _ => 0) (fun _ _ => 0) 10
           (Samples.event "1" "Sync" 0) Samples.dailyEveryDay 0 (5 * msPerDay) 10).
  - reflexivity.
  - vm_compute. discriminate.
  - vm_compute. discriminate.
  - apply Nat.leb_le. vm_compute. reflexivity.
Defined.

(** Instance of X29: the same series. *)
Lemma first_occurrence_is_the_base_event_witness :
  exists events,
    generateRecurringEvents 10 (Samples.event "1" "Sync" 0) Samples.dailyEveryDay
      0 (5 * msPerDay) 10 = Some events
    /\ (loopGuard Samples.dailyEveryDay (5 * msPerDay) 10
          (ICalendarEvent.start (Samples.event "1" "Sync" 0)) 0 = false ->
        events = [])
    /\ (loopGuard Samples.dailyEveryDay (5 * msPerDay) 10
          (ICalendarEvent.start (Samples.event "1" "Sync" 0)) 0 = true ->
        exists rest,
          events = recurringEvent (Samples.event "1" "Sync" 0) 0
                     (ICalendarEvent.start (Samples.event "1" "Sync" 0))
                     (ICalendarEvent.end_ (Samples.event "1" "Sync" 0)
                      - ICalendarEvent.start (Samples.event "1" "Sync" 0))
                   :: rest).
Proof.
  apply (first_occurrence_is_the_base_event 10 (Samples.event "1" "Sync" 0)
           Samples.dailyEveryDay 0 (5 * msPerDay) 10).
  - vm_compute. discriminate.
  - apply Nat.leb_le. vm_compute. reflexivity.
Defined.

(** Instance of X30: the same series. *)
Lemma generated_occurrences_are_not_linked_to_the_series_witness :
  exists events,
    generateRecurringEvents 10 (Samples.event "1" "Sync" 0) Samples.dailyEveryDay
      0 (5 * msPerDay) 10 = Some events
    /\ findSeriesInstances events (ICalendarEvent.id (Samples.event "1" "Sync" 0)) = []
    /\ findMasterEvent events (ICalendarEvent.id (Samples.event "1" "Sync" 0)) = None
    /\ findSeriesInstances (Samples.event "1" "Sync" 0 :: events)
         (ICalendarEvent.id (Samples.event "1" "Sync" 0))
       = [Samples.event "1" "Sync" 0]
    /\ Forall (fun ev =>
                 isRecurringEvent ev = isRecurringEvent (Samples.event "1" "Sync" 0)
                 /\ isRecurringException ev
                    = isRecurringException (Samples.event "1" "Sync" 0))
         events.
Proof.
  apply (generated_occurrences_are_not_linked_to_the_series 10
           (Samples.event "1" "Sync" 0) Samples.dailyEveryDay 0 (5 * msPerDay) 10).
  - apply Nat.leb_le. vm_compute. reflexivity.
  - discriminate.
Defined.

End OccurrencesExamples.
